(** * ArtCertify: the CID/address codec, the upload coordinator, the minting
      orchestrator and the validator of the NFT minting service.

    The TypeScript of the service ([CidDecoder], [uploadFilesInParallel],
    [createDocumentCertification], [updateCertification],
    [validateCertification], and with them [updateAssetWithCID],
    [getCachedMetadata] and [prepareCertificationMetadata]) is embedded as
    Rocq functions.  Synchronous
    code that can throw returns a [result]; asynchronous code is a program
    of type [prog], whose [Await] nodes are the calls to the ledger and
    storage collaborators; [run] runs a program against any environment and
    records the calls it made. *)

From Stdlib Require Import String Ascii DecimalString ZArith NArith Lia Bool List.
From Stdlib.Strings Require Import Byte.
Import ListNotations.

Set Implicit Arguments.
Set Warnings "-register-all".

(* ===================================================================== *)
(** * Part I: definitions                                                 *)
(* ===================================================================== *)

(** ** JavaScript errors and the outcome of synchronous code *)

(** A JavaScript [Error]: the services only ever read its [message]. *)
Inductive error : Type :=
| Error (message : string).

Definition message (e : error) : string :=
  match e with Error m => m end.

(** What a synchronous call does: it returns a value or throws. *)
Inductive result (A : Type) : Type :=
| Returned (a : A)
| Thrown (e : error).

Arguments Returned {A} a.
Arguments Thrown {A} e.

Definition rbind {A B : Type} (r : result A) (k : A -> result B) : result B :=
  match r with
  | Returned a => k a
  | Thrown e => Thrown e
  end.

(** [try { body } catch (error) { handler }] around synchronous code. *)
Definition rcatch {A : Type} (body : result A) (handler : error -> result A)
  : result A :=
  match body with
  | Returned a => Returned a
  | Thrown e => handler e
  end.

Declare Scope result_scope.
Delimit Scope result_scope with result.
Notation "'let*' x ':=' r 'in' k" := (rbind r (fun x => k))
  (at level 10, x pattern, r at level 100, k at level 200) : result_scope.

(** ** Bytes and bits *)

Module Bytes.

(** The eight bits of a byte, most significant first. *)
Definition bits_of_byte (b : byte) : list bool :=
  let '(b0, (b1, (b2, (b3, (b4, (b5, (b6, b7))))))) := Byte.to_bits b in
  [b7; b6; b5; b4; b3; b2; b1; b0].

Definition byte_of_bits (b7 b6 b5 b4 b3 b2 b1 b0 : bool) : byte :=
  Byte.of_bits (b0, (b1, (b2, (b3, (b4, (b5, (b6, b7))))))).

Definition bits_of_bytes (bs : list byte) : list bool :=
  flat_map bits_of_byte bs.

(** Whole bytes of a bit string; fewer than eight trailing bits are
    dropped and returned apart. *)
Fixpoint bytes_of_bits (bits : list bool) : list byte * list bool :=
  match bits with
  | b7 :: b6 :: b5 :: b4 :: b3 :: b2 :: b1 :: b0 :: rest =>
      let '(bs, tail) := bytes_of_bits rest in
      (byte_of_bits b7 b6 b5 b4 b3 b2 b1 b0 :: bs, tail)
  | tail => ([], tail)
  end.

Definition byte_of_N (n : N) : byte :=
  match Byte.of_N (n mod 256) with
  | Some b => b
  | None => x00
  end.

Definition byte_of_Z (z : Z) : byte := byte_of_N (Z.to_N (z mod 256)).

Definition Z_of_byte (b : byte) : Z := Z.of_N (Byte.to_N b).

End Bytes.

(** ** RFC 4648 base32 over a 32-character alphabet

    Both the ledger's address text (upper-case alphabet, through algosdk and
    hi-base32) and the CID text (lower-case alphabet, multibase prefix [b],
    through multiformats) are base32 without padding. *)

Module Base32.

Definition bit (b : bool) : nat := if b then 1 else 0.

(** The value of a group of five bits, most significant first. *)
Definition quintet (b4 b3 b2 b1 b0 : bool) : nat :=
  16 * bit b4 + 8 * bit b3 + 4 * bit b2 + 2 * bit b1 + bit b0.

Definition bits_of_quintet (v : nat) : list bool :=
  [Nat.testbit v 4; Nat.testbit v 3; Nat.testbit v 2; Nat.testbit v 1;
   Nat.testbit v 0].

(** Groups of five bits; the last group is filled with zero bits. *)
Fixpoint quintets (bits : list bool) : list nat :=
  match bits with
  | [] => []
  | b4 :: b3 :: b2 :: b1 :: b0 :: rest =>
      quintet b4 b3 b2 b1 b0 :: quintets rest
  | [b4; b3; b2; b1] => [quintet b4 b3 b2 b1 false]
  | [b4; b3; b2] => [quintet b4 b3 b2 false false]
  | [b4; b3] => [quintet b4 b3 false false false]
  | [b4] => [quintet b4 false false false false]
  end.

Definition upper : string := "ABCDEFGHIJKLMNOPQRSTUVWXYZ234567".
Definition lower : string := "abcdefghijklmnopqrstuvwxyz234567".

Definition char_of (alphabet : string) (v : nat) : ascii :=
  match String.get v alphabet with
  | Some c => c
  | None => "="%char
  end.

Fixpoint index_of (c : ascii) (alphabet : string) : option nat :=
  match alphabet with
  | EmptyString => None
  | String a rest =>
      if Ascii.eqb a c then Some 0
      else option_map S (index_of c rest)
  end.

Fixpoint values_of (alphabet : string) (cs : list ascii)
  : option (list nat) :=
  match cs with
  | [] => Some []
  | c :: rest =>
      match index_of c alphabet, values_of alphabet rest with
      | Some v, Some vs => Some (v :: vs)
      | _, _ => None
      end
  end.

(** Encoding without padding characters. *)
Definition encode (alphabet : string) (bs : list byte) : string :=
  string_of_list_ascii
    (map (char_of alphabet) (quintets (Bytes.bits_of_bytes bs))).

(** The bytes and the left-over bits (fewer than eight) of a text, or
    [None] when a character is outside the alphabet. *)
Definition decode_bits (alphabet : string) (s : string)
  : option (list byte * list bool) :=
  match values_of alphabet (list_ascii_of_string s) with
  | Some vs => Some (Bytes.bytes_of_bits (flat_map bits_of_quintet vs))
  | None => None
  end.

End Base32.

(** ** SHA-512/256 (FIPS 180-4), the ledger's address checksum hash

    algosdk takes the checksum of an address from [genericHash], which is
    SHA-512/256.  Words are 64-bit integers held in [Z] with the wrap-around
    written out. *)

Module Sha512.
Local Open Scope Z_scope.

Definition mask64 : Z := 0xffffffffffffffff.
Definition add64 (a b : Z) : Z := Z.land (a + b) mask64.
Definition rotr (n x : Z) : Z :=
  Z.land (Z.lor (Z.shiftr x n) (Z.shiftl x (64 - n))) mask64.
Definition shr (n x : Z) : Z := Z.shiftr x n.
Definition Ch (x y z : Z) : Z :=
  Z.lxor (Z.land x y) (Z.land (Z.lxor x mask64) z).
Definition Maj (x y z : Z) : Z :=
  Z.lxor (Z.lxor (Z.land x y) (Z.land x z)) (Z.land y z).
Definition Sigma0 (x : Z) : Z :=
  Z.lxor (Z.lxor (rotr 28 x) (rotr 34 x)) (rotr 39 x).
Definition Sigma1 (x : Z) : Z :=
  Z.lxor (Z.lxor (rotr 14 x) (rotr 18 x)) (rotr 41 x).
Definition sigma0 (x : Z) : Z :=
  Z.lxor (Z.lxor (rotr 1 x) (rotr 8 x)) (shr 7 x).
Definition sigma1 (x : Z) : Z :=
  Z.lxor (Z.lxor (rotr 19 x) (rotr 61 x)) (shr 6 x).

Definition K : list Z :=
  [0x428a2f98d728ae22; 0x7137449123ef65cd; 0xb5c0fbcfec4d3b2f; 0xe9b5dba58189dbbc;
   0x3956c25bf348b538; 0x59f111f1b605d019; 0x923f82a4af194f9b; 0xab1c5ed5da6d8118;
   0xd807aa98a3030242; 0x12835b0145706fbe; 0x243185be4ee4b28c; 0x550c7dc3d5ffb4e2;
   0x72be5d74f27b896f; 0x80deb1fe3b1696b1; 0x9bdc06a725c71235; 0xc19bf174cf692694;
   0xe49b69c19ef14ad2; 0xefbe4786384f25e3; 0x0fc19dc68b8cd5b5; 0x240ca1cc77ac9c65;
   0x2de92c6f592b0275; 0x4a7484aa6ea6e483; 0x5cb0a9dcbd41fbd4; 0x76f988da831153b5;
   0x983e5152ee66dfab; 0xa831c66d2db43210; 0xb00327c898fb213f; 0xbf597fc7beef0ee4;
   0xc6e00bf33da88fc2; 0xd5a79147930aa725; 0x06ca6351e003826f; 0x142929670a0e6e70;
   0x27b70a8546d22ffc; 0x2e1b21385c26c926; 0x4d2c6dfc5ac42aed; 0x53380d139d95b3df;
   0x650a73548baf63de; 0x766a0abb3c77b2a8; 0x81c2c92e47edaee6; 0x92722c851482353b;
   0xa2bfe8a14cf10364; 0xa81a664bbc423001; 0xc24b8b70d0f89791; 0xc76c51a30654be30;
   0xd192e819d6ef5218; 0xd69906245565a910; 0xf40e35855771202a; 0x106aa07032bbd1b8;
   0x19a4c116b8d2d0c8; 0x1e376c085141ab53; 0x2748774cdf8eeb99; 0x34b0bcb5e19b48a8;
   0x391c0cb3c5c95a63; 0x4ed8aa4ae3418acb; 0x5b9cca4f7763e373; 0x682e6ff3d6b2b8a3;
   0x748f82ee5defb2fc; 0x78a5636f43172f60; 0x84c87814a1f0ab72; 0x8cc702081a6439ec;
   0x90befffa23631e28; 0xa4506cebde82bde9; 0xbef9a3f7b2c67915; 0xc67178f2e372532b;
   0xca273eceea26619c; 0xd186b8c721c0c207; 0xeada7dd6cde0eb1e; 0xf57d4f7fee6ed178;
   0x06f067aa72176fba; 0x0a637dc5a2c898a6; 0x113f9804bef90dae; 0x1b710b35131c471b;
   0x28db77f523047d84; 0x32caab7b40c72493; 0x3c9ebe0a15c9bebc; 0x431d67c49c100d4c;
   0x4cc5d4becb3e42b6; 0x597f299cfc657e2a; 0x5fcb6fab3ad6faec; 0x6c44198c4a475817].

(** The eight working words. *)
Record state : Type := State {
  ha : Z; hb : Z; hc : Z; hd : Z; he : Z; hf : Z; hg : Z; hh : Z
}.

(** Initial hash value of SHA-512/256. *)
Definition H0 : state :=
  State 0x22312194FC2BF72C 0x9F555FA3C84C64C2 0x2393B86B6F53B151
        0x963877195940EABD 0x96283EE2A88EFFE3 0xBE5E1E2553863992
        0x2B0199FC2C85B8AA 0x0EB72DDC81C52CA2.

(** Big-endian bytes of a word and back. *)
Definition be_bytes (width : nat) (x : Z) : list byte :=
  map (fun i => Bytes.byte_of_Z (Z.shiftr x (8 * Z.of_nat i)))
      (rev (seq 0 width)).

Definition be_word (bs : list byte) : Z :=
  fold_left (fun acc b => acc * 256 + Bytes.Z_of_byte b) bs 0.

(** Padding: a one bit, zero bits up to 112 modulo 128 bytes, and the
    bit length on 128 bits. *)
Definition pad (m : list byte) : list byte :=
  let len := Z.of_nat (length m) in
  let zeros := Z.to_nat ((111 - len) mod 128) in
  m ++ [x80] ++ repeat x00 zeros ++ be_bytes 16 (8 * len).

(** [count] consecutive chunks of [size] bytes. *)
Fixpoint chunks (size count : nat) (bs : list byte) : list (list byte) :=
  match count with
  | O => []
  | S n => firstn size bs :: chunks size n (skipn size bs)
  end.

(** Message schedule, most recent word first. *)
Fixpoint schedule (n : nat) (w : list Z) : list Z :=
  match n with
  | O => w
  | S n' =>
      let wt := add64 (add64 (sigma1 (nth 1 w 0)) (nth 6 w 0))
                      (add64 (sigma0 (nth 14 w 0)) (nth 15 w 0)) in
      schedule n' (wt :: w)
  end.

Definition round (s : state) (kw : Z * Z) : state :=
  let '(k, w) := kw in
  let t1 := add64 (add64 (add64 (hh s) (Sigma1 (he s)))
                         (add64 (Ch (he s) (hf s) (hg s)) k)) w in
  let t2 := add64 (Sigma0 (ha s)) (Maj (ha s) (hb s) (hc s)) in
  State (add64 t1 t2) (ha s) (hb s) (hc s)
        (add64 (hd s) t1) (he s) (hf s) (hg s).

Definition compress (h : state) (block : list byte) : state :=
  let w16 := map be_word (chunks 8 16 block) in
  let w := rev (schedule 64 (rev w16)) in
  let s := fold_left round (combine K w) h in
  State (add64 (ha h) (ha s)) (add64 (hb h) (hb s))
        (add64 (hc h) (hc s)) (add64 (hd h) (hd s))
        (add64 (he h) (he s)) (add64 (hf h) (hf s))
        (add64 (hg h) (hg s)) (add64 (hh h) (hh s)).

Definition final_state (m : list byte) : state :=
  let p := pad m in
  fold_left compress (chunks 128 (length p / 128) p) H0.

(** The 32-byte digest: the first four words. *)
Definition sha512_256 (m : list byte) : list byte :=
  let s := final_state m in
  be_bytes 8 (ha s) ++ be_bytes 8 (hb s) ++
  be_bytes 8 (hc s) ++ be_bytes 8 (hd s).

End Sha512.

(** ** Unsigned LEB128 varints, as multiformats reads and writes them *)

Module Varint.
Local Open Scope N_scope.

(** [decode] reads one varint and returns it with the bytes that follow;
    [None] when the bytes end before the varint does.  The reader sets no
    bound on the length of a varint. *)
Fixpoint decode_from (shift acc : N) (bs : list byte)
  : option (N * list byte) :=
  match bs with
  | [] => None
  | b :: rest =>
      let v := Byte.to_N b in
      let acc' := acc + N.shiftl (N.land v 127) shift in
      if v <? 128 then Some (acc', rest)
      else decode_from (shift + 7) acc' rest
  end.

Definition decode (bs : list byte) : option (N * list byte) :=
  decode_from 0 0 bs.

Fixpoint encode_fuel (fuel : nat) (n : N) : list byte :=
  match fuel with
  | O => []
  | S fuel' =>
      if n <? 128 then [Bytes.byte_of_N n]
      else Bytes.byte_of_N (N.lor (N.land n 127) 128)
             :: encode_fuel fuel' (N.shiftr n 7)
  end.

(** JavaScript numbers are below 2^53: eight bytes always suffice. *)
Definition encode (n : N) : list byte := encode_fuel 8 n.

End Varint.

(** ** Positional codecs over an alphabet (base58btc, base36)

    multiformats reads the text as one big number, each leading zero digit
    standing for one zero byte. *)

Module BaseX.
Local Open Scope N_scope.

Definition base58btc : string :=
  "123456789ABCDEFGHJKLMNPQRSTUVWXYZabcdefghijkmnopqrstuvwxyz".
Definition base36 : string := "0123456789abcdefghijklmnopqrstuvwxyz".

Definition radix (alphabet : string) : N := N.of_nat (String.length alphabet).

Fixpoint number_of (alphabet : string) (acc : N) (cs : list ascii)
  : option N :=
  match cs with
  | [] => Some acc
  | c :: rest =>
      match Base32.index_of c alphabet with
      | Some v => number_of alphabet (acc * radix alphabet + N.of_nat v) rest
      | None => None
      end
  end.

Fixpoint leading {A : Type} (is_zero : A -> bool) (l : list A)
  : nat * list A :=
  match l with
  | [] => (O, [])
  | a :: rest =>
      if is_zero a then let '(n, r) := leading is_zero rest in (S n, r)
      else (O, l)
  end.

(** Big-endian bytes of a number, none for zero. *)
Fixpoint bytes_of_number (fuel : nat) (n : N) (acc : list byte)
  : list byte :=
  match fuel with
  | O => acc
  | S fuel' =>
      if n =? 0 then acc
      else bytes_of_number fuel' (n / 256)
             (Bytes.byte_of_N (n mod 256) :: acc)
  end.

Definition decode (alphabet : string) (s : string) : option (list byte) :=
  let cs := list_ascii_of_string s in
  let zero := Base32.char_of alphabet 0 in
  let '(zeros, digits) := leading (Ascii.eqb zero) cs in
  match number_of alphabet 0 digits with
  | Some n =>
      Some (repeat x00 zeros ++ bytes_of_number (length digits) n [])
  | None => None
  end.

Fixpoint digits_of_number (alphabet : string) (fuel : nat) (n : N)
    (acc : list ascii) : list ascii :=
  match fuel with
  | O => acc
  | S fuel' =>
      if n =? 0 then acc
      else digits_of_number alphabet fuel' (n / radix alphabet)
             (Base32.char_of alphabet (N.to_nat (n mod radix alphabet))
                :: acc)
  end.

Definition encode (alphabet : string) (bs : list byte) : string :=
  let '(zeros, rest) := leading (Byte.eqb x00) bs in
  let n := fold_left (fun acc b => acc * 256 + Byte.to_N b) rest 0 in
  string_of_list_ascii
    (repeat (Base32.char_of alphabet 0) zeros ++
     digits_of_number alphabet (2 * length rest) n []).

End BaseX.

(** ** multiformats: multihash digests and CIDs

    The multiformats package is not part of the repository; [CID.parse],
    [CID.createV1] and [toString], which [CidDecoder] calls, are embedded
    here from the package's documented behaviour. *)

Module Multiformats.
Local Open Scope N_scope.

(** A multihash: the hash-function code and the digest bytes.  The size
    the package stores next to them is always the digest's length. *)
Record Digest : Type := MkDigest {
  code : N;
  digest : list byte
}.

Definition size (d : Digest) : N := N.of_nat (length (digest d)).

Record CID : Type := MkCID {
  version : N;
  codec : N;
  multihash : Digest
}.

Definition SHA2_256 : N := 0x12.
Definition DAG_PB : N := 0x70.
Definition RAW : N := 0x55.

(** [Digest.create(code, digest)]. *)
Definition create_digest (c : N) (d : list byte) : Digest := MkDigest c d.

Definition digest_bytes (d : Digest) : list byte :=
  Varint.encode (code d) ++ Varint.encode (size d) ++ digest d.

Definition createV0 (d : Digest) : CID := MkCID 0 DAG_PB d.
Definition createV1 (c : N) (d : Digest) : CID := MkCID 1 c d.

(** The version-1 raw CID of a sha2-256 digest. *)
Definition raw_sha256 (d : list byte) : CID :=
  createV1 RAW (create_digest SHA2_256 d).

(** The binary form: a version-0 CID is its bare multihash. *)
Definition cid_bytes (c : CID) : list byte :=
  if version c =? 0 then digest_bytes (multihash c)
  else Varint.encode (version c) ++ Varint.encode (codec c)
         ++ digest_bytes (multihash c).

(** [cid.toString()]: base58btc without prefix for version 0, base32 with
    the multibase prefix [b] otherwise. *)
Definition toString (c : CID) : string :=
  if version c =? 0 then BaseX.encode BaseX.base58btc (cid_bytes c)
  else String "b" (Base32.encode Base32.lower (cid_bytes c)).

Definition Error_incorrect_length : error := Error "Incorrect length".
Definition Error_varint : error := Error "Could not decode varint".
Definition Error_version (version : N) : error :=
  Error ("Invalid CID version "
         ++ NilEmpty.string_of_uint (N.to_uint version)).
Definition Error_v0_prefix : error :=
  Error "Version 0 CID string must not include multibase prefix".
Definition Error_multibase : error :=
  Error "To parse non base32, base36 or base58btc encoded CID multibase decoder must be provided".
Definition Error_unexpected_end : error := Error "Unexpected end of data".
Definition Error_non_base32 : error := Error "Non-base32 character".
Definition Error_non_base58 : error := Error "Non-base58btc character".
Definition Error_non_base36 : error := Error "Non-base36 character".

Definition varint (bs : list byte) : result (N * list byte) :=
  match Varint.decode bs with
  | Some r => Returned r
  | None => Thrown Error_varint
  end.

(** [CID.decode(bytes)]: version, codec, multihash code and digest size,
    then exactly that many digest bytes. *)
Definition decode (bytes : list byte) : result CID :=
  (let* (v, rest) := varint bytes in
   let* (ver, cdc, body) :=
     (if v =? 18 then Returned (0, DAG_PB, bytes)
      else let* (c, r) := varint rest in Returned (v, c, r)) in
   if negb ((ver =? 0) || (ver =? 1)) then Thrown (Error_version ver)
   else
     let* (mhcode, r1) := varint body in
     let* (dsize, dg) := varint r1 in
     if N.of_nat (length dg) =? dsize then
       Returned (if ver =? 0 then createV0 (MkDigest mhcode dg)
                 else createV1 cdc (MkDigest mhcode dg))
     else Thrown Error_incorrect_length)%result.

Fixpoint strip_leading_pad (cs : list ascii) : list ascii :=
  match cs with
  | c :: rest =>
      if Ascii.eqb c "="%char then strip_leading_pad rest else cs
  | [] => []
  end.

(** Trailing [=] characters are ignored by the decoder. *)
Definition strip_pad (s : string) : string :=
  string_of_list_ascii
    (rev (strip_leading_pad (rev (list_ascii_of_string s)))).

(** The strict RFC 4648 decoder: left-over bits must be fewer than five
    and all zero. *)
Definition base32_decode (s : string) : result (list byte) :=
  match Base32.decode_bits Base32.lower (strip_pad s) with
  | None => Thrown Error_non_base32
  | Some (bs, tail) =>
      if (5 <=? length tail)%nat || existsb (fun b => b) tail
      then Thrown Error_unexpected_end
      else Returned bs
  end.

Definition baseX_decode (alphabet : string) (e : error) (s : string)
  : result (list byte) :=
  match BaseX.decode alphabet s with
  | Some bs => Returned bs
  | None => Thrown e
  end.

(** [parseCIDtoBytes(source)]: the multibase is chosen by the first
    character; a text starting with [Q] is a bare base58btc version-0
    CID. *)
Definition parseCIDtoBytes (source : string) : result (list byte) :=
  match source with
  | String "Q" _ => baseX_decode BaseX.base58btc Error_non_base58 source
  | String "z" rest => baseX_decode BaseX.base58btc Error_non_base58 rest
  | String "b" rest => base32_decode rest
  | String "k" rest => baseX_decode BaseX.base36 Error_non_base36 rest
  | _ => Thrown Error_multibase
  end.

(** [CID.parse(source)]. *)
Definition parse (source : string) : result CID :=
  (let* bytes := parseCIDtoBytes source in
   let* cid := decode bytes in
   if (version cid =? 0) && negb (String.prefix "Q" source)
   then Thrown Error_v0_prefix
   else Returned cid)%result.

End Multiformats.

(** ** algosdk: the ledger's address text

    algosdk is not part of the repository; [encodeAddress] and
    [decodeAddress] are embedded from the package's documented behaviour:
    32 payload bytes, the last 4 bytes of their SHA-512/256 hash as
    checksum, base32 over the upper-case alphabet, 58 characters. *)

Module Algosdk.

Definition ALGORAND_ADDRESS_BYTE_LENGTH : nat := 36.
Definition ALGORAND_CHECKSUM_BYTE_LENGTH : nat := 4.
Definition ALGORAND_ADDRESS_LENGTH : nat := 58.
Definition PUBLIC_KEY_LENGTH : nat := 32.

Definition genericHash (bs : list byte) : list byte := Sha512.sha512_256 bs.

(** [genericHash(pk).slice(28, 32)]. *)
Definition checksum_of (pk : list byte) : list byte :=
  firstn ALGORAND_CHECKSUM_BYTE_LENGTH
    (skipn (PUBLIC_KEY_LENGTH - ALGORAND_CHECKSUM_BYTE_LENGTH)
       (genericHash pk)).

(** hi-base32's [encode]: padded with [=] to a multiple of 8 characters. *)
Definition hi_base32_encode (bs : list byte) : string :=
  let s := Base32.encode Base32.upper bs in
  let n := String.length s in
  (s ++ string_of_list_ascii (repeat "="%char ((8 - n mod 8) mod 8)))%string.

(** Modelled from the spec: [algosdk.encodeAddress] (an external package,
    not in the sources).  The ledger's 4-byte checksum is appended to the
    payload and the whole is base32-encoded; the padding is cut off, which
    leaves 58 characters for a 32-byte payload. *)
Definition encodeAddress (address : list byte) : string :=
  let checksum := checksum_of address in
  let addr := hi_base32_encode (address ++ checksum) in
  substring 0 ALGORAND_ADDRESS_LENGTH addr.

Definition MALFORMED_ADDRESS_ERROR_MSG : string :=
  "address seems to be malformed".
Definition CHECKSUM_ADDRESS_ERROR_MSG : string :=
  "wrong checksum for address".
Definition INVALID_BASE32_MSG : string := "Invalid base32 characters".

Definition is_pad (c : ascii) : bool := Ascii.eqb c "="%char.

Definition is_base32_char (c : ascii) : bool :=
  match Base32.index_of c Base32.upper with
  | Some _ => true
  | None => is_pad c
  end.

(** Bytes hi-base32 produces for the characters that remain after the
    last full group of eight. *)
Definition remain_bytes (remain : nat) : nat :=
  match remain with
  | 2 => 1
  | 4 => 2
  | 5 => 3
  | 7 => 4
  | _ => 0
  end.

(** hi-base32's [decode.asBytes]: the text must match [A-Z2-7=]; every
    [=] is removed; eight characters give five bytes. *)
Definition hi_base32_decode (s : string) : result (list byte) :=
  let cs := list_ascii_of_string s in
  if negb (forallb is_base32_char cs) then Thrown (Error INVALID_BASE32_MSG)
  else
    let cs' := filter (fun c => negb (is_pad c)) cs in
    match Base32.values_of Base32.upper cs' with
    | None => Thrown (Error INVALID_BASE32_MSG)
    | Some vs =>
        let n := length vs in
        Returned
          (firstn (5 * (n / 8) + remain_bytes (n mod 8))
             (fst (Bytes.bytes_of_bits
                     (flat_map Base32.bits_of_quintet vs))))
    end.

Fixpoint bytes_eqb (a b : list byte) : bool :=
  match a, b with
  | [], [] => true
  | x :: a', y :: b' => Byte.eqb x y && bytes_eqb a' b'
  | _, _ => false
  end.

Record Address : Type := MkAddress {
  publicKey : list byte;
  checksum : list byte
}.

(** Modelled from the spec: [algosdk.decodeAddress] (an external package,
    not in the sources).  The text is base32-decoded; the checksum is
    recomputed over the leading 32 bytes and compared to the trailing 4; a
    mismatch fails with the [InvalidChecksum] fault, whose message in the
    package is [CHECKSUM_ADDRESS_ERROR_MSG].  A text that is not 58
    characters or 36 bytes long is malformed. *)
Definition decodeAddress (address : string) : result Address :=
  if negb (String.length address =? ALGORAND_ADDRESS_LENGTH)%nat
  then Thrown (Error MALFORMED_ADDRESS_ERROR_MSG)
  else
    (let* decoded := hi_base32_decode address in
     if negb (length decoded =? ALGORAND_ADDRESS_BYTE_LENGTH)%nat
     then Thrown (Error MALFORMED_ADDRESS_ERROR_MSG)
     else
       let pk := firstn (ALGORAND_ADDRESS_BYTE_LENGTH
                         - ALGORAND_CHECKSUM_BYTE_LENGTH) decoded in
       let cs := firstn ALGORAND_CHECKSUM_BYTE_LENGTH
                   (skipn PUBLIC_KEY_LENGTH decoded) in
       if bytes_eqb (checksum_of pk) cs
       then Returned (MkAddress pk cs)
       else Thrown (Error CHECKSUM_ADDRESS_ERROR_MSG))%result.

End Algosdk.

(** ** CidDecoder (src/services/cidDecoder.ts) *)

Module CidDecoder.
Import Multiformats.

(** The codec faults of the error taxonomy, as the messages that carry
    them. *)
Definition UnsupportedDigest : string := "UnsupportedDigest".
Definition InvalidChecksum : string := Algosdk.CHECKSUM_ADDRESS_ERROR_MSG.

(** Modelled from the spec: [multihashToAlgorandAddress], a private helper
    of [CidDecoder] that is missing from the sources.  It requires the
    multihash's hash function to be sha2-256 and its digest length to be
    exactly 32 bytes, otherwise it fails with [UnsupportedDigest]; it
    takes the 32-byte digest as the address payload, appends the ledger's
    4-byte checksum and base32-encodes the 36 bytes without padding. *)
Definition multihashToAlgorandAddress (multihash : Digest) : result string :=
  if (code multihash =? SHA2_256)%N && (size multihash =? 32)%N
  then Returned (Algosdk.encodeAddress (digest multihash))
  else Thrown (Error UnsupportedDigest).

(** Modelled from the spec: [algorandAddressToMultihash], a private helper
    of [CidDecoder] that is missing from the sources.  It wraps the
    32-byte payload in a sha2-256 multihash. *)
Definition algorandAddressToMultihash (publicKey : list byte) : Digest :=
  create_digest SHA2_256 publicKey.

Definition fromCidToAddress (cid : string) : result string :=
  rcatch
    (let* decoded := parse cid in
     let multihash := multihash decoded in
     let* algorandAddress := multihashToAlgorandAddress multihash in
     Returned algorandAddress)%result
    (fun error =>
       Thrown (Error ("Failed to convert CID to address: "
                      ++ message error))).

Definition fromAddressToCid (address : string) : result string :=
  rcatch
    (let* decoded := Algosdk.decodeAddress address in
     let multihash :=
       algorandAddressToMultihash (Algosdk.publicKey decoded) in
     let cid := createV1 0x55 multihash in
     Returned (toString cid))%result
    (fun error =>
       Thrown (Error ("Failed to convert address to CID: "
                      ++ message error))).

End CidDecoder.

(** ** JavaScript values of type [any] *)

Inductive json : Type :=
| JNull
| JBool (b : bool)
| JNum (z : Z)
| JStr (s : string)
| JArr (items : list json)
| JObj (fields : list (string * json)).

Module Json.

Definition decimal (n : nat) : string :=
  NilEmpty.string_of_uint (Nat.to_uint n).

Fixpoint lookup (key : string) (fields : list (string * json))
  : option json :=
  match fields with
  | [] => None
  | (k, v) :: rest => if String.eqb k key then Some v else lookup key rest
  end.

(** [{ ...fields, key: v }]: an existing key keeps its place. *)
Fixpoint set (key : string) (v : json) (fields : list (string * json))
  : list (string * json) :=
  match fields with
  | [] => [(key, v)]
  | (k, x) :: rest =>
      if String.eqb k key then (k, v) :: rest
      else (k, x) :: set key v rest
  end.

Fixpoint indexed {A : Type} (f : A -> json) (i : nat) (l : list A)
  : list (string * json) :=
  match l with
  | [] => []
  | a :: rest => (decimal i, f a) :: indexed f (S i) rest
  end.

(** The own enumerable properties that [{ ...v }] copies. *)
Definition spread (v : json) : list (string * json) :=
  match v with
  | JObj fields => fields
  | JArr items => indexed (fun x => x) 0 items
  | JStr s =>
      indexed (fun c => JStr (String c EmptyString)) 0
        (list_ascii_of_string s)
  | _ => []
  end.

(** [v.key]: [None] is [undefined]; reading a property of [null] throws. *)
Definition get (key : string) (v : json) : result (option json) :=
  match v with
  | JNull =>
      Thrown (Error ("Cannot read properties of null (reading '"
                     ++ key ++ "')"))
  | JObj fields => Returned (lookup key fields)
  | _ => Returned None
  end.

(** [!v] *)
Definition falsy (v : option json) : bool :=
  match v with
  | None | Some JNull | Some (JBool false) | Some (JNum 0%Z) => true
  | Some (JStr s) => String.eqb s ""
  | _ => false
  end.

End Json.

(** ** Data exchanged with the ledger and storage collaborators *)

Module File.
Record t : Type := mk { name : string; type : string; size : Z }.
End File.

Module FileHash.
Record t : Type := mk {
  name : string; hash : string; type : string; size : Z;
  ipfsUrl : string; gatewayUrl : string
}.
End FileHash.

(** The second argument of [ipfsService.uploadFile]:
    [{ name, keyvalues: { batch, timestamp } }]. *)
Module UploadOptions.
Record t : Type := mk { name : string; batch : string; timestamp : string }.
End UploadOptions.

Module PinResponse.
Record t : Type := mk { IpfsHash : string }.
End PinResponse.

Module IpfsResult.
Record t : Type := mk {
  metadataHash : string;
  metadataUrl : string;
  fileHashes : list FileHash.t
}.
End IpfsResult.

Module AssetParams.
Record t : Type := mk {
  total : Z; decimals : Z;
  creator : string; manager : string; reserve : string;
  freeze : string; clawback : string;
  name : option string; url : option string
}.
End AssetParams.

Module AssetInfo.
Record t : Type := mk { index : Z; params : AssetParams.t }.
End AssetInfo.

Module CreateAsset.
Record t : Type := mk {
  assetName : string; unitName : string;
  total : Z; decimals : Z; defaultFrozen : bool;
  manager : string; reserve : string; freeze : string; clawback : string;
  url : string; metadataHash : option string; note : string
}.
End CreateAsset.

Module CreateResult.
Record t : Type := mk { assetId : Z; txId : string }.
End CreateResult.

Module UpdateReserve.
Record t : Type := mk {
  assetId : Z; newReserveAddress : string; managerMnemonic : string;
  metadataUrl : option string
}.
End UpdateReserve.

Module UpdateResult.
Record t : Type := mk { txId : string; confirmedRound : Z }.
End UpdateResult.

(** ** Asynchronous code

    A program performs effects that cannot fail (the clock, a timer) and
    awaits calls to the collaborators, each of which is fulfilled with a
    value or rejected with an error.  [AwaitAll] is
    [await Promise.all(calls)] over calls that were all started before the
    first result is looked at. *)

Inductive effect : Type -> Type :=
| now : effect string                 (* new Date().toISOString() *)
| sleep (ms : Z) : effect unit.       (* a timer promise *)

Inductive call : Type -> Type :=
| getAssetInfo (assetId : Z) : call AssetInfo.t
| createAsset (p : CreateAsset.t) : call CreateResult.t
| updateAssetReserve (p : UpdateReserve.t) : call UpdateResult.t
| uploadFile (file : File.t) (options : UploadOptions.t) : call FileHash.t
| uploadJSON (doc : json) : call PinResponse.t
| fetchMetadata (hash : string) : call json.

Inductive prog (A : Type) : Type :=
| Ret (a : A)
| Do (X : Type) (e : effect X) (k : X -> prog A)
| Await (X : Type) (c : call X) (k : result X -> prog A)
| AwaitAll (X : Type) (cs : list (call X)) (k : list (result X) -> prog A).

Arguments Ret {A} a.
Arguments Do {A X} e k.
Arguments Await {A X} c k.
Arguments AwaitAll {A X} cs k.

Fixpoint pbind {A B : Type} (p : prog A) (f : A -> prog B) : prog B :=
  match p with
  | Ret a => f a
  | Do e k => Do e (fun x => pbind (k x) f)
  | Await c k => Await c (fun r => pbind (k r) f)
  | AwaitAll cs k => AwaitAll cs (fun rs => pbind (k rs) f)
  end.

(** What a run of a program leaves behind: one event per effect and per
    awaited call, with the answer it got. *)
Inductive event : Type :=
| E_now (iso : string)
| E_sleep (ms : Z)
| E_getAssetInfo (assetId : Z) (r : result AssetInfo.t)
| E_createAsset (p : CreateAsset.t) (r : result CreateResult.t)
| E_updateAssetReserve (p : UpdateReserve.t) (r : result UpdateResult.t)
| E_uploadFile (file : File.t) (options : UploadOptions.t)
    (r : result FileHash.t)
| E_uploadJSON (doc : json) (r : result PinResponse.t)
| E_fetchMetadata (hash : string) (r : result json)
| E_all (batch : list event).

Definition log_effect {X : Type} (e : effect X) : X -> event :=
  match e in effect X return X -> event with
  | now => E_now
  | sleep ms => fun _ => E_sleep ms
  end.

Definition log_call {X : Type} (c : call X) : result X -> event :=
  match c in call X return result X -> event with
  | getAssetInfo assetId => E_getAssetInfo assetId
  | createAsset p => E_createAsset p
  | updateAssetReserve p => E_updateAssetReserve p
  | uploadFile file options => E_uploadFile file options
  | uploadJSON doc => E_uploadJSON doc
  | fetchMetadata hash => E_fetchMetadata hash
  end.

(** The collaborators: any state [W], any answers. *)
Record env (W : Type) : Type := Env {
  perform : forall X, effect X -> W -> X * W;
  respond : forall X, call X -> W -> result X * W
}.

(** The calls awaited together are answered in the order they were
    started; how their executions interleave inside the collaborator is
    not something the program observes. *)
Fixpoint respond_all {W X : Type} (E : env W) (cs : list (call X)) (w : W)
  : list (result X) * list event * W :=
  match cs with
  | [] => ([], [], w)
  | c :: rest =>
      let '(r, w1) := respond E c w in
      let '(rs, evs, w2) := respond_all E rest w1 in
      (r :: rs, log_call c r :: evs, w2)
  end.

Record outcome (W A : Type) : Type := Outcome {
  value : A;
  world : W;
  trace : list event
}.

Fixpoint run {W A : Type} (E : env W) (p : prog A) (w : W) : outcome W A :=
  match p with
  | Ret a => Outcome a w []
  | Do e k =>
      let '(x, w1) := perform E e w in
      let o := run E (k x) w1 in
      Outcome (value o) (world o) (log_effect e x :: trace o)
  | Await c k =>
      let '(r, w1) := respond E c w in
      let o := run E (k r) w1 in
      Outcome (value o) (world o) (log_call c r :: trace o)
  | AwaitAll cs k =>
      let '(rs, evs, w1) := respond_all E cs w in
      let o := run E (k rs) w1 in
      Outcome (value o) (world o) (E_all evs :: trace o)
  end.

(** *** Promises: programs that are fulfilled or rejected *)

Definition async (A : Type) : Type := prog (result A).

Module Async.

Definition ret {A : Type} (a : A) : async A := Ret (Returned a).

Definition bind {A B : Type} (p : async A) (f : A -> async B) : async B :=
  pbind p (fun r =>
    match r with
    | Returned a => f a
    | Thrown e => Ret (Thrown e)
    end).

(** Synchronous code inside an [async] function. *)
Definition lift {A : Type} (r : result A) : async A := Ret r.

Definition await {X : Type} (c : call X) : async X := Await c (@Ret _).

Definition perform {X : Type} (e : effect X) : async X :=
  Do e (fun x => Ret (Returned x)).

Fixpoint first_rejection {X : Type} (rs : list (result X))
  : option error :=
  match rs with
  | [] => None
  | Thrown e :: _ => Some e
  | Returned _ :: rest => first_rejection rest
  end.

Fixpoint fulfilled {X : Type} (rs : list (result X)) : list X :=
  match rs with
  | [] => []
  | Returned x :: rest => x :: fulfilled rest
  | Thrown _ :: rest => fulfilled rest
  end.

(** [await Promise.all(calls)]: every value, or the rejection of a call
    that was rejected.  When several calls are rejected, JavaScript keeps
    the rejection that settles first in time; a trace does not order the
    calls of a batch in time, and the first rejection in the array stands
    for the one that is kept.  What is stated of a rejected batch holds
    whichever of its rejections is kept. *)
Definition all {X : Type} (cs : list (call X)) : async (list X) :=
  AwaitAll cs (fun rs =>
    match first_rejection rs with
    | Some e => Ret (Thrown e)
    | None => Ret (Returned (fulfilled rs))
    end).

End Async.

Declare Scope async_scope.
Delimit Scope async_scope with async.
Notation "x <- p ;; k" := (Async.bind p (fun x => k))
  (at level 61, p at next level, right associativity) : async_scope.
Notation "p ;; k" := (Async.bind p (fun _ => k))
  (at level 61, right associativity) : async_scope.

(** ** The minting service *)

Local Open Scope string_scope.

Module Organization.
Record t : Type := mk {
  name : string; code : string; type : string; city : string
}.
End Organization.

Module DocumentCertificationData.
Record t : Type := mk {
  documentName : string; description : string; authorName : string;
  date : string; documentType : string; customType : option string;
  assetName : string; unitName : string;
  files : list File.t;
  organization : Organization.t
}.
End DocumentCertificationData.

Module IpfsHashes.
Record t : Type := mk { metadata : string; files : list FileHash.t }.
End IpfsHashes.

Module MintingResult.
Record t : Type := mk {
  assetId : Z; txId : string; updateTxId : string; confirmedRound : Z;
  metadataUrl : string;
  ipfsHashes : IpfsHashes.t;
  finalReserveAddress : string
}.
End MintingResult.

Module PreviousVersion.
Record t : Type := mk {
  version : Z; cid : string; reserveAddress : string; ipfsLink : string
}.
End PreviousVersion.

Module VersioningInfo.
Record t : Type := mk {
  currentVersion : Z;
  previousVersion : PreviousVersion.t;
  nextVersion : Z
}.

Definition to_json (v : t) : json :=
  JObj
    [("currentVersion", JNum (currentVersion v));
     ("previousVersion",
      JObj [("version", JNum (PreviousVersion.version (previousVersion v)));
            ("cid", JStr (PreviousVersion.cid (previousVersion v)));
            ("reserveAddress",
             JStr (PreviousVersion.reserveAddress (previousVersion v)));
            ("ipfsLink",
             JStr (PreviousVersion.ipfsLink (previousVersion v)))]);
     ("nextVersion", JNum (nextVersion v))]%string.
End VersioningInfo.

Module CidInfo.
Record t : Type := mk {
  isValidCID : bool; conversionMatch : bool;
  originalCID : string; convertedAddress : string
}.
End CidInfo.

Module ValidationResult.
Record t : Type := mk {
  isValid : bool;
  errors : list string;
  warnings : list string;
  assetInfo : option AssetInfo.t;
  metadataInfo : json;
  cidInfo : option CidInfo.t
}.
End ValidationResult.

(** *** Upload coordination *)

Definition BATCH_SIZE : nat := 3.

(** [files.slice(i, j)] *)
Definition slice {A : Type} (i j : nat) (l : list A) : list A :=
  firstn (j - i) (skipn i l).

(** [batch.map(file => ipfsService.uploadFile(file, {...}))]: the clock is
    read and the upload started for one file after the other. *)
Fixpoint start_uploads (batch : list File.t) (i : nat)
  : async (list (call FileHash.t)) :=
  match batch with
  | [] => Async.ret []
  | file :: rest =>
      (timestamp <- Async.perform now ;;
       let c := uploadFile file
                  (UploadOptions.mk (File.name file)
                     (Json.decimal (i / BATCH_SIZE)) timestamp) in
       cs <- start_uploads rest i ;;
       Async.ret (c :: cs))%async
  end.

(** The [for] loop of [uploadFilesInParallel]; [fuel] bounds the number of
    rounds, and [i] grows by [BATCH_SIZE] in each. *)
Fixpoint upload_rounds (fuel : nat) (files : list File.t) (i : nat)
    (results : list FileHash.t) : async (list FileHash.t) :=
  match fuel with
  | O => Async.ret results
  | S fuel' =>
      if (i <? length files)%nat then
        let batch := slice i (i + BATCH_SIZE) files in
        (batchPromises <- start_uploads batch i ;;
         batchResults <- Async.all batchPromises ;;
         let results := (results ++ batchResults)%list in
         (if (i + BATCH_SIZE <? length files)%nat
          then Async.perform (sleep 500)
          else Async.ret tt) ;;
         upload_rounds fuel' files (i + BATCH_SIZE) results)%async
      else Async.ret results
  end.

Definition uploadFilesInParallel (files : list File.t)
  : async (list FileHash.t) :=
  upload_rounds (length files) files 0 [].

(** Modelled from the spec: the failure of [ipfsService.uploadFile] (the
    storage service is missing from the sources).  A failed upload is an
    [UploadError] that identifies the offending file. *)
Definition UploadError (file : File.t) : error :=
  Error ("UploadError: " ++ File.name file).

Section Services.

(** Deployment configuration. *)
Variable creatorAddress : string.
Variable mnemonic : string.
Variable gateway : string.

(** Helpers of the service that are missing from the sources. *)
Variable validateCertificationData :
  DocumentCertificationData.t -> result unit.
Variable prepareCertificationData : DocumentCertificationData.t -> json.
Variable metadataBuilder :
  DocumentCertificationData.t -> json -> list FileHash.t -> json.
Variable getCurrentVersion : AssetInfo.t -> Z.

(** Modelled from the spec: [ipfsService.uploadCertificationAssets] (the
    storage service is missing from the sources).  It uploads the files
    in batches; if any single file upload fails the whole call fails;
    after every file succeeds it builds the metadata document, uploads it
    as one additional content object and returns its identifier and URL
    apart from the file hashes. *)
Definition uploadCertificationAssets (files : list File.t)
    (certificationData : json) (data : DocumentCertificationData.t)
  : async IpfsResult.t :=
  (fileHashes <- uploadFilesInParallel files ;;
   pin <- Async.await
            (uploadJSON (metadataBuilder data certificationData fileHashes)) ;;
   Async.ret
     (IpfsResult.mk (PinResponse.IpfsHash pin)
        ("ipfs://" ++ PinResponse.IpfsHash pin) fileHashes))%async.

Definition createDocumentCertification (data : DocumentCertificationData.t)
  : async MintingResult.t :=
  ((* 1. Validazione dati *)
   Async.lift (validateCertificationData data) ;;
   (* 2. Preparazione metadata *)
   let certificationData := prepareCertificationData data in
   (* 3. Upload file e metadata su IPFS *)
   ipfsResult <- uploadCertificationAssets
                   (DocumentCertificationData.files data)
                   certificationData data ;;
   (* 4. Conversione CID metadata -> reserve address *)
   reserveAddress <- Async.lift
     (CidDecoder.fromCidToAddress (IpfsResult.metadataHash ipfsResult)) ;;
   (* 5. Creazione asset NFT *)
   createResult <- Async.await (createAsset
     {| CreateAsset.assetName := DocumentCertificationData.assetName data;
        CreateAsset.unitName := DocumentCertificationData.unitName data;
        CreateAsset.total := 1;
        CreateAsset.decimals := 0;
        CreateAsset.defaultFrozen := false;
        CreateAsset.manager := creatorAddress;
        CreateAsset.reserve := creatorAddress; (* Temporaneo *)
        CreateAsset.freeze := creatorAddress;
        CreateAsset.clawback := creatorAddress;
        CreateAsset.url := IpfsResult.metadataUrl ipfsResult;
        CreateAsset.metadataHash := None;
        CreateAsset.note :=
          "ArtCertify certification: "
          ++ DocumentCertificationData.documentName data |}) ;;
   (* 6. Aggiornamento reserve address con CID *)
   updateResult <- Async.await (updateAssetReserve
     {| UpdateReserve.assetId := CreateResult.assetId createResult;
        UpdateReserve.newReserveAddress := reserveAddress;
        UpdateReserve.managerMnemonic := mnemonic;
        UpdateReserve.metadataUrl := None |}) ;;
   Async.ret
     {| MintingResult.assetId := CreateResult.assetId createResult;
        MintingResult.txId := CreateResult.txId createResult;
        MintingResult.updateTxId := UpdateResult.txId updateResult;
        MintingResult.confirmedRound :=
          UpdateResult.confirmedRound updateResult;
        MintingResult.metadataUrl := IpfsResult.metadataUrl ipfsResult;
        MintingResult.ipfsHashes :=
          IpfsHashes.mk (IpfsResult.metadataHash ipfsResult)
                        (IpfsResult.fileHashes ipfsResult);
        MintingResult.finalReserveAddress := reserveAddress |})%async.

(** *** Versioned updates *)

Definition versionInfo (asset : AssetInfo.t) (currentCID : string)
  : VersioningInfo.t :=
  {| VersioningInfo.currentVersion := getCurrentVersion asset;
     VersioningInfo.previousVersion :=
       {| PreviousVersion.version := getCurrentVersion asset;
          PreviousVersion.cid := currentCID;
          PreviousVersion.reserveAddress :=
            AssetParams.reserve (AssetInfo.params asset);
          PreviousVersion.ipfsLink :=
            "https://" ++ gateway ++ "/ipfs/" ++ currentCID |};
     VersioningInfo.nextVersion := getCurrentVersion asset + 1 |}.

(** [{ ...newData, version_info, modification_timestamp, previous_cid }] *)
Definition newMetadata (newData : json) (info : VersioningInfo.t)
    (timestamp currentCID : string) : json :=
  JObj (Json.set "previous_cid" (JStr currentCID)
          (Json.set "modification_timestamp" (JStr timestamp)
             (Json.set "version_info" (VersioningInfo.to_json info)
                (Json.spread newData)))).

Definition updateCertification (assetId : Z) (newData : json)
    (newFiles : list File.t) : async UpdateResult.t :=
  ((* 1. Recupera info versioning esistente *)
   asset <- Async.await (getAssetInfo assetId) ;;
   currentCID <- Async.lift
     (CidDecoder.fromAddressToCid
        (AssetParams.reserve (AssetInfo.params asset))) ;;
   (* 2. Prepara nuova versione *)
   let info := versionInfo asset currentCID in
   (* 3. Upload nuovi metadata con versioning *)
   timestamp <- Async.perform now ;;
   ipfsResult <- Async.await
     (uploadJSON (newMetadata newData info timestamp currentCID)) ;;
   newReserveAddress <- Async.lift
     (CidDecoder.fromCidToAddress (PinResponse.IpfsHash ipfsResult)) ;;
   (* 4. Aggiorna asset *)
   Async.await (updateAssetReserve
     {| UpdateReserve.assetId := assetId;
        UpdateReserve.newReserveAddress := newReserveAddress;
        UpdateReserve.managerMnemonic := mnemonic;
        UpdateReserve.metadataUrl :=
          Some ("ipfs://" ++ PinResponse.IpfsHash ipfsResult) |}))%async.

End Services.

(** *** Validation

    [validateCertification] keeps four local variables that its [try]
    blocks assign and that its [catch] blocks still see afterwards: they
    are threaded as a state that survives a throw. *)

Module Validation.

Record locals : Type := Locals {
  errors : list string;
  warnings : list string;
  cidInfo : option CidInfo.t;
  metadataInfo : json
}.

Definition V (A : Type) : Type := locals -> prog (result A * locals).

Definition ret {A : Type} (a : A) : V A := fun s => Ret (Returned a, s).

Definition bind {A B : Type} (m : V A) (f : A -> V B) : V B :=
  fun s => pbind (m s) (fun rs =>
    match fst rs with
    | Returned a => f a (snd rs)
    | Thrown e => Ret (Thrown e, snd rs)
    end).

Definition lift {A : Type} (r : result A) : V A := fun s => Ret (r, s).

Definition await {X : Type} (c : call X) : V X :=
  fun s => Await c (fun r => Ret (r, s)).

(** [try { body } catch (error) { handler }] *)
Definition try {A : Type} (body : V A) (handler : error -> V A) : V A :=
  fun s => pbind (body s) (fun rs =>
    match fst rs with
    | Returned a => Ret (Returned a, snd rs)
    | Thrown e => handler e (snd rs)
    end).

Definition get : V locals := fun s => Ret (Returned s, s).

Definition push_error (msg : string) : V unit :=
  fun s => Ret (Returned tt,
                Locals (errors s ++ [msg])%list (warnings s) (cidInfo s)
                       (metadataInfo s)).

Definition push_warning (msg : string) : V unit :=
  fun s => Ret (Returned tt,
                Locals (errors s) (warnings s ++ [msg])%list (cidInfo s)
                       (metadataInfo s)).

Definition set_cidInfo (c : CidInfo.t) : V unit :=
  fun s => Ret (Returned tt,
                Locals (errors s) (warnings s) (Some c) (metadataInfo s)).

Definition set_metadataInfo (m : json) : V unit :=
  fun s => Ret (Returned tt,
                Locals (errors s) (warnings s) (cidInfo s) m).

(** [if (c) statement;] *)
Definition when (c : bool) (m : V unit) : V unit :=
  if c then m else ret tt.

End Validation.

Declare Scope v_scope.
Delimit Scope v_scope with V.
Notation "x <- p ;; k" := (Validation.bind p (fun x => k))
  (at level 61, p at next level, right associativity) : v_scope.
Notation "p ;; k" := (Validation.bind p (fun _ => k))
  (at level 61, right associativity) : v_scope.

(** [s.replace(pattern, replacement)] with a string pattern: the first
    occurrence only. *)
Definition replace (pattern replacement s : string) : string :=
  match String.index 0 pattern s with
  | Some i =>
      substring 0 i s ++ replacement
      ++ substring (i + String.length pattern)
           (String.length s - (i + String.length pattern)) s
  | None => s
  end.

Definition SoulboundViolation_total : string :=
  "Asset should have total supply = 1".
Definition SoulboundViolation_clawback : string :=
  "Asset should have clawback = creator".
Definition ConversionMismatch : string :=
  "CID ↔ Address conversion mismatch".

Definition validateCertification (assetId : Z)
  : async ValidationResult.t :=
  let body : Validation.V ValidationResult.t :=
    Validation.try
      ((* 1. Verifica asset existence *)
       asset <- Validation.await (getAssetInfo assetId) ;;
       let params := AssetInfo.params asset in
       (* 2. Verifica caratteristiche soulbound *)
       Validation.when (negb (AssetParams.total params =? 1)%Z)
         (Validation.push_error SoulboundViolation_total) ;;
       Validation.when
         (negb (String.eqb (AssetParams.clawback params)
                           (AssetParams.creator params)))
         (Validation.push_error SoulboundViolation_clawback) ;;
       (* 3. Verifica reserve address -> CID conversion *)
       Validation.try
         (originalCID <- Validation.lift
            (CidDecoder.fromAddressToCid (AssetParams.reserve params)) ;;
          convertedAddress <- Validation.lift
            (CidDecoder.fromCidToAddress originalCID) ;;
          let conversionMatch :=
            String.eqb convertedAddress (AssetParams.reserve params) in
          Validation.set_cidInfo
            (CidInfo.mk true conversionMatch originalCID convertedAddress) ;;
          Validation.when (negb conversionMatch)
            (Validation.push_error ConversionMismatch))
         (fun error =>
            Validation.set_cidInfo (CidInfo.mk false false "" "") ;;
            Validation.push_error
              ("Invalid CID conversion: " ++ message error)) ;;
       (* 4. Verifica metadata IPFS *)
       (match AssetParams.url params with
        | Some url =>
            if String.prefix "ipfs://" url then
              Validation.try
                (let metadataHash := replace "ipfs://" "" url in
                 info <- Validation.await (fetchMetadata metadataHash) ;;
                 Validation.set_metadataInfo info ;;
                 name <- Validation.lift (Json.get "name" info) ;;
                 Validation.when (Json.falsy name)
                   (Validation.push_warning "Missing metadata name") ;;
                 description <- Validation.lift
                                  (Json.get "description" info) ;;
                 Validation.when (Json.falsy description)
                   (Validation.push_warning "Missing metadata description"))
                (fun error =>
                   Validation.push_error
                     ("Failed to fetch IPFS metadata: " ++ message error))
            else Validation.push_error "Asset URL should be IPFS URL"
        | None => Validation.push_error "Asset URL should be IPFS URL"
        end) ;;
       s <- Validation.get ;;
       Validation.ret
         {| ValidationResult.isValid :=
              (length (Validation.errors s) =? 0)%nat;
            ValidationResult.errors := Validation.errors s;
            ValidationResult.warnings := Validation.warnings s;
            ValidationResult.assetInfo := Some asset;
            ValidationResult.metadataInfo := Validation.metadataInfo s;
            ValidationResult.cidInfo := Validation.cidInfo s |})%V
      (fun error =>
         (s <- Validation.get ;;
          Validation.ret
            {| ValidationResult.isValid := false;
               ValidationResult.errors :=
                 ["Failed to validate asset: " ++ message error];
               ValidationResult.warnings := Validation.warnings s;
               ValidationResult.assetInfo := None;
               ValidationResult.metadataInfo := JNull;
               ValidationResult.cidInfo := None |})%V) in
  pbind (body (Validation.Locals [] [] None JNull)) (fun rs => Ret (fst rs)).

(** ** What a trace shows *)

(** The uploads of a trace, batch by batch, in the order they were
    started. *)
Definition batch_uploads (batch : list event)
  : list (File.t * result FileHash.t) :=
  flat_map (fun ev =>
    match ev with
    | E_uploadFile file _ r => [(file, r)]
    | _ => []
    end) batch.

Definition upload_batches (t : list event)
  : list (list (File.t * result FileHash.t)) :=
  flat_map (fun ev =>
    match ev with
    | E_all batch => [batch_uploads batch]
    | _ => []
    end) t.

Definition uploads (t : list event) : list (File.t * result FileHash.t) :=
  concat (upload_batches t).

Definition is_fulfilled {A : Type} (r : result A) : bool :=
  match r with
  | Returned _ => true
  | Thrown _ => false
  end.

(** The options and the events of the uploads of one batch, given the
    clock readings and the answers. *)
Definition upload_options (i : nat) (file : File.t) (timestamp : string)
  : UploadOptions.t :=
UploadOptions.mk (File.name file) (Json.decimal (i / BATCH_SIZE)) timestamp.

Fixpoint upload_calls (i : nat) (batch : list File.t) (tss : list string)
  : list (call FileHash.t) :=
match batch, tss with
| file :: batch', ts :: tss' =>
    uploadFile file (upload_options i file ts) :: upload_calls i batch' tss'
| _, _ => []
end.

Fixpoint upload_events (i : nat) (batch : list File.t) (tss : list string)
    (rs : list (result FileHash.t)) : list event :=
match batch, tss, rs with
| file :: batch', ts :: tss', r :: rs' =>
    E_uploadFile file (upload_options i file ts) r
      :: upload_events i batch' tss' rs'
| _, _, _ => []
end.

(** What an uploaded version record says. *)
Definition field (key : string) (v : json) : option json :=
match v with
| JObj fields => Json.lookup key fields
| _ => None
end.




(** Events of the storage side of a run: the clock, the timer, batches of
    file uploads and JSON uploads. *)
Definition storage_event (ev : event) : bool :=
  match ev with
  | E_now _ | E_sleep _ | E_all _ | E_uploadJSON _ _ => true
  | _ => false
  end.

Definition is_createAsset (ev : event) : bool :=
  match ev with
  | E_createAsset _ _ => true
  | _ => false
  end.

Definition is_getAssetInfo (ev : event) : bool :=
  match ev with
  | E_getAssetInfo _ _ => true
  | _ => false
  end.

(** ** A simulated ledger and storage

    One environment among those the properties quantify over; the examples
    run the services against it. *)

Module Sim.
Local Open Scope string_scope.

Record world : Type := World {
  (** the assets of the ledger *)
  ledger : list (Z * AssetParams.t);
  next_asset_id : Z;
  (** the identifiers the storage gives to the next JSON uploads *)
  pins : list string;
  (** the documents the storage serves *)
  store : list (string * json);
  (** names of the files whose upload the storage rejects *)
  rejected_files : list string;
  (** the rejection of every reserve update, if any *)
  update_failure : option error;
  (** reserve writes of another client that reach the ledger while a
      JSON upload is in flight *)
  concurrent : list (Z * string);
  (** every reserve write the ledger has accepted, oldest first *)
  writes : list (Z * string)
}.

Fixpoint asset (id : Z) (l : list (Z * AssetParams.t))
  : option AssetParams.t :=
  match l with
  | [] => None
  | (k, p) :: rest => if (k =? id)%Z then Some p else asset id rest
  end.

Definition with_reserve (r : string) (p : AssetParams.t) : AssetParams.t :=
  {| AssetParams.total := AssetParams.total p;
     AssetParams.decimals := AssetParams.decimals p;
     AssetParams.creator := AssetParams.creator p;
     AssetParams.manager := AssetParams.manager p;
     AssetParams.reserve := r;
     AssetParams.freeze := AssetParams.freeze p;
     AssetParams.clawback := AssetParams.clawback p;
     AssetParams.name := AssetParams.name p;
     AssetParams.url := AssetParams.url p |}.

Fixpoint set_reserve (id : Z) (r : string) (l : list (Z * AssetParams.t))
  : list (Z * AssetParams.t) :=
  match l with
  | [] => []
  | (k, p) :: rest =>
      if (k =? id)%Z then (k, with_reserve r p) :: rest
      else (k, p) :: set_reserve id r rest
  end.

Definition apply_writes (ws : list (Z * string))
    (l : list (Z * AssetParams.t)) : list (Z * AssetParams.t) :=
  fold_left (fun l w => set_reserve (fst w) (snd w) l) ws l.

Definition created (p : CreateAsset.t) : AssetParams.t :=
  {| AssetParams.total := CreateAsset.total p;
     AssetParams.decimals := CreateAsset.decimals p;
     AssetParams.creator := CreateAsset.manager p;
     AssetParams.manager := CreateAsset.manager p;
     AssetParams.reserve := CreateAsset.reserve p;
     AssetParams.freeze := CreateAsset.freeze p;
     AssetParams.clawback := CreateAsset.clawback p;
     AssetParams.name := Some (CreateAsset.assetName p);
     AssetParams.url := Some (CreateAsset.url p) |}.

Definition timestamp : string := "2024-01-15T10:30:00.000Z".

Definition perform (X : Type) (e : effect X) (w : world) : X * world :=
  match e in effect X return X * world with
  | now => (timestamp, w)
  | sleep _ => (tt, w)
  end.

Definition respond (X : Type) (c : call X) (w : world)
  : result X * world :=
  match c in call X return result X * world with
  | getAssetInfo id =>
      match asset id (ledger w) with
      | Some p => (Returned (AssetInfo.mk id p), w)
      | None => (Thrown (Error "asset does not exist"), w)
      end
  | createAsset p =>
      let id := next_asset_id w in
      (Returned (CreateResult.mk id "CREATE-TX"),
       World ((id, created p) :: ledger w) (id + 1) (pins w) (store w)
             (rejected_files w) (update_failure w) (concurrent w)
             (writes w))
  | updateAssetReserve p =>
      match update_failure w, asset (UpdateReserve.assetId p) (ledger w) with
      | Some e, _ => (Thrown e, w)
      | None, None => (Thrown (Error "asset does not exist"), w)
      | None, Some _ =>
          let write := (UpdateReserve.assetId p,
                        UpdateReserve.newReserveAddress p) in
          (Returned (UpdateResult.mk "UPDATE-TX" 32847291),
           World (apply_writes [write] (ledger w)) (next_asset_id w)
                 (pins w) (store w) (rejected_files w) (update_failure w)
                 (concurrent w) (writes w ++ [write]))
      end
  | uploadFile file _ =>
      if existsb (String.eqb (File.name file)) (rejected_files w)
      then (Thrown (UploadError file), w)
      else
        (Returned
           (FileHash.mk (File.name file) ("Qm" ++ File.name file)
              (File.type file) (File.size file)
              ("ipfs://Qm" ++ File.name file)
              ("https://gateway.pinata.cloud/ipfs/Qm" ++ File.name file)),
         w)
  | uploadJSON doc =>
      match pins w with
      | [] => (Thrown (Error "pinning failed"), w)
      | h :: rest =>
          (Returned (PinResponse.mk h),
           World (apply_writes (concurrent w) (ledger w)) (next_asset_id w)
                 rest ((h, doc) :: store w) (rejected_files w)
                 (update_failure w) [] (writes w ++ concurrent w))
      end
  | fetchMetadata hash =>
      match Json.lookup hash (store w) with
      | Some doc => (Returned doc, w)
      | None => (Thrown (Error "not found"), w)
      end
  end.

Definition E : env world := Env perform respond.

(** An empty ledger and a storage that pins under the given
    identifiers. *)
Definition fresh (next : Z) (pins : list string) : world :=
  World [] next pins [] [] None [] [].

Definition creatorAddress : string :=
  "AAAAAAAAAAAAAAAAAAAAAAAAAAAAAAAAAAAAAAAAAAAAAAAAAAAAY5HFKQ".
Definition mnemonic : string := "abandon abandon about".
Definition gateway : string := "gateway.pinata.cloud".

Definition validateCertificationData (data : DocumentCertificationData.t)
  : result unit :=
  if String.eqb (DocumentCertificationData.documentName data) ""
  then Thrown (Error "ValidationError") else Returned tt.

Definition prepareCertificationData (data : DocumentCertificationData.t)
  : json :=
  JObj [("asset_type", JStr "document");
        ("title", JStr (DocumentCertificationData.documentName data))].

Definition metadataBuilder (data : DocumentCertificationData.t)
    (certificationData : json) (fileHashes : list FileHash.t) : json :=
  JObj [("name", JStr (DocumentCertificationData.documentName data));
        ("description", JStr (DocumentCertificationData.description data));
        ("properties",
         JObj [("certification_data", certificationData);
               ("files_metadata",
                JArr (map (fun f => JStr (FileHash.ipfsUrl f))
                        fileHashes))])].

Definition file (name : string) : File.t :=
  File.mk name "application/pdf" 245760.

Definition document (files : list File.t) : DocumentCertificationData.t :=
  {| DocumentCertificationData.documentName := "Contratto";
     DocumentCertificationData.description := "Contratto di affitto";
     DocumentCertificationData.authorName := "Mario Rossi";
     DocumentCertificationData.date := "2024-01-15";
     DocumentCertificationData.documentType := "tipologia";
     DocumentCertificationData.customType := None;
     DocumentCertificationData.assetName := "SBT_Contratto_001";
     DocumentCertificationData.unitName := "CERT";
     DocumentCertificationData.files := files;
     DocumentCertificationData.organization :=
       Organization.mk "Studio Legale Roma" "SLR001" "Studio Legale"
                       "Roma" |}.

Definition mint (files : list File.t) : async MintingResult.t :=
  createDocumentCertification creatorAddress mnemonic
    validateCertificationData prepareCertificationData metadataBuilder
    (document files).

(** The address that carries the digest made of 32 bytes [n]. *)
Definition address (n : byte) : string :=
Algosdk.encodeAddress (repeat n 32).

(** A soulbound asset whose reserve is [reserve]. *)
Definition soulbound (reserve : string) : AssetParams.t :=
{| AssetParams.total := 1;
   AssetParams.decimals := 0;
   AssetParams.creator := creatorAddress;
   AssetParams.manager := creatorAddress;
   AssetParams.reserve := reserve;
   AssetParams.freeze := creatorAddress;
   AssetParams.clawback := creatorAddress;
   AssetParams.name := Some "SBT_Contratto_001";
   AssetParams.url := Some "ipfs://QmYwAPJzv5CZsnA625s3Xf2nemtYgPpHdWEz79ojWnPbdG" |}.

(** A ledger that holds the asset [id] with parameters [p]; [others] are
    the reserve writes of another client. *)
Definition holding (id : Z) (p : AssetParams.t) (pins : list string)
    (others : list (Z * string)) : world :=
World [(id, p)] (id + 1) pins [] [] None others [].

(** An asset whose clawback is not its creator. *)
Definition foreign_clawback : AssetParams.t :=
{| AssetParams.total := 1;
   AssetParams.decimals := 0;
   AssetParams.creator := creatorAddress;
   AssetParams.manager := creatorAddress;
   AssetParams.reserve := creatorAddress;
   AssetParams.freeze := creatorAddress;
   AssetParams.clawback :=
     "TVWCXZIPOBUVGR42XHPSZY7NZKILNACTYAFTABFX6CWMXYPI53PZ7JBOHE";
   AssetParams.name := Some "SBT_Contratto_001";
   AssetParams.url := Some "ipfs://QmYwAPJzv5CZsnA625s3Xf2nemtYgPpHdWEz79ojWnPbdG" |}.

(** A version helper: the version is told from the reserve the asset
    holds. *)
Definition getCurrentVersion (asset : AssetInfo.t) : Z :=
let reserve := AssetParams.reserve (AssetInfo.params asset) in
if String.eqb reserve (address x00) then 1
else if String.eqb reserve (address x11) then 2
else 3.

Definition update (assetId : Z) (newData : json)
  : async UpdateResult.t :=
updateCertification mnemonic gateway getCurrentVersion assetId newData [].

Definition revision : json := JObj [("description", JStr "revised")].

(** A ledger that rejects every reserve update. *)
Definition network_failure : error := Error "Network request failed".

Definition unreachable_for_updates (next : Z) (pins : list string)
  : world :=
  World [] next pins [] [] (Some network_failure) [] [].

Definition two_files : list File.t := [file "a.pdf"; file "b.png"].

Definition seven_files : list File.t :=
[file "1.pdf"; file "2.pdf"; file "3.pdf"; file "4.pdf"; file "5.pdf";
 file "6.pdf"; file "7.pdf"].

(** A storage that rejects the uploads of the files named. *)
Definition rejecting (names : list string) : world :=
World [] 1001 ["QmYwAPJzv5CZsnA625s3Xf2nemtYgPpHdWEz79ojWnPbdG"] [] names
      None [] [].

(** A version-0 identifier, as the pinning service returns them, and the
    version-1 raw identifiers of three digests. *)
Definition cid_v0 : string :=
  "QmYwAPJzv5CZsnA625s3Xf2nemtYgPpHdWEz79ojWnPbdG".

Definition cid_raw (n : byte) : string :=
  Multiformats.toString (Multiformats.raw_sha256 (repeat n 32)).

(** What [createAsset] is called with when [two_files] are certified and
    the metadata is pinned under [cid_v0]. *)
Definition create_params : CreateAsset.t :=
  {| CreateAsset.assetName := "SBT_Contratto_001";
     CreateAsset.unitName := "CERT";
     CreateAsset.total := 1;
     CreateAsset.decimals := 0;
     CreateAsset.defaultFrozen := false;
     CreateAsset.manager := creatorAddress;
     CreateAsset.reserve := creatorAddress;
     CreateAsset.freeze := creatorAddress;
     CreateAsset.clawback := creatorAddress;
     CreateAsset.url := "ipfs://" ++ cid_v0;
     CreateAsset.metadataHash := None;
     CreateAsset.note := "ArtCertify certification: Contratto" |}.

(** The asset 1001 holds the address of digest 00..; while the record of
    an update is being uploaded, another client points the reserve at the
    address of digest 11... *)
Definition race : world :=
holding 1001 (soulbound (address x00)) [cid_raw x22] [(1001%Z, address x11)].

(** The asset 1001, untouched by others; the storage names the next two
    records by the raw CIDs of digests 11.. and 22... *)
Definition quiet : world :=
holding 1001 (soulbound (address x00)) [cid_raw x11; cid_raw x22] [].

Definition asset_at (n : byte) : AssetInfo.t :=
AssetInfo.mk 1001 (soulbound (address n)).

(** The record an update uploads when the reserve holds digest [n]. *)
Definition record_at (n : byte) : json :=
newMetadata revision
  (versionInfo gateway getCurrentVersion (asset_at n) (cid_raw n))
  timestamp (cid_raw n).

End Sim.

(** ** The rounds of the upload loop

    What the loop of [uploadFilesInParallel] leaves in a trace, round by
    round: a round is the clock readings taken while its uploads were
    started and the answers its uploads got. *)

Definition round : Type := list string * list (result FileHash.t).

(** The events of the rounds that start at index [i]: the clock readings,
    the batch awaited together and, when another round follows, the
    pause. *)
Fixpoint round_events (files : list File.t) (i : nat) (rounds : list round)
  : list event :=
  match rounds with
  | [] => []
  | (tss, rs) :: rest =>
      (map E_now tss
       ++ [E_all (upload_events i (slice i (i + BATCH_SIZE) files) tss rs)]
       ++ match rest with
          | [] => []
          | _ :: _ => [E_sleep 500]
          end
       ++ round_events files (i + BATCH_SIZE) rest)%list
  end.

(** The rounds the loop can go through from index [i]: each one reads the
    clock and gets an answer once per file of its slice, and only the last
    one can hold a rejection. *)
Fixpoint rounds_from (files : list File.t) (i : nat) (rounds : list round)
  : Prop :=
  match rounds with
  | [] => length files <= i
  | (tss, rs) :: rest =>
      i < length files /\
      length tss = length (slice i (i + BATCH_SIZE) files) /\
      length rs = length (slice i (i + BATCH_SIZE) files) /\
      match Async.first_rejection rs with
      | Some _ => rest = []
      | None => rounds_from files (i + BATCH_SIZE) rest
      end
  end.

(** What the loop returns after these rounds, the first rejection in the
    array standing for the one [Promise.all] keeps. *)
Fixpoint rounds_value (results : list FileHash.t) (rounds : list round)
  : result (list FileHash.t) :=
  match rounds with
  | [] => Returned results
  | (_, rs) :: rest =>
      match Async.first_rejection rs with
      | Some e => Thrown e
      | None => rounds_value (results ++ Async.fulfilled rs)%list rest
      end
  end.

(** The batches of a trace: the events of the calls that were awaited
    together. *)
Definition awaited_together (t : list event) : list (list event) :=
  flat_map (fun ev =>
    match ev with
    | E_all batch => [batch]
    | _ => []
    end) t.

(** ** The reserve update of the minting guide

    [updateAssetWithCID] writes one line to the console.  The lines
    written with [console.log] are threaded as a state that a rejection
    leaves as it is. *)

Module Console.

Definition C (A : Type) : Type :=
  list string -> prog (result A * list string).

Definition ret {A : Type} (a : A) : C A := fun out => Ret (Returned a, out).

Definition bind {A B : Type} (m : C A) (f : A -> C B) : C B :=
  fun out => pbind (m out) (fun ro =>
    match fst ro with
    | Returned a => f a (snd ro)
    | Thrown e => Ret (Thrown e, snd ro)
    end).

Definition lift {A : Type} (r : result A) : C A := fun out => Ret (r, out).

Definition await {X : Type} (c : call X) : C X :=
  fun out => Await c (fun r => Ret (r, out)).

(** [console.log(line)] *)
Definition log (line : string) : C unit :=
  fun out => Ret (Returned tt, (out ++ [line])%list).

(** A boolean inside a template literal. *)
Definition boolean (b : bool) : string := if b then "true" else "false".

End Console.

Declare Scope console_scope.
Delimit Scope console_scope with console.
Notation "x <- p ;; k" := (Console.bind p (fun x => k))
  (at level 61, p at next level, right associativity) : console_scope.
Notation "p ;; k" := (Console.bind p (fun _ => k))
  (at level 61, right associativity) : console_scope.

Section ReserveUpdate.

Variable mnemonic : string.

Definition updateAssetWithCID (assetId : Z) (metadataCID : string)
  : Console.C UpdateResult.t :=
  ((* 1. Converte CID metadata in address *)
   reserveAddress <- Console.lift (CidDecoder.fromCidToAddress metadataCID) ;;
   (* 2. Aggiorna asset con nuovo reserve address *)
   let updateParams :=
     {| UpdateReserve.assetId := assetId;
        UpdateReserve.newReserveAddress := reserveAddress;
        UpdateReserve.managerMnemonic := mnemonic;
        UpdateReserve.metadataUrl := Some ("ipfs://" ++ metadataCID) |} in
   result <- Console.await (updateAssetReserve updateParams) ;;
   (* 3. Verifica conversione inversa *)
   convertedCID <- Console.lift (CidDecoder.fromAddressToCid reserveAddress) ;;
   Console.log ("✓ CID conversion verified: "
                ++ Console.boolean (String.eqb convertedCID metadataCID)) ;;
   Console.ret result)%console.

End ReserveUpdate.

(** ** The metadata cache

    [getCachedMetadata] keeps what it fetched in a module-level [Map] for
    five minutes.  The map and the collaborators (the storage service and
    the system clock) are threaded as a state; a call adds to [seen] the
    clock readings and the fetch it made. *)

Module MetadataCache.

Record entry : Type := Entry { data : json; timestamp : Z }.

(** [Map<string, { data, timestamp }>], keys in insertion order. *)
Definition t : Type := list (string * entry).

(** [map.get(cid)]: [None] is [undefined]. *)
Fixpoint get (cid : string) (m : t) : option entry :=
  match m with
  | [] => None
  | (k, v) :: rest => if String.eqb k cid then Some v else get cid rest
  end.

(** [map.set(cid, v)]: an existing key keeps its place. *)
Fixpoint set (cid : string) (v : entry) (m : t) : t :=
  match m with
  | [] => [(cid, v)]
  | (k, x) :: rest =>
      if String.eqb k cid then (k, v) :: rest else (k, x) :: set cid v rest
  end.

Definition CACHE_TTL : Z := 5 * 60 * 1000. (* 5 minuti *)

Inductive event : Type :=
| E_Date_now (ms : Z)
| E_fetchMetadata (cid : string) (r : result json).

Section Collaborators.
Variable W : Type.
Variable E : env W.
(** [Date.now()] *)
Variable Date_now : W -> Z * W.

Record state : Type := State {
  metadataCache : t;
  collaborators : W;
  seen : list event
}.

Definition M (A : Type) : Type := state -> A * state.

Definition ret {A : Type} (a : A) : M A := fun s => (a, s).

Definition bind {A B : Type} (m : M A) (f : A -> M B) : M B :=
  fun s => let '(a, s1) := m s in f a s1.

Definition cache_get (cid : string) : M (option entry) :=
  fun s => (get cid (metadataCache s), s).

Definition cache_set (cid : string) (v : entry) : M unit :=
  fun s => (tt, State (set cid v (metadataCache s)) (collaborators s)
                  (seen s)).

Definition read_clock : M Z :=
  fun s =>
    let '(ms, w) := Date_now (collaborators s) in
    (ms, State (metadataCache s) w (seen s ++ [E_Date_now ms])%list).

(** [await ipfsService.fetchMetadata(cid)], fulfilled or rejected. *)
Definition await_fetchMetadata (cid : string) : M (result json) :=
  fun s =>
    let '(r, w) := respond E (fetchMetadata cid) (collaborators s) in
    (r, State (metadataCache s) w (seen s ++ [E_fetchMetadata cid r])%list).

Definition getCachedMetadata (cid : string) : M json :=
  bind (cache_get cid) (fun cached =>
  (* cached && Date.now() - cached.timestamp < CACHE_TTL *)
  bind (match cached with
        | Some c =>
            bind read_clock (fun ms =>
            ret (if (ms - timestamp c <? CACHE_TTL)%Z
                 then Some (data c) else None))
        | None => ret None
        end) (fun fresh =>
  match fresh with
  | Some data => ret data
  | None =>
      bind (await_fetchMetadata cid) (fun fetched =>
      match fetched with
      | Returned metadata =>
          bind read_clock (fun ms =>
          bind (cache_set cid (Entry metadata ms)) (fun _ =>
          ret metadata))
      | Thrown _ => ret JNull
      end)
  end)).

End Collaborators.

End MetadataCache.

(** ** JavaScript operators on values of type [any]

    [None] is [undefined].  Numbers are the integers the metadata holds,
    which JavaScript writes in plain decimal below 10^21. *)

Module Js.

(** [v?.key] *)
Definition optional (key : string) (v : option json) : option json :=
  match v with
  | Some (JObj fields) => Json.lookup key fields
  | _ => None
  end.

(** [a || b] *)
Definition or (a : option json) (b : json) : json :=
  match a with
  | Some v => if Json.falsy a then b else v
  | None => b
  end.

(** [a || b] where [b] is only evaluated when [a] is falsy. *)
Definition or_else (a : option json) (b : async json) : async json :=
  match a with
  | Some v => if Json.falsy a then b else Async.ret v
  | None => b
  end.

Definition number (z : Z) : string := NilEmpty.string_of_int (Z.to_int z).

(** [parts.join(separator)] *)
Fixpoint join (separator : string) (parts : list string) : string :=
  match parts with
  | [] => ""
  | [s] => s
  | s :: rest => s ++ separator ++ join separator rest
  end.

(** The TypeError of a conversion to text of an object that has no
    primitive value. *)
Definition TypeError_primitive : error :=
  Error "Cannot convert object to primitive value".

(** Evaluations made one after the other: the first throw ends them. *)
Fixpoint each (rs : list (result string)) : result (list string) :=
  match rs with
  | [] => Returned []
  | r :: rest =>
      (let* s := r in
       let* ss := each rest in
       Returned (s :: ss))%result
  end.

(** [String(v)] for a defined value.  An array is its elements joined by
    commas, [null] elements left empty.  An object is written by the
    [toString] it inherits, unless it has a property [toString] of its
    own: no value of a document is callable, the [valueOf] tried next
    gives back the object, and the conversion throws. *)
Fixpoint text (v : json) : result string :=
  match v with
  | JNull => Returned "null"
  | JBool true => Returned "true"
  | JBool false => Returned "false"
  | JNum z => Returned (number z)
  | JStr s => Returned s
  | JArr items =>
      (let* parts :=
         each (map (fun item =>
                      match item with
                      | JNull => Returned ""
                      | _ => text item
                      end) items) in
       Returned (join "," parts))%result
  | JObj fields =>
      match Json.lookup "toString" fields with
      | Some _ => Thrown TypeError_primitive
      | None => Returned "[object Object]"
      end
  end.

(** [String(v)], also the text of [v] inside a template literal. *)
Definition String (v : option json) : result string :=
  match v with
  | Some v => text v
  | None => Returned "undefined"
  end.

End Js.

(** ** The metadata document *)

Section Metadata.

(** [import.meta.env.VITE_PINATA_GATEWAY] *)
Variable gateway : string.

Definition prepareCertificationMetadata (formData certificationData : json)
    (fileHashes : list FileHash.t) : async json :=
  let certificationData' := Some certificationData in
  (name <-
     Js.or_else (Js.optional "title" certificationData')
       (assetName <- Async.lift (Json.get "assetName" formData) ;;
        name <- Async.lift
                  (Js.String
                     (Some (Js.or assetName (JStr "Certified Asset")))) ;;
        Async.ret (JStr name)) ;;
   description <- Async.lift (Json.get "description" formData) ;;
   description <- Async.lift (Js.String description) ;;
   let image :=
     match fileHashes with
     | first :: _ => "ipfs://" ++ FileHash.hash first
     | [] => ""
     end in
   unique_id <- Async.lift
                  (Js.String (Js.optional "unique_id" certificationData')) ;;
   let external_url := "https://artcertify.com/cert/" ++ unique_id in
   let animation_url :=
     Js.or
       (option_map (fun f => JStr (FileHash.ipfsUrl f))
          (find (fun f => String.eqb (FileHash.type f) "application/pdf")
             fileHashes))
       (JStr "") in
   assetName <- Async.lift (Json.get "assetName" formData) ;;
   unitName <- Async.lift (Json.get "unitName" formData) ;;
   let attributes :=
     [JObj [("trait_type", JStr "Asset Type");
            ("value", Js.or (Js.optional "asset_type" certificationData')
                        (JStr "Unknown"))];
      JObj [("trait_type", JStr "Author");
            ("value", Js.or (Js.optional "author" certificationData')
                        (JStr "Unknown"))];
      JObj [("trait_type", JStr "Creation Date");
            ("value", Js.or (Js.optional "creation_date" certificationData')
                        (JStr "Unknown"))];
      JObj [("trait_type", JStr "Organization");
            ("value", Js.or (Js.optional "name"
                               (Js.optional "organization"
                                  certificationData'))
                        (JStr "Unknown"))];
      JObj [("trait_type", JStr "Asset Name");
            ("value", Js.or assetName (JStr "Unknown"))];
      JObj [("trait_type", JStr "Unit Name");
            ("value", Js.or unitName (JStr "Unknown"))]] in
   timestamp <- Async.perform now ;;
   let form_data :=
     JObj (Json.set "timestamp" (JStr timestamp) (Json.spread formData)) in
   let files_metadata :=
     JArr (map (fun file =>
                  JObj [("name", JStr (FileHash.name file));
                        ("ipfsUrl", JStr (FileHash.ipfsUrl file));
                        ("gatewayUrl", JStr (FileHash.gatewayUrl file))])
             fileHashes) in
   uploaded_at <- Async.perform now ;;
   let ipfs_info :=
     JObj [("uploaded_at", JStr uploaded_at);
           ("total_files", JNum (Z.of_nat (length fileHashes)));
           ("gateway", JStr gateway)] in
   Async.ret
     (JObj [("name", name);
            ("description", JStr description);
            ("image", JStr image);
            ("external_url", JStr external_url);
            ("animation_url", animation_url);
            ("attributes", JArr attributes);
            ("properties",
             JObj [("form_data", form_data);
                   ("files_metadata", files_metadata);
                   ("ipfs_info", ipfs_info);
                   ("certification_data", certificationData)])]))%async.

End Metadata.

(** ** More simulated collaborators

    A ledger that refuses to create assets, a storage that already holds
    a certificate, and a system clock, for the examples of Part II. *)

Module Demo.

(** The simulated ledger, except that every asset creation is
    rejected. *)
Definition respond_without_creation (X : Type) (c : call X) (w : Sim.world)
  : result X * Sim.world :=
  match c in call X return result X * Sim.world -> result X * Sim.world with
  | createAsset _ => fun _ => (Thrown Sim.network_failure, w)
  | _ => fun answer => answer
  end (Sim.respond c w).

Definition without_creation : env Sim.world :=
  Env Sim.perform respond_without_creation.

(** A CID whose multihash is a 20-byte sha-1 digest. *)
Definition cid_sha1 : string := "bafkrcfaaaaaaaaaaaaaaaaaaaaaaaaaaaaaaaaa".

(** The raw CID of the digest behind [Sim.cid_v0]. *)
Definition cid_v1 : string :=
  "bafkreie5nqv6kd3qnfjupgvz34woh3oksc3iau6abmyajn7qvtf6d2ho34".

(** A 58-character text whose checksum is wrong. *)
Definition not_an_address : string :=
  "AAAAAAAAAAAAAAAAAAAAAAAAAAAAAAAAAAAAAAAAAAAAAAAAAAAAAAAAAA".

(** The zero address with the two unused bits of its last character
    set. *)
Definition uncanonical_address : string :=
  "AAAAAAAAAAAAAAAAAAAAAAAAAAAAAAAAAAAAAAAAAAAAAAAAAAAAY5HFKT".

Definition certificate : json :=
  JObj [("name", JStr "Contratto");
        ("description", JStr "Contratto di affitto")].

(** The asset 1001 with the given reserve; the storage serves [doc]
    under the identifier of the asset's URL. *)
Definition certified (reserve : string) (doc : json) : Sim.world :=
  Sim.World [(1001%Z, Sim.soulbound reserve)] 1002 [] [(Sim.cid_v0, doc)] []
    None [] [].

(** The simulated collaborators next to a system clock that gives the
    listed readings, one after the other. *)
Definition clocked : env (Sim.world * list Z) :=
  Env (fun X e w =>
         let '(x, w1) := Sim.perform e (fst w) in (x, (w1, snd w)))
      (fun X c w =>
         let '(r, w1) := Sim.respond c (fst w) in (r, (w1, snd w))).

Definition Date_now (w : Sim.world * list Z) : Z * (Sim.world * list Z) :=
  match snd w with
  | ms :: rest => (ms, (fst w, rest))
  | [] => (0%Z, w)
  end.

(** What a form and the certification data built from it hold. *)
Definition formData : json :=
  JObj [("assetName", JStr "SBT_Contratto_001");
        ("unitName", JStr "CERT");
        ("timestamp", JStr "2023-12-31T23:59:59.000Z")].

(** A form whose description has a [toString] of its own. *)
Definition unprintable : json :=
  JObj [("assetName", JStr "SBT_Contratto_001");
        ("description", JObj [("toString", JNum 1)])].

Definition certificationData : json :=
  JObj [("asset_type", JStr "document");
        ("author", JStr "Mario Rossi");
        ("organization", JObj [("name", JStr "Studio Legale Roma")])].

Definition fileHashes : list FileHash.t :=
  [FileHash.mk "foto.png" "QmFoto" "image/png" 1024 "ipfs://QmFoto"
     "https://gateway.pinata.cloud/ipfs/QmFoto";
   FileHash.mk "contratto.pdf" "QmContratto" "application/pdf" 245760
     "ipfs://QmContratto" "https://gateway.pinata.cloud/ipfs/QmContratto"].

End Demo.

Close Scope string_scope.

(* ===================================================================== *)
(** * Part II: properties                                                 *)
(* ===================================================================== *)

Module Base32Facts.
Import Bytes Base32.

Lemma byte_of_bits_of_byte (b : byte) (rest : list bool) :
  bytes_of_bits (bits_of_byte b ++ rest) =
  let '(bs, tail) := bytes_of_bits rest in (b :: bs, tail).
Proof.
  unfold bits_of_byte.
  pose proof (Byte.of_bits_to_bits b) as E.
  destruct (Byte.to_bits b) as (b0, (b1, (b2, (b3, (b4, (b5, (b6, b7))))))).
  cbn [app bytes_of_bits]. unfold byte_of_bits. rewrite E. reflexivity.
Qed.

Lemma bytes_of_bits_short (pad : list bool) :
  length pad < 8 -> bytes_of_bits pad = ([], pad).
Proof.
  intros H.
  do 8 (destruct pad as [|? pad]; [reflexivity|]).
  cbn in H. lia.
Qed.

(** Reading the bits of whole bytes followed by a short tail gives the
    bytes back. *)
Lemma bytes_of_bits_of_bytes (bs : list byte) (pad : list bool) :
  length pad < 8 ->
  bytes_of_bits (bits_of_bytes bs ++ pad) = (bs, pad).
Proof.
  intros H. induction bs as [|b bs IH].
  - apply bytes_of_bits_short, H.
  - unfold bits_of_bytes in *. cbn [flat_map]. rewrite <- app_assoc.
    rewrite byte_of_bits_of_byte, IH. reflexivity.
Qed.

Lemma bits_of_quintet_quintet (b4 b3 b2 b1 b0 : bool) :
  bits_of_quintet (quintet b4 b3 b2 b1 b0) = [b4; b3; b2; b1; b0].
Proof. destruct b4, b3, b2, b1, b0; reflexivity. Qed.

Lemma quintet_lt (b4 b3 b2 b1 b0 : bool) : quintet b4 b3 b2 b1 b0 < 32.
Proof. destruct b4, b3, b2, b1, b0; cbn; lia. Qed.

(** The five-bit groups of a bit string spell the string followed by
    fewer than five zero bits. *)
Lemma flat_quintets (bits : list bool) :
  exists pad,
    flat_map bits_of_quintet (quintets bits) = bits ++ pad /\
    length pad < 5 /\ existsb (fun b => b) pad = false.
Proof.
  revert bits. fix IH 1.
  intros [|b4 [|b3 [|b2 [|b1 [|b0 rest]]]]].
  - exists []. repeat split; cbn; lia.
  - exists [false; false; false; false].
    cbn [quintets flat_map]. rewrite bits_of_quintet_quintet.
    repeat split; cbn; lia.
  - exists [false; false; false].
    cbn [quintets flat_map]. rewrite bits_of_quintet_quintet.
    repeat split; cbn; lia.
  - exists [false; false].
    cbn [quintets flat_map]. rewrite bits_of_quintet_quintet.
    repeat split; cbn; lia.
  - exists [false].
    cbn [quintets flat_map]. rewrite bits_of_quintet_quintet.
    repeat split; cbn; lia.
  - destruct (IH rest) as (pad & E & L).
    exists pad. cbn [quintets flat_map].
    rewrite bits_of_quintet_quintet, E. split; [reflexivity | exact L].
Qed.

Lemma length_bits_of_bytes (bs : list byte) :
  length (bits_of_bytes bs) = 8 * length bs.
Proof.
  induction bs as [|b bs IH]; [reflexivity|].
  unfold bits_of_bytes in *. cbn [flat_map]. rewrite length_app, IH.
  unfold bits_of_byte.
  destruct (Byte.to_bits b) as (b0, (b1, (b2, (b3, (b4, (b5, (b6, b7))))))).
  cbn [length]. lia.
Qed.

Lemma length_quintets (bits : list bool) :
  length (quintets bits) = (length bits + 4) / 5.
Proof.
  revert bits. fix IH 1.
  intros [|b4 [|b3 [|b2 [|b1 [|b0 rest]]]]]; try reflexivity.
  cbn [quintets length]. rewrite IH.
  replace (S (S (S (S (S (length rest))))) + 4)
    with (1 * 5 + (length rest + 4)) by lia.
  rewrite Nat.div_add_l by lia. reflexivity.
Qed.

Lemma Forall_quintets (bits : list bool) :
  Forall (fun v => v < 32) (quintets bits).
Proof.
  revert bits. fix IH 1.
  intros [|b4 [|b3 [|b2 [|b1 [|b0 rest]]]]]; cbn [quintets];
    [ apply Forall_nil
    | apply Forall_cons; [apply quintet_lt | apply Forall_nil] ..
    | apply Forall_cons; [apply quintet_lt | apply IH] ].
Qed.

Section Alphabet.
Variable alphabet : string.
Hypothesis index_of_char_of :
  forall v, v < 32 -> index_of (char_of alphabet v) alphabet = Some v.

Lemma values_of_chars (vs : list nat) :
  Forall (fun v => v < 32) vs ->
  values_of alphabet (map (char_of alphabet) vs) = Some vs.
Proof.
  induction 1 as [|v vs Hv _ IH]; cbn; [reflexivity|].
  rewrite index_of_char_of, IH by assumption. reflexivity.
Qed.

(** Decoding an encoded byte string gives the bytes back. *)
Lemma decode_encode (bs : list byte) :
  exists pad,
    decode_bits alphabet (encode alphabet bs) = Some (bs, pad) /\
    length pad < 5 /\ existsb (fun b => b) pad = false.
Proof.
  destruct (flat_quintets (bits_of_bytes bs)) as (pad & E & L & Z).
  exists pad. unfold decode_bits, encode.
  rewrite list_ascii_of_string_of_list_ascii.
  rewrite values_of_chars by apply Forall_quintets.
  rewrite E, bytes_of_bits_of_bytes by lia. auto.
Qed.
End Alphabet.

Lemma lt_32_cases (P : nat -> Prop) :
  (forall b4 b3 b2 b1 b0, P (quintet b4 b3 b2 b1 b0)) ->
  forall v, v < 32 -> P v.
Proof.
  intros H v Hv.
  replace v with (quintet (Nat.testbit v 4) (Nat.testbit v 3)
                    (Nat.testbit v 2) (Nat.testbit v 1) (Nat.testbit v 0)).
  - apply H.
  - do 32 (destruct v as [|v]; [reflexivity|]). lia.
Qed.

Lemma index_of_char_of_upper (v : nat) :
  v < 32 -> index_of (char_of upper v) upper = Some v.
Proof.
  revert v. apply lt_32_cases.
  intros b4 b3 b2 b1 b0. destruct b4, b3, b2, b1, b0; reflexivity.
Qed.

Lemma index_of_char_of_lower (v : nat) :
  v < 32 -> index_of (char_of lower v) lower = Some v.
Proof.
  revert v. apply lt_32_cases.
  intros b4 b3 b2 b1 b0. destruct b4, b3, b2, b1, b0; reflexivity.
Qed.

End Base32Facts.

(** ** The address text of algosdk *)

Module AlgosdkFacts.
Import Bytes Base32 Base32Facts Algosdk.

Lemma length_sha512_256 (m : list byte) :
  length (Sha512.sha512_256 m) = 32.
Proof.
  unfold Sha512.sha512_256, Sha512.be_bytes.
  rewrite !length_app, !length_map, !length_rev, !length_seq. reflexivity.
Qed.

Lemma length_checksum_of (pk : list byte) : length (checksum_of pk) = 4.
Proof.
  unfold checksum_of, genericHash.
  rewrite length_firstn, length_skipn, length_sha512_256. reflexivity.
Qed.

Lemma length_string_of_list_ascii (l : list ascii) :
  String.length (string_of_list_ascii l) = length l.
Proof. induction l as [|c l IH]; cbn; congruence. Qed.

Lemma length_encode (alphabet : string) (bs : list byte) :
  String.length (encode alphabet bs) = (8 * length bs + 4) / 5.
Proof.
  unfold encode.
  rewrite length_string_of_list_ascii, length_map, length_quintets,
    length_bits_of_bytes.
  reflexivity.
Qed.

Lemma substring_whole (s t : string) :
  substring 0 (String.length s) (s ++ t) = s.
Proof.
  induction s as [|c s IH]; cbn [String.length append substring].
  - destruct t; reflexivity.
  - rewrite IH. reflexivity.
Qed.

(** On a 32-byte payload the address is the unpadded base32 text of
    payload and checksum. *)
Lemma encodeAddress_base32 (pk : list byte) :
  length pk = 32 ->
  encodeAddress pk = encode upper (pk ++ checksum_of pk).
Proof.
  intros H. unfold encodeAddress, hi_base32_encode.
  assert (L : String.length (encode upper (pk ++ checksum_of pk)) = 58).
  { rewrite length_encode, length_app, length_checksum_of, H. reflexivity. }
  rewrite L. change ALGORAND_ADDRESS_LENGTH with 58. rewrite <- L at 1.
  apply substring_whole.
Qed.

(** The address text has 58 characters. *)
Lemma length_encodeAddress (pk : list byte) :
  length pk = 32 -> String.length (encodeAddress pk) = 58.
Proof.
  intros H. rewrite encodeAddress_base32 by exact H.
  rewrite length_encode, length_app, length_checksum_of, H. reflexivity.
Qed.

Lemma upper_char_ok (v : nat) :
  v < 32 ->
  is_base32_char (char_of upper v) = true /\
  is_pad (char_of upper v) = false.
Proof.
  revert v. apply lt_32_cases.
  intros b4 b3 b2 b1 b0. destruct b4, b3, b2, b1, b0; split; reflexivity.
Qed.

Lemma lower_char_ok (v : nat) :
  v < 32 -> Ascii.eqb (char_of lower v) "="%char = false.
Proof.
  revert v. apply lt_32_cases.
  intros b4 b3 b2 b1 b0. destruct b4, b3, b2, b1, b0; reflexivity.
Qed.

Lemma forallb_upper (vs : list nat) :
  Forall (fun v => v < 32) vs ->
  forallb is_base32_char (map (char_of upper) vs) = true.
Proof.
  induction 1 as [|v vs Hv _ IH]; cbn; [reflexivity|].
  rewrite (proj1 (upper_char_ok Hv)), IH. reflexivity.
Qed.

Lemma filter_upper (vs : list nat) :
  Forall (fun v => v < 32) vs ->
  filter (fun c => negb (is_pad c)) (map (char_of upper) vs) =
  map (char_of upper) vs.
Proof.
  induction 1 as [|v vs Hv _ IH]; cbn; [reflexivity|].
  rewrite (proj2 (upper_char_ok Hv)), IH. reflexivity.
Qed.

(** hi-base32 reads back the 36 bytes it wrote. *)
Lemma hi_base32_decode_encode (bs : list byte) :
  length bs = 36 ->
  hi_base32_decode (encode upper bs) = Returned bs.
Proof.
  intros H. unfold hi_base32_decode, encode.
  rewrite list_ascii_of_string_of_list_ascii.
  pose proof (Forall_quintets (bits_of_bytes bs)) as F.
  rewrite forallb_upper, filter_upper by exact F. cbn [negb].
  rewrite (values_of_chars _ index_of_char_of_upper F).
  rewrite length_quintets, length_bits_of_bytes, H.
  destruct (flat_quintets (bits_of_bytes bs)) as (pad & E & L & _).
  rewrite E, bytes_of_bits_of_bytes by lia.
  cbn [fst].
  change (5 * ((8 * 36 + 4) / 5 / 8)
          + remain_bytes (((8 * 36 + 4) / 5) mod 8)) with 36.
  f_equal. apply firstn_all2. lia.
Qed.

Lemma bytes_eqb_refl (a : list byte) : bytes_eqb a a = true.
Proof.
  induction a as [|x a IH]; cbn; [reflexivity|].
  rewrite IH, andb_true_r. apply Byte.byte_dec_lb. reflexivity.
Qed.

Lemma bytes_eqb_eq (a b : list byte) : bytes_eqb a b = true -> a = b.
Proof.
  revert b. induction a as [|x a IH]; intros [|y b]; cbn;
    try discriminate; [reflexivity|].
  intros H. apply andb_true_iff in H. destruct H as [H1 H2].
  apply Byte.byte_dec_bl in H1. f_equal; auto.
Qed.

(** What [decodeAddress] does on a text that hi-base32 reads as 32
    payload bytes followed by 4 checksum bytes. *)
Lemma decodeAddress_decoded (address : string) (pk cs : list byte) :
  String.length address = 58 ->
  hi_base32_decode address = Returned (pk ++ cs) ->
  length pk = 32 -> length cs = 4 ->
  decodeAddress address =
    if bytes_eqb (checksum_of pk) cs
    then Returned (MkAddress pk cs)
    else Thrown (Error CHECKSUM_ADDRESS_ERROR_MSG).
Proof.
  intros HL HD Hpk Hcs.
  assert (E1 : firstn 32 (pk ++ cs) = pk).
  { rewrite <- Hpk, firstn_app, Nat.sub_diag, firstn_all.
    apply app_nil_r. }
  assert (E2 : firstn 4 (skipn 32 (pk ++ cs)) = cs).
  { rewrite <- Hpk, skipn_app, Nat.sub_diag, skipn_all.
    rewrite <- Hcs. apply firstn_all. }
  unfold decodeAddress.
  rewrite HL, HD. cbn [Nat.eqb negb ALGORAND_ADDRESS_LENGTH rbind].
  rewrite length_app, Hpk, Hcs.
  change (ALGORAND_ADDRESS_BYTE_LENGTH - ALGORAND_CHECKSUM_BYTE_LENGTH)
    with 32.
  change PUBLIC_KEY_LENGTH with 32.
  change ALGORAND_CHECKSUM_BYTE_LENGTH with 4.
  change (32 + 4 =? ALGORAND_ADDRESS_BYTE_LENGTH)%nat with true.
  cbn [negb]. rewrite E1, E2. reflexivity.
Qed.

(** Decoding the address of a 32-byte payload gives the payload back. *)
Lemma decodeAddress_encodeAddress (pk : list byte) :
  length pk = 32 ->
  decodeAddress (encodeAddress pk) =
    Returned (MkAddress pk (checksum_of pk)).
Proof.
  intros H.
  rewrite (@decodeAddress_decoded _ pk (checksum_of pk)).
  - rewrite bytes_eqb_refl. reflexivity.
  - apply length_encodeAddress, H.
  - rewrite encodeAddress_base32 by exact H.
    apply hi_base32_decode_encode.
    rewrite length_app, length_checksum_of, H. reflexivity.
  - exact H.
  - apply length_checksum_of.
Qed.

End AlgosdkFacts.

(** ** CID text *)

Module MultiformatsFacts.
Import Bytes Base32 Base32Facts Multiformats.

Lemma strip_leading_pad_id (cs : list ascii) :
  Forall (fun c => Ascii.eqb c "="%char = false) cs ->
  strip_leading_pad cs = cs.
Proof. intros [|c l Hc _]; cbn; [|rewrite Hc]; reflexivity. Qed.

Lemma strip_pad_id (cs : list ascii) :
  Forall (fun c => Ascii.eqb c "="%char = false) cs ->
  strip_pad (string_of_list_ascii cs) = string_of_list_ascii cs.
Proof.
  intros F. unfold strip_pad.
  rewrite list_ascii_of_string_of_list_ascii, strip_leading_pad_id.
  - rewrite rev_involutive. reflexivity.
  - apply Forall_rev, F.
Qed.

Lemma strip_pad_encode (bs : list byte) :
  strip_pad (encode lower bs) = encode lower bs.
Proof.
  unfold encode. apply strip_pad_id.
  apply Forall_map.
  eapply Forall_impl; [|apply Forall_quintets].
  intros v Hv. apply AlgosdkFacts.lower_char_ok, Hv.
Qed.

(** The strict decoder reads back what the encoder wrote. *)
Lemma base32_decode_encode (bs : list byte) :
  base32_decode (encode lower bs) = Returned bs.
Proof.
  unfold base32_decode. rewrite strip_pad_encode.
  destruct (decode_encode lower index_of_char_of_lower bs)
    as (pad & E & L & Z).
  rewrite E, Z.
  replace (5 <=? length pad)%nat with false
    by (symmetry; apply Nat.leb_gt, L).
  reflexivity.
Qed.

Lemma cid_bytes_raw_sha256 (d : list byte) :
  length d = 32 ->
  cid_bytes (raw_sha256 d) = x01 :: x55 :: x12 :: x20 :: d.
Proof.
  intros H. unfold cid_bytes, raw_sha256, digest_bytes, size.
  cbn [version codec multihash code digest createV1 create_digest].
  rewrite H. reflexivity.
Qed.

Lemma decode_raw_sha256 (d : list byte) :
  length d = 32 ->
  decode (x01 :: x55 :: x12 :: x20 :: d) = Returned (raw_sha256 d).
Proof.
  intros H. unfold decode.
  change (varint (x01 :: x55 :: x12 :: x20 :: d))
    with (Returned (1%N, x55 :: x12 :: x20 :: d)).
  cbn [rbind].
  change (varint (x55 :: x12 :: x20 :: d))
    with (Returned (RAW, x12 :: x20 :: d)).
  cbn [rbind N.eqb Pos.eqb orb negb].
  change (varint (x12 :: x20 :: d)) with (Returned (SHA2_256, x20 :: d)).
  cbn [rbind].
  change (varint (x20 :: d)) with (Returned (32%N, d)).
  cbn [rbind]. rewrite H. reflexivity.
Qed.

(** Parsing the text of such a CID gives the CID back. *)
Lemma parse_toString_raw_sha256 (d : list byte) :
  length d = 32 ->
  parse (toString (raw_sha256 d)) = Returned (raw_sha256 d).
Proof.
  intros H. unfold parse, toString.
  change (version (raw_sha256 d) =? 0)%N with false. cbv iota.
  cbn [parseCIDtoBytes].
  rewrite base32_decode_encode, cid_bytes_raw_sha256 by exact H.
  cbn [rbind]. rewrite decode_raw_sha256 by exact H.
  reflexivity.
Qed.

End MultiformatsFacts.

(** ** The codec *)

Module CidDecoderFacts.
Import Multiformats MultiformatsFacts Algosdk AlgosdkFacts CidDecoder.

Lemma fromCidToAddress_parsed (c : string) (cid : CID) :
  parse c = Returned cid ->
  fromCidToAddress c =
    if ((code (multihash cid) =? SHA2_256)%N
        && (size (multihash cid) =? 32)%N)%bool
    then Returned (encodeAddress (digest (multihash cid)))
    else Thrown (Error ("Failed to convert CID to address: "
                        ++ UnsupportedDigest)).
Proof.
  intros H. unfold fromCidToAddress, multihashToAlgorandAddress.
  rewrite H. cbn [rbind].
  destruct ((code (multihash cid) =? SHA2_256)%N
            && (size (multihash cid) =? 32)%N)%bool; reflexivity.
Qed.

Lemma fromAddressToCid_encodeAddress (d : list byte) :
  length d = 32 ->
  fromAddressToCid (encodeAddress d) = Returned (toString (raw_sha256 d)).
Proof.
  intros H. unfold fromAddressToCid.
  rewrite decodeAddress_encodeAddress by exact H. reflexivity.
Qed.

Lemma fromCidToAddress_raw_sha256 (d : list byte) :
  length d = 32 ->
  fromCidToAddress (toString (raw_sha256 d)) = Returned (encodeAddress d).
Proof.
  intros H.
  rewrite (fromCidToAddress_parsed _ (parse_toString_raw_sha256 d H)).
  unfold size. cbn [raw_sha256 createV1 create_digest multihash code digest].
  rewrite H. reflexivity.
Qed.

(** C1 (as the code has it): for every version-1 CID with the raw codec
    whose multihash is sha2-256 with a 32-byte digest, written in its
    base32 text, decoding the address that [fromCidToAddress] produces
    gives the same CID text back.  Both functions are pure: they are
    functions of their argument alone, and run inside any program they
    make no call and leave the environment as it was. *)
Theorem roundtrip_raw_sha256 (cid : CID) :
  version cid = 1%N -> codec cid = RAW ->
  code (multihash cid) = SHA2_256 ->
  length (digest (multihash cid)) = 32 ->
  rbind (fromCidToAddress (toString cid)) fromAddressToCid =
    Returned (toString cid) /\
  forall (W : Type) (E : env W) (w : W),
    run E (address <- Async.lift (fromCidToAddress (toString cid)) ;;
           Async.lift (fromAddressToCid address))%async w =
      Outcome (Returned (toString cid)) w [].
Proof.
  destruct cid as [v c [h d]]. cbn [version codec multihash code digest].
  intros -> -> -> H.
  change (MkCID 1 RAW (MkDigest SHA2_256 d)) with (raw_sha256 d).
  rewrite fromCidToAddress_raw_sha256 by exact H. cbn [rbind].
  rewrite fromAddressToCid_encodeAddress by exact H.
  split; [reflexivity|]. intros W E w. cbn.
  rewrite fromAddressToCid_encodeAddress by exact H. reflexivity.
Qed.

(** C2: when the multihash of a CID is not sha2-256, or its digest is not
    32 bytes long, [fromCidToAddress] throws the [UnsupportedDigest]
    fault (under the prefix its [catch] adds) and returns nothing; run
    inside any program it makes no call and leaves the environment as it
    was. *)
Theorem fromCidToAddress_unsupported_digest (c : string) (cid : CID) :
  parse c = Returned cid ->
  code (multihash cid) <> SHA2_256 \/
  length (digest (multihash cid)) <> 32 ->
  fromCidToAddress c =
    Thrown (Error ("Failed to convert CID to address: "
                   ++ UnsupportedDigest)) /\
  forall (W : Type) (E : env W) (w : W),
    run E (Async.lift (fromCidToAddress c)) w =
      Outcome (Thrown (Error ("Failed to convert CID to address: "
                              ++ UnsupportedDigest))) w [].
Proof.
  intros P H.
  assert (T : fromCidToAddress c =
              Thrown (Error ("Failed to convert CID to address: "
                             ++ UnsupportedDigest))).
  { rewrite (fromCidToAddress_parsed _ P).
    destruct H as [H|H].
    - apply N.eqb_neq in H. rewrite H. reflexivity.
    - replace (size (multihash cid) =? 32)%N with false.
      + rewrite andb_false_r. reflexivity.
      + symmetry. apply N.eqb_neq. unfold size. lia. }
  split; [exact T|]. intros W E w. rewrite T. reflexivity.
Qed.

(** C3: when a 58-character address decodes to 32 payload bytes and 4
    checksum bytes that are not the ledger checksum of the payload,
    [fromAddressToCid] throws the [InvalidChecksum] fault (under the
    prefix its [catch] adds). *)
Theorem fromAddressToCid_invalid_checksum (address : string)
    (pk cs : list byte) :
  String.length address = 58 ->
  hi_base32_decode address = Returned (pk ++ cs) ->
  length pk = 32 -> length cs = 4 ->
  cs <> checksum_of pk ->
  fromAddressToCid address =
    Thrown (Error ("Failed to convert address to CID: "
                   ++ InvalidChecksum)).
Proof.
  intros HL HD Hpk Hcs Hne. unfold fromAddressToCid.
  rewrite (@decodeAddress_decoded address pk cs HL HD Hpk Hcs).
  destruct (bytes_eqb (checksum_of pk) cs) eqn:B; [|reflexivity].
  apply bytes_eqb_eq in B. congruence.
Qed.

End CidDecoderFacts.

(** C1 on the raw CID of the all-zero digest. *)
Lemma roundtrip_raw_sha256_witness :
  rbind (CidDecoder.fromCidToAddress
           "bafkreiaaaaaaaaaaaaaaaaaaaaaaaaaaaaaaaaaaaaaaaaaaaaaaaaaaaa")
        CidDecoder.fromAddressToCid =
    Returned "bafkreiaaaaaaaaaaaaaaaaaaaaaaaaaaaaaaaaaaaaaaaaaaaaaaaaaaaa"%string.
Proof.
  apply (proj1 (CidDecoderFacts.roundtrip_raw_sha256
                  (Multiformats.raw_sha256 (repeat x00 32))
                  eq_refl eq_refl eq_refl eq_refl)).
Defined.

(** C1, refuted as stated: a version-0 CID (dag-pb codec), as the pinning
    service returns them, has a sha2-256 multihash with a 32-byte digest,
    but the round trip gives the version-1 raw CID of the same digest. *)
Lemma roundtrip_changes_version0_cid :
  (exists cid,
     Multiformats.parse "QmYwAPJzv5CZsnA625s3Xf2nemtYgPpHdWEz79ojWnPbdG"
       = Returned cid /\
     Multiformats.code (Multiformats.multihash cid) = Multiformats.SHA2_256 /\
     length (Multiformats.digest (Multiformats.multihash cid)) = 32) /\
  rbind (CidDecoder.fromCidToAddress
           "QmYwAPJzv5CZsnA625s3Xf2nemtYgPpHdWEz79ojWnPbdG")
        CidDecoder.fromAddressToCid =
    Returned
      "bafkreie5nqv6kd3qnfjupgvz34woh3oksc3iau6abmyajn7qvtf6d2ho34"%string /\
  rbind (CidDecoder.fromCidToAddress
           "QmYwAPJzv5CZsnA625s3Xf2nemtYgPpHdWEz79ojWnPbdG")
        CidDecoder.fromAddressToCid <>
    Returned "QmYwAPJzv5CZsnA625s3Xf2nemtYgPpHdWEz79ojWnPbdG"%string.
Proof.
  split; [|split].
  - eexists. split; [vm_compute; reflexivity|]. split; reflexivity.
  - vm_compute. reflexivity.
  - vm_compute. discriminate.
Qed.

(** C2 on the raw CID of a 20-byte sha-1 digest. *)
Lemma fromCidToAddress_unsupported_digest_witness :
  CidDecoder.fromCidToAddress "bafkrcfaaaaaaaaaaaaaaaaaaaaaaaaaaaaaaaaa" =
    Thrown (Error ("Failed to convert CID to address: "
                   ++ CidDecoder.UnsupportedDigest)).
Proof.
  refine (proj1 (@CidDecoderFacts.fromCidToAddress_unsupported_digest
                   "bafkrcfaaaaaaaaaaaaaaaaaaaaaaaaaaaaaaaaa"
                   (Multiformats.createV1 Multiformats.RAW
                      (Multiformats.create_digest 0x11 (repeat x00 20)))
                   _ _)).
  - vm_compute. reflexivity.
  - left. vm_compute. discriminate.
Defined.

(** C3 on the address text of 36 zero bytes: the checksum of the zero
    payload is not zero. *)
Lemma fromAddressToCid_invalid_checksum_witness :
  CidDecoder.fromAddressToCid
    "AAAAAAAAAAAAAAAAAAAAAAAAAAAAAAAAAAAAAAAAAAAAAAAAAAAAAAAAAA" =
    Thrown (Error ("Failed to convert address to CID: "
                   ++ CidDecoder.InvalidChecksum)).
Proof.
  apply (@CidDecoderFacts.fromAddressToCid_invalid_checksum
           "AAAAAAAAAAAAAAAAAAAAAAAAAAAAAAAAAAAAAAAAAAAAAAAAAAAAAAAAAA"
           (repeat x00 32) (repeat x00 4)).
  - reflexivity.
  - vm_compute. reflexivity.
  - reflexivity.
  - reflexivity.
  - vm_compute. discriminate.
Defined.

(** ** Runs of programs *)

Module RunFacts.

Lemma run_pbind (W A B : Type) (E : env W) (p : prog A) (f : A -> prog B)
    (w : W) :
  run E (pbind p f) w =
    let o := run E p w in
    let o' := run E (f (value o)) (world o) in
    Outcome (value o') (world o') (trace o ++ trace o').
Proof.
  revert w. induction p as [a | X e k IH | X c k IH | X cs k IH]; intros w.
  - cbn. destruct (run E (f a) w); reflexivity.
  - cbn [pbind run]. destruct (perform E e w) as [x w1].
    rewrite IH. reflexivity.
  - cbn [pbind run]. destruct (respond E c w) as [r w1].
    rewrite IH. reflexivity.
  - cbn [pbind run]. destruct (respond_all E cs w) as [[rs evs] w1].
    rewrite IH. reflexivity.
Qed.

(** A rejected promise ends the [async] function; a fulfilled one feeds
    the rest of it. *)
Lemma run_bind (W A B : Type) (E : env W) (p : async A)
    (f : A -> async B) (w : W) :
  run E (Async.bind p f) w =
    let o := run E p w in
    match value o with
    | Returned a =>
        let o' := run E (f a) (world o) in
        Outcome (value o') (world o') (trace o ++ trace o')
    | Thrown e => Outcome (Thrown e) (world o) (trace o)
    end.
Proof.
  unfold Async.bind. rewrite run_pbind. cbv zeta.
  destruct (value (run E p w)) as [a | e]; [reflexivity|].
  cbn. rewrite app_nil_r. reflexivity.
Qed.

(** Two continuations that run alike give binds that run alike. *)
Lemma run_bind_ext (W A B : Type) (E : env W) (p : async A)
    (f g : A -> async B) (w : W) :
  (forall a w', run E (f a) w' = run E (g a) w') ->
  run E (Async.bind p f) w = run E (Async.bind p g) w.
Proof.
  intros H. rewrite !run_bind. cbv zeta.
  destruct (value (run E p w)); [rewrite H|]; reflexivity.
Qed.

Lemma run_lift (W A : Type) (E : env W) (r : result A) (w : W) :
  run E (Async.lift r) w = Outcome r w [].
Proof. reflexivity. Qed.

Lemma run_await (W X : Type) (E : env W) (c : call X) (w : W) :
  run E (Async.await c) w =
    Outcome (fst (respond E c w)) (snd (respond E c w))
            [log_call c (fst (respond E c w))].
Proof. cbn. destruct (respond E c w); reflexivity. Qed.

Lemma run_perform (W X : Type) (E : env W) (e : effect X) (w : W) :
  run E (Async.perform e) w =
    Outcome (Returned (fst (perform E e w))) (snd (perform E e w))
            [log_effect e (fst (perform E e w))].
Proof. cbn. destruct (perform E e w); reflexivity. Qed.

Lemma run_all (W X : Type) (E : env W) (cs : list (call X)) (w : W) :
  exists rs evs w',
    respond_all E cs w = (rs, evs, w') /\
    run E (Async.all cs) w =
      Outcome (match Async.first_rejection rs with
               | Some e => Thrown e
               | None => Returned (Async.fulfilled rs)
               end) w' [E_all evs].
Proof.
  destruct (respond_all E cs w) as [[rs evs] w'] eqn:R.
  exists rs, evs, w'. split; [reflexivity|].
  cbn. rewrite R. destruct (Async.first_rejection rs); reflexivity.
Qed.

End RunFacts.

(** ** Upload coordination *)

Module UploadFacts.
Import RunFacts.

Section Env.
Context {W : Type} (E : env W).

(** Starting the uploads of a batch only reads the clock, and cannot
    fail. *)
Lemma run_start_uploads (batch : list File.t) (i : nat) (w : W) :
  exists cs,
    value (run E (start_uploads batch i) w) = Returned cs /\
    length cs = length batch /\
    Forall (fun ev => storage_event ev = true)
           (trace (run E (start_uploads batch i) w)).
Proof.
  revert w. induction batch as [|file rest IH]; intros w.
  - exists []. cbn. auto.
  - cbn [start_uploads]. rewrite run_bind, run_perform. cbn [value world trace].
    rewrite run_bind. cbv zeta.
    destruct (IH (snd (perform E now w))) as (cs & V & L & F).
    rewrite V. cbn [run Async.ret value world trace].
    eexists. split; [reflexivity|]. split; [cbn; congruence|].
    constructor; [reflexivity|].
    rewrite app_nil_r. exact F.
Qed.

(** Starting the uploads of a batch reads the clock once per file and
    yields one call per file. *)
Lemma run_start_uploads_exact (batch : list File.t) (i : nat) (w : W) :
  exists tss w1,
    length tss = length batch /\
    run E (start_uploads batch i) w =
      Outcome (Returned (upload_calls i batch tss)) w1 (map E_now tss).
Proof.
  revert w. induction batch as [|file rest IH]; intros w.
  - exists [], w. split; reflexivity.
  - cbn [start_uploads]. rewrite run_bind, run_perform.
    cbn [value world trace].
    destruct (perform E now w) as [ts w0]. cbn [fst snd log_effect].
    destruct (IH w0) as (tss & w1 & L & R).
    exists (ts :: tss), w1. split; [cbn; congruence|].
    rewrite run_bind, R. cbn [value world trace run Async.ret].
    rewrite app_nil_r. reflexivity.
Qed.

Lemma respond_all_upload_calls (i : nat) (batch : list File.t)
    (tss : list string) (w : W) :
  length tss = length batch ->
  exists rs w1,
    length rs = length batch /\
    respond_all E (upload_calls i batch tss) w =
      (rs, upload_events i batch tss rs, w1).
Proof.
  revert tss w. induction batch as [|file rest IH]; intros [|ts tss] w L;
    try discriminate L.
  - exists [], w. split; reflexivity.
  - cbn [upload_calls respond_all].
    destruct (respond E (uploadFile file (upload_options i file ts)) w)
      as [r w0].
    destruct (IH tss w0) as (rs & w1 & Lr & R); [cbn in L; congruence|].
    exists (r :: rs), w1. split; [cbn; congruence|].
    rewrite R. reflexivity.
Qed.

(** One round of the loop of [uploadFilesInParallel]: the uploads of the
    batch are started, then awaited together; a rejection ends the call;
    otherwise the loop pauses if files remain and goes on. *)
Lemma run_upload_round (fuel : nat) (files : list File.t) (i : nat)
    (results : list FileHash.t) (w : W) :
  i < length files ->
  exists tss rs w1,
    length tss = length (slice i (i + BATCH_SIZE) files) /\
    length rs = length (slice i (i + BATCH_SIZE) files) /\
    run E (upload_rounds (S fuel) files i results) w =
      let batch :=
        map E_now tss
        ++ [E_all (upload_events i (slice i (i + BATCH_SIZE) files) tss rs)]
      in
      match Async.first_rejection rs with
      | Some e => Outcome (Thrown e) w1 batch
      | None =>
          let pause := (i + BATCH_SIZE <? length files)%nat in
          let o := run E (upload_rounds fuel files (i + BATCH_SIZE)
                            (results ++ Async.fulfilled rs))
                     (if pause then snd (perform E (sleep 500) w1) else w1) in
          Outcome (value o) (world o)
            (batch ++ (if pause then [E_sleep 500] else []) ++ trace o)
      end.
Proof.
  intros Hi. cbn [upload_rounds].
  apply Nat.ltb_lt in Hi. rewrite Hi.
  destruct (run_start_uploads_exact (slice i (i + BATCH_SIZE) files) i w)
    as (tss & w0 & Lt & R0).
  destruct (respond_all_upload_calls i (slice i (i + BATCH_SIZE) files)
              tss w0 Lt) as (rs & w1 & Lr & R1).
  exists tss, rs, w1. split; [exact Lt|]. split; [exact Lr|].
  rewrite run_bind, R0. cbn [value world trace].
  assert (RA : run E (Async.all (upload_calls i
                                   (slice i (i + BATCH_SIZE) files) tss)) w0
               = Outcome (match Async.first_rejection rs with
                          | Some e => Thrown e
                          | None => Returned (Async.fulfilled rs)
                          end) w1
                   [E_all (upload_events i
                             (slice i (i + BATCH_SIZE) files) tss rs)]).
  { unfold Async.all. cbn [run]. rewrite R1.
    destruct (Async.first_rejection rs); reflexivity. }
  rewrite run_bind, RA. cbn [value world trace].
  destruct (Async.first_rejection rs) as [e|]; cbn [run value world trace].
  - reflexivity.
  - rewrite run_bind.
    destruct (i + BATCH_SIZE <? length files)%nat.
    + rewrite run_perform. cbn [value world trace log_effect].
      rewrite <- !app_assoc. reflexivity.
    + cbn [run Async.ret value world trace app].
      rewrite <- !app_assoc. reflexivity.
Qed.

Lemma upload_rounds_S (fuel : nat) (files : list File.t) (i : nat)
    (results : list FileHash.t) :
  upload_rounds (S fuel) files i results =
    if (i <? length files)%nat then
      (batchPromises <- start_uploads (slice i (i + BATCH_SIZE) files) i ;;
       batchResults <- Async.all batchPromises ;;
       (if (i + BATCH_SIZE <? length files)%nat
        then Async.perform (sleep 500)
        else Async.ret tt) ;;
       upload_rounds fuel files (i + BATCH_SIZE)
         (results ++ batchResults))%async
    else Async.ret results.
Proof. reflexivity. Qed.

(** The loop never stops for lack of fuel: once [fuel] rounds are enough
    to pass the end of the array, one more changes nothing. *)
Lemma upload_rounds_fuel (fuel : nat) (files : list File.t) (i : nat)
    (results : list FileHash.t) (w : W) :
  length files <= i + BATCH_SIZE * fuel ->
  run E (upload_rounds (S fuel) files i results) w =
  run E (upload_rounds fuel files i results) w.
Proof.
  revert i results w. induction fuel as [|fuel IH]; intros i results w H.
  - rewrite upload_rounds_S.
    replace (i <? length files)%nat with false; [reflexivity|].
    symmetry. apply Nat.ltb_ge. lia.
  - rewrite (upload_rounds_S (S fuel)), (upload_rounds_S fuel).
    destruct (i <? length files)%nat; [|reflexivity].
    apply run_bind_ext. intros cs w0.
    apply run_bind_ext. intros hs w1.
    apply run_bind_ext. intros _ w2.
    apply IH. unfold BATCH_SIZE in *. lia.
Qed.

(** [uploadFilesInParallel] gives the loop one round of fuel per file, which
    is enough: any larger bound gives the same run. *)
Lemma uploadFilesInParallel_fuel (files : list File.t) (extra : nat)
    (w : W) :
  run E (upload_rounds (length files + extra) files 0 []) w =
  run E (uploadFilesInParallel files) w.
Proof.
  unfold uploadFilesInParallel.
  induction extra as [|extra IH].
  - rewrite Nat.add_0_r. reflexivity.
  - rewrite Nat.add_succ_r, upload_rounds_fuel; [exact IH|].
    unfold BATCH_SIZE. lia.
Qed.

Lemma storage_upload_rounds (fuel : nat) (files : list File.t) (i : nat)
    (results : list FileHash.t) (w : W) :
  Forall (fun ev => storage_event ev = true)
         (trace (run E (upload_rounds fuel files i results) w)).
Proof.
  revert i results w. induction fuel as [|fuel IH]; intros i results w.
  - constructor.
  - cbn [upload_rounds].
    destruct (i <? length files)%nat; [|constructor].
    rewrite run_bind. cbv zeta.
    destruct (run_start_uploads (slice i (i + BATCH_SIZE) files) i w)
      as (cs & V & _ & F).
    rewrite V. rewrite run_bind. cbv zeta.
    destruct (run_all E cs
                (world (run E (start_uploads
                                 (slice i (i + BATCH_SIZE) files) i) w)))
      as (rs & evs & w' & _ & R).
    rewrite R. cbn [value world trace].
    destruct (Async.first_rejection rs) as [e|].
    + cbn [trace]. apply Forall_app. split; [exact F|].
      constructor; [reflexivity | constructor].
    + rewrite run_bind. cbv zeta.
      destruct (i + BATCH_SIZE <? length files)%nat.
      * rewrite run_perform. cbn [value world trace].
        apply Forall_app. split; [exact F|].
        constructor; [reflexivity|].
        constructor; [reflexivity|]. apply IH.
      * cbn [run Async.ret value world trace].
        apply Forall_app. split; [exact F|].
        constructor; [reflexivity|]. apply IH.
Qed.

Lemma storage_uploadFilesInParallel (files : list File.t) (w : W) :
  Forall (fun ev => storage_event ev = true)
         (trace (run E (uploadFilesInParallel files) w)).
Proof. apply storage_upload_rounds. Qed.

Lemma fulfilled_inv (A : Type) (r : result A) :
  is_fulfilled r = true -> exists a, r = Returned a.
Proof. destruct r as [a|e]; [eauto | discriminate]. Qed.

Ltac three l a b c :=
  destruct l as [|a [|b [|c [|? ?]]]]; try discriminate.

Ltac one l a :=
  destruct l as [|a [|? ?]]; try discriminate.

Section SevenFiles.
Variables f1 f2 f3 f4 f5 f6 f7 : File.t.

Let files : list File.t := [f1; f2; f3; f4; f5; f6; f7].

Let opts (label : string) (file : File.t) (timestamp : string)
  : UploadOptions.t :=
  UploadOptions.mk (File.name file) label timestamp.

(** Seven files, every upload fulfilled: three batches of 3, 3 and 1
    uploads, each started after the one before was awaited and after a
    pause of 500 ms. *)
Lemma seven_files_fulfilled (w : W) :
  let o := run E (uploadFilesInParallel files) w in
  forallb (fun u => is_fulfilled (snd u)) (uploads (trace o)) = true ->
  exists t1 t2 t3 t4 t5 t6 t7 h1 h2 h3 h4 h5 h6 h7,
    trace o =
      [E_now t1; E_now t2; E_now t3;
       E_all [E_uploadFile f1 (opts "0" f1 t1) (Returned h1);
              E_uploadFile f2 (opts "0" f2 t2) (Returned h2);
              E_uploadFile f3 (opts "0" f3 t3) (Returned h3)];
       E_sleep 500;
       E_now t4; E_now t5; E_now t6;
       E_all [E_uploadFile f4 (opts "1" f4 t4) (Returned h4);
              E_uploadFile f5 (opts "1" f5 t5) (Returned h5);
              E_uploadFile f6 (opts "1" f6 t6) (Returned h6)];
       E_sleep 500;
       E_now t7;
       E_all [E_uploadFile f7 (opts "2" f7 t7) (Returned h7)]] /\
    value o = Returned [h1; h2; h3; h4; h5; h6; h7].
Proof.
  cbv zeta. unfold uploadFilesInParallel.
  change (length files) with 7.
  destruct (@run_upload_round 6 files 0 [] w) as (ts & rs & w1 & Lt & Lr & R);
    [cbn; lia|].
  change (slice 0 (0 + BATCH_SIZE) files) with [f1; f2; f3] in *.
  three ts t1 t2 t3. three rs r1 r2 r3. rewrite R. clear R Lt Lr.
  cbn [upload_events map app].
  destruct r1 as [h1|e]; [|cbn; discriminate].
  destruct r2 as [h2|e]; [|cbn; discriminate].
  destruct r3 as [h3|e]; [|cbn; discriminate].
  cbn [Async.first_rejection Async.fulfilled app].
  change (0 + BATCH_SIZE <? length files)%nat with true. cbv iota zeta.
  change (0 + BATCH_SIZE) with 3.
  destruct (@run_upload_round 5 files 3 [h1; h2; h3]
              (snd (perform E (sleep 500) w1)))
    as (ts & rs & w2 & Lt & Lr & R); [cbn; lia|].
  change (slice 3 (3 + BATCH_SIZE) files) with [f4; f5; f6] in *.
  three ts t4 t5 t6. three rs r4 r5 r6. rewrite R. clear R Lt Lr.
  cbn [upload_events map app].
  destruct r4 as [h4|e]; [|cbn; discriminate].
  destruct r5 as [h5|e]; [|cbn; discriminate].
  destruct r6 as [h6|e]; [|cbn; discriminate].
  cbn [Async.first_rejection Async.fulfilled app].
  change (3 + BATCH_SIZE <? length files)%nat with true. cbv iota zeta.
  change (3 + BATCH_SIZE) with 6.
  destruct (@run_upload_round 4 files 6 [h1; h2; h3; h4; h5; h6]
              (snd (perform E (sleep 500) w2)))
    as (ts & rs & w3 & Lt & Lr & R); [cbn; lia|].
  change (slice 6 (6 + BATCH_SIZE) files) with [f7] in *.
  one ts t7. one rs r7. rewrite R. clear R Lt Lr.
  cbn [upload_events map app].
  destruct r7 as [h7|e]; [|cbn; discriminate].
  cbn [Async.first_rejection Async.fulfilled app].
  change (6 + BATCH_SIZE <? length files)%nat with false. cbv iota zeta.
  change (6 + BATCH_SIZE) with 9.
  cbn [upload_rounds]. change (9 <? length files)%nat with false.
  cbv iota. cbn [run Async.ret value trace app].
  intros _. exists t1, t2, t3, t4, t5, t6, t7, h1, h2, h3, h4, h5, h6, h7.
  split; reflexivity.
Qed.

(** Seven files, the upload of the fifth rejected and every other upload
    that was started fulfilled: the call is rejected with the error of the
    fifth upload; the second batch was started whole and the third never. *)
Lemma seven_files_fifth_rejected (w : W) (e : error) :
  let o := run E (uploadFilesInParallel files) w in
  nth_error (uploads (trace o)) 4 = Some (f5, Thrown e) ->
  (forall k u,
     k <> 4 -> nth_error (uploads (trace o)) k = Some u ->
     is_fulfilled (snd u) = true) ->
  exists t1 t2 t3 t4 t5 t6 h1 h2 h3 h4 h6,
    trace o =
      [E_now t1; E_now t2; E_now t3;
       E_all [E_uploadFile f1 (opts "0" f1 t1) (Returned h1);
              E_uploadFile f2 (opts "0" f2 t2) (Returned h2);
              E_uploadFile f3 (opts "0" f3 t3) (Returned h3)];
       E_sleep 500;
       E_now t4; E_now t5; E_now t6;
       E_all [E_uploadFile f4 (opts "1" f4 t4) (Returned h4);
              E_uploadFile f5 (opts "1" f5 t5) (Thrown e);
              E_uploadFile f6 (opts "1" f6 t6) (Returned h6)]] /\
    value o = Thrown e.
Proof.
  cbv zeta. unfold uploadFilesInParallel.
  change (length files) with 7.
  destruct (@run_upload_round 6 files 0 [] w) as (ts & rs & w1 & Lt & Lr & R);
    [cbn; lia|].
  change (slice 0 (0 + BATCH_SIZE) files) with [f1; f2; f3] in *.
  three ts t1 t2 t3. three rs r1 r2 r3. rewrite R. clear R Lt Lr.
  cbn [upload_events map app].
  destruct r1 as [h1|e1]; [|cbn; discriminate].
  destruct r2 as [h2|e2]; [|cbn; discriminate].
  destruct r3 as [h3|e3]; [|cbn; discriminate].
  cbn [Async.first_rejection Async.fulfilled app].
  change (0 + BATCH_SIZE <? length files)%nat with true. cbv iota zeta.
  change (0 + BATCH_SIZE) with 3.
  destruct (@run_upload_round 5 files 3 [h1; h2; h3]
              (snd (perform E (sleep 500) w1)))
    as (ts & rs & w2 & Lt & Lr & R); [cbn; lia|].
  change (slice 3 (3 + BATCH_SIZE) files) with [f4; f5; f6] in *.
  three ts t4 t5 t6. three rs r4 r5 r6. rewrite R. clear R Lt Lr.
  cbn [upload_events map app].
  assert (S : forall t,
            nth_error
              (uploads
                 ([E_now t1; E_now t2; E_now t3;
                   E_all [E_uploadFile f1 (upload_options 0 f1 t1) (Returned h1);
                          E_uploadFile f2 (upload_options 0 f2 t2) (Returned h2);
                          E_uploadFile f3 (upload_options 0 f3 t3) (Returned h3)];
                   E_sleep 500; E_now t4; E_now t5; E_now t6;
                   E_all [E_uploadFile f4 (upload_options 3 f4 t4) r4;
                          E_uploadFile f5 (upload_options 3 f5 t5) r5;
                          E_uploadFile f6 (upload_options 3 f6 t6) r6]]
                  ++ t)) 4 = Some (f5, Thrown e) ->
            (forall k u,
               k <> 4 ->
               nth_error
                 (uploads
                    ([E_now t1; E_now t2; E_now t3;
                      E_all [E_uploadFile f1 (upload_options 0 f1 t1) (Returned h1);
                             E_uploadFile f2 (upload_options 0 f2 t2) (Returned h2);
                             E_uploadFile f3 (upload_options 0 f3 t3) (Returned h3)];
                      E_sleep 500; E_now t4; E_now t5; E_now t6;
                      E_all [E_uploadFile f4 (upload_options 3 f4 t4) r4;
                             E_uploadFile f5 (upload_options 3 f5 t5) r5;
                             E_uploadFile f6 (upload_options 3 f6 t6) r6]]
                     ++ t)) k = Some u ->
               is_fulfilled (snd u) = true) ->
            (exists h4, r4 = Returned h4) /\ r5 = Thrown e /\
            (exists h6, r6 = Returned h6)).
  { intros t H5 Hk. cbn in H5. injection H5 as ->.
    split; [|split; [reflexivity|]].
    - apply fulfilled_inv. apply (Hk 3 (f4, r4)); [lia | reflexivity].
    - apply fulfilled_inv. apply (Hk 5 (f6, r6)); [lia | reflexivity]. }
  destruct (Async.first_rejection [r4; r5; r6]) as [e0|] eqn:FR.
  - cbn [trace value]. intros H5 Hk.
    destruct (S [] H5 Hk) as ((h4 & ->) & -> & (h6 & ->)).
    cbn in FR. injection FR as <-.
    exists t1, t2, t3, t4, t5, t6, h1, h2, h3, h4, h6. split; reflexivity.
  - cbv zeta. cbn [trace value]. intros H5 Hk.
    destruct (S _ H5 Hk) as ((h4 & ->) & -> & (h6 & ->)).
    cbn in FR. discriminate FR.
Qed.

End SevenFiles.

End Env.

End UploadFacts.

(** ** The minting saga *)

Module MintingFacts.
Import RunFacts UploadFacts.
Local Open Scope string_scope.

Section Service.
Variable creatorAddress : string.
Variable mnemonic : string.
Variable validateCertificationData :
  DocumentCertificationData.t -> result unit.
Variable prepareCertificationData : DocumentCertificationData.t -> json.
Variable metadataBuilder :
  DocumentCertificationData.t -> json -> list FileHash.t -> json.
Context {W : Type} (E : env W).

Let mint : DocumentCertificationData.t -> async MintingResult.t :=
  createDocumentCertification creatorAddress mnemonic
    validateCertificationData prepareCertificationData metadataBuilder.

Lemma run_uploadCertificationAssets (files : list File.t)
    (certificationData : json) (data : DocumentCertificationData.t)
    (w : W) :
  let o := run E (uploadCertificationAssets metadataBuilder files
                    certificationData data) w in
  Forall (fun ev => storage_event ev = true) (trace o) /\
  forall ipfs,
    value o = Returned ipfs ->
    IpfsResult.metadataUrl ipfs = "ipfs://" ++ IpfsResult.metadataHash ipfs
    /\ exists doc,
         In (E_uploadJSON doc
               (Returned (PinResponse.mk (IpfsResult.metadataHash ipfs))))
            (trace o).
Proof.
  cbv zeta. unfold uploadCertificationAssets.
  rewrite run_bind. cbv zeta.
  pose proof (storage_uploadFilesInParallel E files w) as F.
  destruct (run E (uploadFilesInParallel files) w) as [[hs|e] w1 t1];
    cbn [value world trace] in *.
  2: { split; [exact F | discriminate]. }
  rewrite run_bind, run_await. cbn [value world trace].
  destruct (respond E (uploadJSON (metadataBuilder data certificationData hs))
              w1) as [[[hash]|e] w2]; cbn [fst snd log_call].
  - cbn [run Async.ret value world trace]. split.
    + apply Forall_app. split; [exact F|].
      constructor; [reflexivity | constructor].
    + intros ipfs H. injection H as <-. cbn. split; [reflexivity|].
      eexists. apply in_or_app. right. left. reflexivity.
  - cbn [trace value]. split; [|discriminate].
    apply Forall_app. split; [exact F|].
    constructor; [reflexivity | constructor].
Qed.

(** The runs of [createDocumentCertification]: it fails during
    validation, upload or address derivation having touched storage
    only, or it reaches asset creation and, if that succeeds, the
    reserve update. *)
Lemma createDocumentCertification_cases
    (data : DocumentCertificationData.t) (w : W) :
  let o := run E (mint data) w in
  exists t,
    Forall (fun ev => storage_event ev = true) t /\
    ((trace o = t /\ exists e, value o = Thrown e) \/
     exists hash doc addr p r,
       In (E_uploadJSON doc (Returned (PinResponse.mk hash))) t /\
       CidDecoder.fromCidToAddress hash = Returned addr /\
       (CreateAsset.total p = 1%Z /\ CreateAsset.decimals p = 0%Z /\
        CreateAsset.clawback p = creatorAddress /\
        CreateAsset.reserve p = creatorAddress /\
        CreateAsset.url p = "ipfs://" ++ hash) /\
       ((exists e,
           r = Thrown e /\ trace o = (t ++ [E_createAsset p r])%list /\
           value o = Thrown e) \/
        (exists cr up r2,
           r = Returned cr /\
           trace o = (t ++ [E_createAsset p r;
                            E_updateAssetReserve up r2])%list /\
           UpdateReserve.assetId up = CreateResult.assetId cr /\
           UpdateReserve.newReserveAddress up = addr /\
           match r2 with
           | Thrown e => value o = Thrown e
           | Returned ur =>
               exists m,
                 value o = Returned m /\
                 MintingResult.assetId m = CreateResult.assetId cr /\
                 MintingResult.metadataUrl m = "ipfs://" ++ hash /\
                 MintingResult.finalReserveAddress m = addr
           end))).
Proof.
  cbv zeta. unfold mint, createDocumentCertification.
  rewrite run_bind, run_lift. cbn [value world trace].
  destruct (validateCertificationData data) as [[]|e].
  2: { exists []. split; [constructor|]. left. cbn. eauto. }
  rewrite run_bind. cbv zeta.
  destruct (run_uploadCertificationAssets
              (DocumentCertificationData.files data)
              (prepareCertificationData data) data w) as [F U].
  destruct (run E (uploadCertificationAssets metadataBuilder
                     (DocumentCertificationData.files data)
                     (prepareCertificationData data) data) w)
    as [[ipfs|e] w1 t1]; cbn [value world trace] in *.
  2: { exists t1. split; [exact F|]. left. cbn. eauto. }
  destruct (U ipfs eq_refl) as (Hurl & doc & Hdoc).
  exists t1. split; [exact F|].
  rewrite run_bind, run_lift. cbn [value world trace].
  destruct (CidDecoder.fromCidToAddress (IpfsResult.metadataHash ipfs))
    as [addr|e] eqn:Haddr.
  2: { left. cbn. rewrite app_nil_r. eauto. }
  right. rewrite run_bind, run_await. cbn [value world trace fst snd].
  match goal with
  | |- context [respond E (createAsset ?q) w1] =>
      set (p := q);
      destruct (respond E (createAsset p) w1) as [[cr|e] w2]
  end; cbn [fst snd log_call app].
  - rewrite run_bind, run_await. cbn [value world trace fst snd].
    match goal with
    | |- context [respond E (updateAssetReserve ?q) w2] =>
        set (up := q);
        destruct (respond E (updateAssetReserve up) w2) as [r2 w3]
    end; cbn [fst snd log_call].
    exists (IpfsResult.metadataHash ipfs), doc, addr, p, (Returned cr).
    split; [exact Hdoc|]. split; [exact Haddr|].
    split; [subst p; cbn; rewrite Hurl; auto|].
    right. exists cr, up, r2. split; [reflexivity|].
    destruct r2 as [ur|e]; cbn [run Async.ret value world trace app].
    + split; [reflexivity|]. split; [reflexivity|].
      split; [reflexivity|].
      eexists. split; [reflexivity|]. cbn. rewrite Hurl. auto.
    + split; [reflexivity|]. auto.
  - exists (IpfsResult.metadataHash ipfs), doc, addr, p, (Thrown e).
    split; [exact Hdoc|]. split; [exact Haddr|].
    split; [subst p; cbn; rewrite Hurl; auto|].
    left. exists e. cbn. auto.
Qed.

Lemma in_after_storage (t l : list event) (ev : event) :
  Forall (fun ev => storage_event ev = true) t ->
  storage_event ev = false ->
  In ev (t ++ l)%list -> In ev l.
Proof.
  intros F S H. apply in_app_or in H. destruct H as [H|H]; [|exact H].
  rewrite Forall_forall in F. apply F in H. congruence.
Qed.

(** A rejected file upload rejects the whole certification, which has
    then done nothing but the uploads. *)
Lemma mint_upload_rejected (data : DocumentCertificationData.t) (w : W)
    (e : error) :
  validateCertificationData data = Returned tt ->
  value (run E (uploadFilesInParallel
                  (DocumentCertificationData.files data)) w) = Thrown e ->
  value (run E (mint data) w) = Thrown e /\
  trace (run E (mint data) w) =
    trace (run E (uploadFilesInParallel
                    (DocumentCertificationData.files data)) w).
Proof.
  intros V U.
  assert (A : run E (uploadCertificationAssets metadataBuilder
                       (DocumentCertificationData.files data)
                       (prepareCertificationData data) data) w
              = Outcome (Thrown e)
                  (world (run E (uploadFilesInParallel
                                   (DocumentCertificationData.files data)) w))
                  (trace (run E (uploadFilesInParallel
                                   (DocumentCertificationData.files data)) w))).
  { unfold uploadCertificationAssets. rewrite run_bind. cbv zeta.
    rewrite U. reflexivity. }
  unfold mint, createDocumentCertification.
  rewrite run_bind, run_lift, V. cbn [value world trace app].
  rewrite run_bind, A. cbn [value world trace]. auto.
Qed.

(** C4: seven files are uploaded in three batches of 3, 3 and 1, started
    one after the other with a pause in between, the uploads of a batch
    being awaited together.  If the upload of file #5 is rejected, the
    upload call is rejected with the [UploadError] of file #5 once the
    second batch is awaited, the third batch is never started, and
    [createDocumentCertification] is rejected with that error without any
    call to the ledger. *)
Theorem seven_files_in_three_batches (f1 f2 f3 f4 f5 f6 f7 : File.t)
    (w : W) :
  let files := [f1; f2; f3; f4; f5; f6; f7] in
  let o := run E (uploadFilesInParallel files) w in
  (forallb (fun u => is_fulfilled (snd u)) (uploads (trace o)) = true ->
   exists t1 t2 t3 t4 t5 t6 t7 h1 h2 h3 h4 h5 h6 h7,
     trace o =
       [E_now t1; E_now t2; E_now t3;
        E_all [E_uploadFile f1 (UploadOptions.mk (File.name f1) "0" t1)
                 (Returned h1);
               E_uploadFile f2 (UploadOptions.mk (File.name f2) "0" t2)
                 (Returned h2);
               E_uploadFile f3 (UploadOptions.mk (File.name f3) "0" t3)
                 (Returned h3)];
        E_sleep 500;
        E_now t4; E_now t5; E_now t6;
        E_all [E_uploadFile f4 (UploadOptions.mk (File.name f4) "1" t4)
                 (Returned h4);
               E_uploadFile f5 (UploadOptions.mk (File.name f5) "1" t5)
                 (Returned h5);
               E_uploadFile f6 (UploadOptions.mk (File.name f6) "1" t6)
                 (Returned h6)];
        E_sleep 500;
        E_now t7;
        E_all [E_uploadFile f7 (UploadOptions.mk (File.name f7) "2" t7)
                 (Returned h7)]] /\
     value o = Returned [h1; h2; h3; h4; h5; h6; h7]) /\
  (nth_error (uploads (trace o)) 4 = Some (f5, Thrown (UploadError f5)) ->
   (forall k u,
      k <> 4 -> nth_error (uploads (trace o)) k = Some u ->
      is_fulfilled (snd u) = true) ->
   (exists t1 t2 t3 t4 t5 t6 h1 h2 h3 h4 h6,
      trace o =
        [E_now t1; E_now t2; E_now t3;
         E_all [E_uploadFile f1 (UploadOptions.mk (File.name f1) "0" t1)
                  (Returned h1);
                E_uploadFile f2 (UploadOptions.mk (File.name f2) "0" t2)
                  (Returned h2);
                E_uploadFile f3 (UploadOptions.mk (File.name f3) "0" t3)
                  (Returned h3)];
         E_sleep 500;
         E_now t4; E_now t5; E_now t6;
         E_all [E_uploadFile f4 (UploadOptions.mk (File.name f4) "1" t4)
                  (Returned h4);
                E_uploadFile f5 (UploadOptions.mk (File.name f5) "1" t5)
                  (Thrown (UploadError f5));
                E_uploadFile f6 (UploadOptions.mk (File.name f6) "1" t6)
                  (Returned h6)]]) /\
   value o = Thrown (UploadError f5) /\
   forall data,
     DocumentCertificationData.files data = files ->
     validateCertificationData data = Returned tt ->
     value (run E (mint data) w) = Thrown (UploadError f5) /\
     trace (run E (mint data) w) = trace o /\
     existsb is_createAsset (trace (run E (mint data) w)) = false).
Proof.
  cbv zeta. split.
  - apply seven_files_fulfilled.
  - intros H5 Hk.
    destruct (@seven_files_fifth_rejected _ E f1 f2 f3 f4 f5 f6 f7 w
                (UploadError f5) H5 Hk)
      as (t1 & t2 & t3 & t4 & t5 & t6 & h1 & h2 & h3 & h4 & h6 & T & V).
    split; [|split; [exact V|]].
    + exists t1, t2, t3, t4, t5, t6, h1, h2, h3, h4, h6. exact T.
    + intros data F Val.
      destruct (@mint_upload_rejected data w (UploadError f5) Val)
        as (Vm & Tm).
      { rewrite F. exact V. }
      rewrite F in Tm. split; [exact Vm|]. split; [exact Tm|].
      rewrite Tm, T. reflexivity.
Qed.

(** C5: whenever [createDocumentCertification] creates the asset
    (step S4), it does so with total 1, decimals 0, the creator address
    as clawback and as the placeholder reserve, and an informational
    URL that is [ipfs://] followed by the identifier under which the
    metadata document was just uploaded. *)
Theorem createAsset_parameters (data : DocumentCertificationData.t)
    (w : W) (p : CreateAsset.t) (r : result CreateResult.t) :
  In (E_createAsset p r) (trace (run E (mint data) w)) ->
  CreateAsset.total p = 1%Z /\
  CreateAsset.decimals p = 0%Z /\
  CreateAsset.clawback p = creatorAddress /\
  CreateAsset.reserve p = creatorAddress /\
  exists doc hash,
    In (E_uploadJSON doc (Returned (PinResponse.mk hash)))
       (trace (run E (mint data) w)) /\
    CreateAsset.url p = "ipfs://" ++ hash.
Proof.
  intros H.
  destruct (createDocumentCertification_cases data w)
    as (t & F & [[T _] | C]).
  - rewrite T in H. rewrite Forall_forall in F. apply F in H.
    discriminate.
  - destruct C as (hash & doc & addr & p0 & r0 & Hdoc & _ & P & C).
    assert (T : exists l, trace (run E (mint data) w) = (t ++ l)%list /\
                          (In (E_createAsset p r) l -> p = p0)).
    { destruct C as [(e & _ & T & _) | (cr & up & r2 & _ & T & _)];
        eexists; (split; [exact T|]); cbn; intros [Q|Q];
        try (injection Q as <- _; reflexivity);
        try discriminate; try contradiction.
      destruct Q as [Q|[]]. discriminate. }
    destruct T as (l & T & I). rewrite T in H |- *.
    apply in_after_storage in H; [|exact F|reflexivity].
    rewrite (I H). destruct P as (P1 & P2 & P3 & P4 & P5).
    repeat (split; [assumption|]).
    exists doc, hash. split; [|exact P5].
    apply in_or_app. left. exact Hdoc.
Qed.

(** C6 (as the code has it): when the reserve update (step S5) is
    rejected after the asset was created (step S4),
    [createDocumentCertification] is rejected with the error of the
    reserve-update call itself, unchanged; the created asset id is the
    one that call was given. *)
Theorem reserve_update_failure_propagates
    (data : DocumentCertificationData.t) (w : W)
    (p : CreateAsset.t) (cr : CreateResult.t)
    (up : UpdateReserve.t) (e : error) :
  In (E_createAsset p (Returned cr)) (trace (run E (mint data) w)) ->
  In (E_updateAssetReserve up (Thrown e)) (trace (run E (mint data) w)) ->
  value (run E (mint data) w) = Thrown e /\
  UpdateReserve.assetId up = CreateResult.assetId cr.
Proof.
  intros H4 H5.
  destruct (createDocumentCertification_cases data w)
    as (t & F & [[T _] | C]).
  - rewrite T in H4. rewrite Forall_forall in F. apply F in H4.
    discriminate.
  - destruct C as (hash & doc & addr & p0 & r0 & _ & _ & _ & C).
    destruct C as [(e0 & _ & T & _) | (cr0 & up0 & r2 & -> & T & A & _ & V)];
      rewrite T in H4, H5;
      apply in_after_storage in H4; try exact F; try reflexivity;
      apply in_after_storage in H5; try exact F; try reflexivity.
    + destruct H5 as [H5|[]]. discriminate.
    + destruct H4 as [H4|[H4|[]]]; [|discriminate].
      destruct H5 as [H5|[H5|[]]]; [discriminate|].
      injection H4 as _ ->. injection H5 as -> ->.
      split; [exact V | exact A].
Qed.

End Service.

End MintingFacts.

(** C4 on the simulated storage: seven files, first with every upload
    fulfilled, then with the upload of [5.pdf] rejected. *)
Lemma seven_files_in_three_batches_witness :
  (exists hashes,
     value (run Sim.E (uploadFilesInParallel Sim.seven_files)
              (Sim.rejecting [])) = Returned hashes /\
     length hashes = 7) /\
  value (run Sim.E (Sim.mint Sim.seven_files)
           (Sim.rejecting ["5.pdf"%string]))
    = Thrown (UploadError (Sim.file "5.pdf")) /\
  existsb is_createAsset
    (trace (run Sim.E (Sim.mint Sim.seven_files)
              (Sim.rejecting ["5.pdf"%string]))) = false.
Proof.
  split.
  - destruct (@MintingFacts.seven_files_in_three_batches
                Sim.creatorAddress Sim.mnemonic Sim.validateCertificationData
                Sim.prepareCertificationData Sim.metadataBuilder _ Sim.E
                (Sim.file "1.pdf") (Sim.file "2.pdf") (Sim.file "3.pdf")
                (Sim.file "4.pdf") (Sim.file "5.pdf") (Sim.file "6.pdf")
                (Sim.file "7.pdf") (Sim.rejecting [])) as [A _].
    destruct A as (t1 & t2 & t3 & t4 & t5 & t6 & t7 & h1 & h2 & h3 & h4
                   & h5 & h6 & h7 & _ & V); [vm_compute; reflexivity|].
    eexists. split; [exact V | reflexivity].
  - destruct (@MintingFacts.seven_files_in_three_batches
                Sim.creatorAddress Sim.mnemonic Sim.validateCertificationData
                Sim.prepareCertificationData Sim.metadataBuilder _ Sim.E
                (Sim.file "1.pdf") (Sim.file "2.pdf") (Sim.file "3.pdf")
                (Sim.file "4.pdf") (Sim.file "5.pdf") (Sim.file "6.pdf")
                (Sim.file "7.pdf") (Sim.rejecting ["5.pdf"%string]))
      as [_ B].
    destruct B as (_ & _ & M).
    + vm_compute. reflexivity.
    + intros k u Hk Hn.
      do 6 (destruct k as [|k];
            [first [contradiction Hk; reflexivity
                   | vm_compute in Hn; injection Hn as <-; reflexivity]|]).
      vm_compute in Hn. destruct k; discriminate Hn.
    + destruct (M (Sim.document Sim.seven_files) eq_refl eq_refl)
        as (V & _ & C).
      split; [exact V | exact C].
Defined.

(** C5 on the simulated ledger: two files are certified and the metadata is
    pinned under [Sim.cid_v0]. *)
Lemma createAsset_parameters_witness :
  CreateAsset.total Sim.create_params = 1%Z /\
  CreateAsset.decimals Sim.create_params = 0%Z /\
  CreateAsset.clawback Sim.create_params = Sim.creatorAddress /\
  CreateAsset.reserve Sim.create_params = Sim.creatorAddress /\
  exists doc hash,
    In (E_uploadJSON doc (Returned (PinResponse.mk hash)))
       (trace (run Sim.E (Sim.mint Sim.two_files)
                 (Sim.fresh 1001 [Sim.cid_v0]))) /\
    CreateAsset.url Sim.create_params = ("ipfs://" ++ hash)%string.
Proof.
  apply (@MintingFacts.createAsset_parameters
           Sim.creatorAddress Sim.mnemonic Sim.validateCertificationData
           Sim.prepareCertificationData Sim.metadataBuilder _ Sim.E
           (Sim.document Sim.two_files) (Sim.fresh 1001 [Sim.cid_v0])
           Sim.create_params
           (Returned (CreateResult.mk 1001 "CREATE-TX"))).
  vm_compute. do 4 right. left. reflexivity.
Defined.

(** C6 on the simulated ledger: the asset 1001 is created, then the ledger
    rejects the reserve update. *)
Lemma reserve_update_failure_propagates_witness :
  value (run Sim.E (Sim.mint Sim.two_files)
           (Sim.unreachable_for_updates 1001 [Sim.cid_v0]))
    = Thrown Sim.network_failure /\
  UpdateReserve.assetId
    (UpdateReserve.mk 1001
       "TVWCXZIPOBUVGR42XHPSZY7NZKILNACTYAFTABFX6CWMXYPI53PZ7JBOHE"
       Sim.mnemonic None) = CreateResult.assetId (CreateResult.mk 1001 "CREATE-TX").
Proof.
  apply (@MintingFacts.reserve_update_failure_propagates
           Sim.creatorAddress Sim.mnemonic Sim.validateCertificationData
           Sim.prepareCertificationData Sim.metadataBuilder _ Sim.E
           (Sim.document Sim.two_files)
           (Sim.unreachable_for_updates 1001 [Sim.cid_v0])
           Sim.create_params).
  - vm_compute. do 4 right. left. reflexivity.
  - vm_compute. do 5 right. left. reflexivity.
Defined.

(** C6, refuted as stated: no reading of the failure recovers the created
    asset id.  Two runs create the assets 1001 and 1002, both reserve
    updates are rejected, and both runs end in the very same failure. *)
Lemma partial_mint_failure_drops_asset_id :
  ~ exists carried : error -> option Z,
      forall (w : Sim.world) (p : CreateAsset.t) (cr : CreateResult.t)
             (up : UpdateReserve.t) (e : error),
        In (E_createAsset p (Returned cr))
           (trace (run Sim.E (Sim.mint Sim.two_files) w)) ->
        In (E_updateAssetReserve up (Thrown e))
           (trace (run Sim.E (Sim.mint Sim.two_files) w)) ->
        exists err,
          value (run Sim.E (Sim.mint Sim.two_files) w) = Thrown err /\
          carried err = Some (CreateResult.assetId cr).
Proof.
  intros [carried H].
  pose (up1 := UpdateReserve.mk 1001
          "TVWCXZIPOBUVGR42XHPSZY7NZKILNACTYAFTABFX6CWMXYPI53PZ7JBOHE"
          Sim.mnemonic None).
  pose (up2 := UpdateReserve.mk 1002
          "TVWCXZIPOBUVGR42XHPSZY7NZKILNACTYAFTABFX6CWMXYPI53PZ7JBOHE"
          Sim.mnemonic None).
  destruct (H (Sim.unreachable_for_updates 1001 [Sim.cid_v0])
              Sim.create_params (CreateResult.mk 1001 "CREATE-TX")
              up1 Sim.network_failure) as (e1 & V1 & C1).
  { vm_compute. do 4 right. left. reflexivity. }
  { vm_compute. do 5 right. left. reflexivity. }
  destruct (H (Sim.unreachable_for_updates 1002 [Sim.cid_v0])
              Sim.create_params (CreateResult.mk 1002 "CREATE-TX")
              up2 Sim.network_failure) as (e2 & V2 & C2).
  { vm_compute. do 4 right. left. reflexivity. }
  { vm_compute. do 5 right. left. reflexivity. }
  vm_compute in V1, V2. injection V1 as <-. injection V2 as <-.
  cbn in C1, C2. congruence.
Qed.

(** ** Versioned updates *)

Module VersioningFacts.
Import RunFacts.
Local Open Scope string_scope.

Lemma lookup_set_eq (key : string) (v : json) (fields : list (string * json)) :
  Json.lookup key (Json.set key v fields) = Some v.
Proof.
  induction fields as [|[k x] rest IH]; cbn.
  - rewrite String.eqb_refl. reflexivity.
  - destruct (String.eqb k key) eqn:K; cbn; rewrite K; [reflexivity | exact IH].
Qed.

Lemma lookup_set_neq (key key' : string) (v : json)
    (fields : list (string * json)) :
  key <> key' ->
  Json.lookup key' (Json.set key v fields) = Json.lookup key' fields.
Proof.
  intros N. induction fields as [|[k x] rest IH]; cbn.
  - apply String.eqb_neq in N. rewrite N. reflexivity.
  - destruct (String.eqb k key) eqn:K; cbn.
    + apply String.eqb_eq in K. subst k.
      apply String.eqb_neq in N. rewrite N. reflexivity.
    + destruct (String.eqb k key'); [reflexivity | exact IH].
Qed.

Section Service.
Variable mnemonic : string.
Variable gateway : string.
Variable getCurrentVersion : AssetInfo.t -> Z.
Context {W : Type} (E : env W).

Let update : Z -> json -> list File.t -> async UpdateResult.t :=
  updateCertification mnemonic gateway getCurrentVersion.

Let record (newData : json) (asset : AssetInfo.t) (timestamp cid : string)
  : json :=
  newMetadata newData (versionInfo gateway getCurrentVersion asset cid)
    timestamp cid.


(** The runs of [updateCertification], step by step. *)
Lemma updateCertification_cases (assetId : Z) (newData : json)
    (newFiles : list File.t) (w : W) :
  let o := run E (update assetId newData newFiles) w in
  exists r rest,
    trace o = E_getAssetInfo assetId r :: rest /\
    match r with
    | Thrown e => rest = [] /\ value o = Thrown e
    | Returned asset =>
        match CidDecoder.fromAddressToCid
                (AssetParams.reserve (AssetInfo.params asset)) with
        | Thrown e => rest = [] /\ value o = Thrown e
        | Returned cid =>
            exists timestamp r1,
              let doc := record newData asset timestamp cid in
              match r1 with
              | Thrown e =>
                  rest = [E_now timestamp; E_uploadJSON doc r1] /\
                  value o = Thrown e
              | Returned pin =>
                  match CidDecoder.fromCidToAddress
                          (PinResponse.IpfsHash pin) with
                  | Thrown e =>
                      rest = [E_now timestamp; E_uploadJSON doc r1] /\
                      value o = Thrown e
                  | Returned addr =>
                      exists r2,
                        rest = [E_now timestamp; E_uploadJSON doc r1;
                                E_updateAssetReserve
                                  (UpdateReserve.mk assetId addr mnemonic
                                     (Some ("ipfs://"
                                            ++ PinResponse.IpfsHash pin)))
                                  r2] /\
                        value o = r2
                  end
              end
        end
    end.
Proof.
  cbv zeta. unfold update, updateCertification.
  rewrite run_bind, run_await. cbn [value world trace fst snd].
  destruct (respond E (getAssetInfo assetId) w) as [[asset|e] w1];
    cbn [fst snd log_call].
  2: { exists (Thrown e), []. cbn. auto. }
  exists (Returned asset).
  rewrite run_bind, run_lift. cbn [value world trace].
  destruct (CidDecoder.fromAddressToCid
              (AssetParams.reserve (AssetInfo.params asset))) as [cid|e].
  2: { exists []. cbn. auto. }
  rewrite run_bind, run_perform. cbn [value world trace fst snd].
  destruct (perform E now w1) as [timestamp w2]. cbn [fst snd log_effect].
  rewrite run_bind, run_await. cbn [value world trace fst snd].
  match goal with
  | |- context [respond E (uploadJSON ?d) w2] =>
      destruct (respond E (uploadJSON d) w2) as [[pin|e] w3]
  end; cbn [fst snd log_call].
  2: { eexists. split; [reflexivity|]. exists timestamp, (Thrown e).
       cbn. auto. }
  rewrite run_bind, run_lift. cbn [value world trace].
  destruct (CidDecoder.fromCidToAddress (PinResponse.IpfsHash pin))
    as [addr|e] eqn:A.
  2: { eexists. split; [reflexivity|]. exists timestamp, (Returned pin).
       cbv zeta. rewrite A. cbn. auto. }
  rewrite run_await. cbn [value world trace fst snd].
  match goal with
  | |- context [respond E (updateAssetReserve ?q) w3] =>
      destruct (respond E (updateAssetReserve q) w3) as [r2 w4]
  end; cbn [fst snd log_call].
  eexists. split; [reflexivity|]. exists timestamp, (Returned pin).
  cbv zeta. rewrite A. exists r2. cbn. auto.
Qed.

(** A run that read the asset and uploaded a record: what the record is,
    and what follows the upload. *)
Lemma update_record (assetId : Z) (newData : json) (newFiles : list File.t)
    (w : W) (asset : AssetInfo.t) (doc : json) (pin : PinResponse.t) :
  let o := run E (update assetId newData newFiles) w in
  In (E_getAssetInfo assetId (Returned asset)) (trace o) ->
  In (E_uploadJSON doc (Returned pin)) (trace o) ->
  exists cid timestamp,
    CidDecoder.fromAddressToCid
      (AssetParams.reserve (AssetInfo.params asset)) = Returned cid /\
    doc = record newData asset timestamp cid /\
    forall addr,
      CidDecoder.fromCidToAddress (PinResponse.IpfsHash pin)
        = Returned addr ->
      exists r2,
        trace o =
          [E_getAssetInfo assetId (Returned asset); E_now timestamp;
           E_uploadJSON doc (Returned pin);
           E_updateAssetReserve
             (UpdateReserve.mk assetId addr mnemonic
                (Some ("ipfs://" ++ PinResponse.IpfsHash pin))) r2] /\
        value o = r2.
Proof.
  cbv zeta. intros H1 H2.
  destruct (updateCertification_cases assetId newData newFiles w)
    as (r & rest & T & C).
  fold update in T, C. rewrite T in H1, H2 |- *.
  destruct r as [asset0|e].
  2: { destruct C as [-> _]. destruct H2 as [H2|[]]. discriminate. }
  destruct (CidDecoder.fromAddressToCid
              (AssetParams.reserve (AssetInfo.params asset0)))
    as [cid|e] eqn:D.
  2: { destruct C as [-> _]. destruct H2 as [H2|[]]. discriminate. }
  destruct C as (timestamp & r1 & C). cbv zeta in C.
  assert (A0 : asset0 = asset /\ r1 = Returned pin /\
               doc = record newData asset0 timestamp cid).
  { destruct r1 as [pin0|e].
    - destruct (CidDecoder.fromCidToAddress (PinResponse.IpfsHash pin0));
        [destruct C as (r2 & -> & _) | destruct C as (-> & _)];
        cbn in H1, H2;
        repeat match goal with
               | H : _ \/ _ |- _ => destruct H as [H|H]
               | H : False |- _ => destruct H
               | H : _ = _ |- _ => discriminate H
               end;
        injection H1 as <-; injection H2 as <- <-; auto.
    - destruct C as (-> & _). cbn in H1, H2.
      repeat match goal with
             | H : _ \/ _ |- _ => destruct H as [H|H]
             | H : False |- _ => destruct H
             | H : _ = _ |- _ => discriminate H
             end. }
  destruct A0 as (-> & -> & ->).
  exists cid, timestamp. split; [exact D|]. split; [reflexivity|].
  intros addr A. rewrite A in C. destruct C as (r2 & -> & V).
  exists r2. auto.
Qed.

(** C7 (as the code has it): [updateCertification] reads the asset, and
    with it the on-chain reserve, once, at the start of the call.  Once the
    record is uploaded and its identifier converts to an address, the next
    and last thing the call does is the reserve update; its answer is the
    answer of the call.  Nothing is read again in between, and no
    [VersionConflict] can arise. *)
Theorem reserve_is_read_once (assetId : Z) (newData : json)
    (newFiles : list File.t) (w : W) (asset : AssetInfo.t) (doc : json)
    (pin : PinResponse.t) (addr : string) :
  let o := run E (update assetId newData newFiles) w in
  In (E_getAssetInfo assetId (Returned asset)) (trace o) ->
  In (E_uploadJSON doc (Returned pin)) (trace o) ->
  CidDecoder.fromCidToAddress (PinResponse.IpfsHash pin) = Returned addr ->
  exists timestamp r2,
    trace o =
      [E_getAssetInfo assetId (Returned asset); E_now timestamp;
       E_uploadJSON doc (Returned pin);
       E_updateAssetReserve
         (UpdateReserve.mk assetId addr mnemonic
            (Some ("ipfs://" ++ PinResponse.IpfsHash pin))) r2] /\
    value o = r2.
Proof.
  cbv zeta. intros H1 H2 A.
  destruct (update_record _ _ _ _ _ _ _ H1 H2) as (cid & ts & _ & _ & U).
  destruct (U addr A) as (r2 & T & V). exists ts, r2. auto.
Qed.


End Service.

End VersioningFacts.

(** C7 on the simulated ledger, while another client rewrites the
    reserve. *)
Lemma reserve_is_read_once_witness :
  exists timestamp r2,
    trace (run Sim.E (Sim.update 1001 Sim.revision) Sim.race) =
      [E_getAssetInfo 1001 (Returned (Sim.asset_at x00)); E_now timestamp;
       E_uploadJSON (Sim.record_at x00)
         (Returned (PinResponse.mk (Sim.cid_raw x22)));
       E_updateAssetReserve
         (UpdateReserve.mk 1001 (Sim.address x22) Sim.mnemonic
            (Some ("ipfs://" ++ Sim.cid_raw x22)%string)) r2] /\
    value (run Sim.E (Sim.update 1001 Sim.revision) Sim.race) = r2.
Proof.
  apply (@VersioningFacts.reserve_is_read_once
           Sim.mnemonic Sim.gateway Sim.getCurrentVersion _ Sim.E
           1001%Z Sim.revision [] Sim.race (Sim.asset_at x00)
           (Sim.record_at x00) (PinResponse.mk (Sim.cid_raw x22))
           (Sim.address x22)).
  - vm_compute. left. reflexivity.
  - vm_compute. do 2 right. left. reflexivity.
  - vm_compute. reflexivity.
Defined.

(** C7, refuted as stated: the update reads the reserve (digest 00..) at
    the start; before it writes, another client's write (digest 11..) has
    reached the ledger, so the reserve differs from the value read; yet the
    asset is read only once, no [VersionConflict] arises, the call succeeds
    and its write (digest 22..) replaces the other client's. *)
Lemma stale_reserve_is_overwritten :
  In (E_getAssetInfo 1001 (Returned (Sim.asset_at x00)))
     (trace (run Sim.E (Sim.update 1001 Sim.revision) Sim.race)) /\
  Sim.writes (world (run Sim.E (Sim.update 1001 Sim.revision) Sim.race)) =
    [(1001%Z, Sim.address x11); (1001%Z, Sim.address x22)] /\
  Sim.address x11 <> Sim.address x00 /\
  length (filter is_getAssetInfo
            (trace (run Sim.E (Sim.update 1001 Sim.revision) Sim.race))) = 1 /\
  value (run Sim.E (Sim.update 1001 Sim.revision) Sim.race) =
    Returned (UpdateResult.mk "UPDATE-TX" 32847291) /\
  Sim.asset 1001
    (Sim.ledger (world (run Sim.E (Sim.update 1001 Sim.revision) Sim.race)))
    = Some (Sim.soulbound (Sim.address x22)).
Proof.
  repeat split; try (vm_compute; reflexivity).
  - vm_compute. left. reflexivity.
  - vm_compute. discriminate.
Qed.



(** ** Validation *)

Module ValidationFacts.
Local Open Scope string_scope.

Section Env.
Context {W : Type} (E : env W).

Ltac step :=
  cbn -[CidDecoder.fromAddressToCid CidDecoder.fromCidToAddress
        String.eqb String.prefix replace Json.get Json.falsy Z.eqb
        respond];
  match goal with
  | |- context [match respond E ?c ?w with _ => _ end] =>
      destruct (respond E c w) as [[?|?] ?]
  | |- context [match CidDecoder.fromAddressToCid ?a with _ => _ end] =>
      destruct (CidDecoder.fromAddressToCid a) as [?|?]
  | |- context [match CidDecoder.fromCidToAddress ?a with _ => _ end] =>
      destruct (CidDecoder.fromCidToAddress a) as [?|?]
  | |- context [match Json.get ?k ?a with _ => _ end] =>
      destruct (Json.get k a) as [?|?]
  | |- context [if negb ?b then _ else _] => destruct b eqn:?
  | |- context [if ?b then _ else _] => destruct b eqn:?
  | |- context [match AssetParams.url ?p with _ => _ end] =>
      destruct (AssetParams.url p) as [?|]
  end.

(** Every run of [validateCertification] returns a result. *)
Lemma validateCertification_run (assetId : Z) (w : W) :
  exists v,
    value (run E (validateCertification assetId) w) = Returned v /\
    (ValidationResult.isValid v = true <-> ValidationResult.errors v = []) /\
    match fst (respond E (getAssetInfo assetId) w) with
    | Thrown e =>
        v = ValidationResult.mk false
              ["Failed to validate asset: " ++ message e] [] None JNull None
    | Returned asset =>
        ValidationResult.assetInfo v = Some asset /\
        (String.eqb (AssetParams.clawback (AssetInfo.params asset))
                    (AssetParams.creator (AssetInfo.params asset)) = false ->
         ValidationResult.isValid v = false /\
         In SoulboundViolation_clawback (ValidationResult.errors v))
    end.
Proof.
  unfold validateCertification, Validation.try, Validation.bind,
    Validation.await, Validation.lift, Validation.when, Validation.get,
    Validation.ret, Validation.push_error, Validation.push_warning,
    Validation.set_cidInfo, Validation.set_metadataInfo.
  repeat step.
  all: cbn -[String.eqb].
  all: eexists; (split; [reflexivity|]); cbn -[String.eqb].
  all: (split;
        [split; intros H; first [reflexivity | discriminate H]|]).
  all: try reflexivity.
  all: (split; [reflexivity|]); intros H; try discriminate H.
  all: (split; [reflexivity|]).
  all: repeat (first [left; reflexivity | right]).
Qed.

(** C10: on every path, the catch-all one included, the result of
    [validateCertification] has [isValid] true exactly when its list of
    errors is empty. *)
Theorem isValid_iff_no_errors (assetId : Z) (w : W) :
  exists v,
    value (run E (validateCertification assetId) w) = Returned v /\
    (ValidationResult.isValid v = true <-> ValidationResult.errors v = []).
Proof.
  destruct (validateCertification_run assetId w) as (v & V & I & _).
  exists v. split; assumption.
Qed.

(** C9: [validateCertification] never throws: whatever the ledger and the
    storage answer, it returns a result.  When the asset found has a
    clawback address that differs from its creator, the result has
    [isValid] false and the [SoulboundViolation] entry for the clawback
    among its errors; when the lookup of the asset fails, the result is
    well formed, with that failure as its single error. *)
Theorem clawback_violation_is_reported (assetId : Z) (w : W) :
  exists v,
    value (run E (validateCertification assetId) w) = Returned v /\
    (forall asset,
       fst (respond E (getAssetInfo assetId) w) = Returned asset ->
       AssetParams.clawback (AssetInfo.params asset)
         <> AssetParams.creator (AssetInfo.params asset) ->
       ValidationResult.isValid v = false /\
       In SoulboundViolation_clawback (ValidationResult.errors v)) /\
    (forall e,
       fst (respond E (getAssetInfo assetId) w) = Thrown e ->
       v = ValidationResult.mk false
             ["Failed to validate asset: " ++ message e] [] None JNull
             None).
Proof.
  destruct (validateCertification_run assetId w) as (v & V & _ & C).
  exists v. split; [exact V|]. split.
  - intros asset R N. rewrite R in C. destruct C as [_ C].
    apply C. apply String.eqb_neq. exact N.
  - intros e R. rewrite R in C. exact C.
Qed.

End Env.

End ValidationFacts.

(** C9 on the simulated ledger: the asset 1001 has a foreign clawback
    address, and the asset 999 does not exist. *)
Lemma clawback_violation_is_reported_witness :
  (exists v,
     value (run Sim.E (validateCertification 1001)
              (Sim.holding 1001 Sim.foreign_clawback [] [])) = Returned v /\
     ValidationResult.isValid v = false /\
     In SoulboundViolation_clawback (ValidationResult.errors v)) /\
  value (run Sim.E (validateCertification 999)
           (Sim.holding 1001 Sim.foreign_clawback [] []))
    = Returned
        (ValidationResult.mk false
           ["Failed to validate asset: asset does not exist"%string]
           [] None JNull None).
Proof.
  split.
  - destruct (@ValidationFacts.clawback_violation_is_reported
                _ Sim.E 1001%Z (Sim.holding 1001 Sim.foreign_clawback [] []))
      as (v & V & C & _).
    exists v. split; [exact V|].
    apply (C (AssetInfo.mk 1001 Sim.foreign_clawback)).
    + vm_compute. reflexivity.
    + vm_compute. discriminate.
  - destruct (@ValidationFacts.clawback_violation_is_reported
                _ Sim.E 999%Z (Sim.holding 1001 Sim.foreign_clawback [] []))
      as (v & V & _ & F).
    rewrite V. f_equal.
    apply (F (Error "asset does not exist")).
    vm_compute. reflexivity.
Defined.

(** ** Strings *)

Module StringFacts.
Local Open Scope string_scope.

Lemma prefix_append (p m : string) : String.prefix p (p ++ m) = true.
Proof.
  induction p as [|c p IH]; cbn.
  - destruct m; reflexivity.
  - destruct (ascii_dec c c); [exact IH | congruence].
Qed.

Lemma prefix_split (p s : string) :
  String.prefix p s = true -> exists rest, s = p ++ rest.
Proof.
  revert s. induction p as [|c p IH]; intros s H.
  - exists s. reflexivity.
  - destruct s as [|d s]; [discriminate H|]. cbn in H.
    destruct (ascii_dec c d) as [<-|]; [|discriminate H].
    destruct (IH s H) as (rest & ->). exists rest. reflexivity.
Qed.

Lemma substring_all (s : string) : substring 0 (String.length s) s = s.
Proof. induction s as [|c s IH]; cbn; [|rewrite IH]; reflexivity. Qed.

Lemma substring_skip (p rest : string) (n : nat) :
  substring (String.length p) n (p ++ rest) = substring 0 n rest.
Proof. induction p as [|c p IH]; [reflexivity | exact IH]. Qed.

Lemma length_append (p rest : string) :
  String.length (p ++ rest) = String.length p + String.length rest.
Proof. induction p as [|c p IH]; cbn; [|rewrite IH]; reflexivity. Qed.

(** [replace] with an empty replacement removes a prefix. *)
Lemma replace_prefix (c : ascii) (p rest : string) :
  replace (String c p) "" (String c p ++ rest) = rest.
Proof.
  unfold replace.
  assert (I : String.index 0 (String c p) (String c p ++ rest) = Some 0).
  { cbn [append String.index].
    change (String c (p ++ rest)) with (String c p ++ rest).
    rewrite prefix_append. reflexivity. }
  rewrite I.
  change (substring 0 0 (String c p ++ rest)) with "".
  cbn [append Nat.add].
  change (String c (p ++ rest)) with (String c p ++ rest).
  rewrite length_append, Nat.add_comm, Nat.add_sub, substring_skip.
  apply substring_all.
Qed.

End StringFacts.

(** ** More on the codec *)

Module CodecFacts.
Import Bytes Base32 Base32Facts Multiformats MultiformatsFacts.
Import Algosdk AlgosdkFacts CidDecoder CidDecoderFacts StringFacts.

(** An address that decodes carries 32 payload bytes. *)
Lemma decodeAddress_publicKey (address : string) (a : Address) :
  decodeAddress address = Returned a ->
  length (publicKey a) = 32.
Proof.
  unfold decodeAddress.
  destruct (negb (String.length address =? ALGORAND_ADDRESS_LENGTH)%nat);
    [discriminate|].
  destruct (hi_base32_decode address) as [decoded|e]; [|discriminate].
  cbn [rbind].
  destruct (negb (length decoded =? ALGORAND_ADDRESS_BYTE_LENGTH)%nat) eqn:L;
    [discriminate|].
  apply negb_false_iff, Nat.eqb_eq in L.
  match goal with |- context [if ?b then _ else _] => destruct b end;
    [|discriminate].
  intros H.
  apply (f_equal (fun r => match r with
                           | Returned x => length (publicKey x)
                           | Thrown _ => 0
                           end)) in H.
  cbn [publicKey] in H. rewrite <- H.
  apply firstn_length_le. rewrite L. cbv. lia.
Qed.

Lemma fromAddressToCid_decoded (address : string) :
  fromAddressToCid address =
    match decodeAddress address with
    | Returned a => Returned (toString (raw_sha256 (publicKey a)))
    | Thrown e =>
        Thrown (Error ("Failed to convert address to CID: " ++ message e))
    end.
Proof.
  unfold fromAddressToCid. destruct (decodeAddress address); reflexivity.
Qed.

(** What [fromCidToAddress] returns: the address of the 32-byte sha2-256
    digest the CID carries. *)
Lemma fromCidToAddress_returned (c address : string) :
  fromCidToAddress c = Returned address ->
  exists cid,
    parse c = Returned cid /\
    code (multihash cid) = SHA2_256 /\
    length (digest (multihash cid)) = 32 /\
    address = encodeAddress (digest (multihash cid)).
Proof.
  unfold fromCidToAddress, multihashToAlgorandAddress.
  destruct (parse c) as [cid|e]; cbn [rbind rcatch]; [|discriminate].
  destruct (code (multihash cid) =? SHA2_256)%N eqn:C;
    destruct (size (multihash cid) =? 32)%N eqn:S;
    cbn [andb rbind rcatch]; try discriminate.
  intros H. injection H as <-. exists cid.
  apply N.eqb_eq in C. apply N.eqb_eq in S. unfold size in S.
  repeat split; try assumption. lia.
Qed.

(** Once an address decodes, both conversions succeed. *)
Lemma conversion_decoded (reserve : string) :
  rbind (fromAddressToCid reserve)
    (fun cid => rbind (fromCidToAddress cid)
                  (fun address => Returned (cid, address))) =
  match decodeAddress reserve with
  | Returned a =>
      Returned (toString (raw_sha256 (publicKey a)),
                encodeAddress (publicKey a))
  | Thrown e =>
      Thrown (Error ("Failed to convert address to CID: " ++ message e))
  end.
Proof.
  rewrite fromAddressToCid_decoded.
  destruct (decodeAddress reserve) as [a|e] eqn:D; cbn [rbind]; [|reflexivity].
  rewrite fromCidToAddress_raw_sha256
    by exact (@decodeAddress_publicKey _ _ D).
  reflexivity.
Qed.

Lemma char_of_upper_in (v : nat) :
  v < 32 -> In (char_of upper v) (list_ascii_of_string upper).
Proof.
  revert v. apply lt_32_cases.
  intros b4 b3 b2 b1 b0. destruct b4, b3, b2, b1, b0; cbn; tauto.
Qed.

Lemma encodeAddress_alphabet (pk : list byte) :
  length pk = 32 ->
  Forall (fun ch => In ch (list_ascii_of_string upper))
    (list_ascii_of_string (encodeAddress pk)).
Proof.
  intros H. rewrite encodeAddress_base32 by exact H. unfold encode.
  rewrite list_ascii_of_string_of_list_ascii.
  apply Forall_map.
  eapply Forall_impl; [|apply Forall_quintets].
  intros v Hv. apply char_of_upper_in, Hv.
Qed.

(** X1: whatever text it is given, [fromCidToAddress] either returns a
    well-formed address, 58 characters all taken from [A-Z2-7], or throws
    an error whose message starts with
    [Failed to convert CID to address: ]. *)
Theorem fromCidToAddress_outcome (cid : string) :
  match fromCidToAddress cid with
  | Returned address =>
      String.length address = 58 /\
      Forall (fun ch => In ch (list_ascii_of_string upper))
        (list_ascii_of_string address)
  | Thrown e =>
      String.prefix "Failed to convert CID to address: " (message e) = true
  end.
Proof.
  destruct (fromCidToAddress cid) as [address|e] eqn:R.
  - destruct (@fromCidToAddress_returned _ _ R) as (c & _ & _ & L & ->).
    split; [apply length_encodeAddress, L | apply encodeAddress_alphabet, L].
  - unfold fromCidToAddress in R.
    destruct (rbind (parse cid) _) as [a|e0]; cbn [rcatch] in R;
      [discriminate R|].
    injection R as <-.
    exact (prefix_append "Failed to convert CID to address: " (message e0)).
Qed.

(** X2: the version and the codec of a CID play no part in the
    conversion: two CID texts that carry the same multihash give the same
    result, be it an address or a failure. *)
Theorem same_multihash_same_address (c1 c2 : string) (cid1 cid2 : CID) :
  parse c1 = Returned cid1 -> parse c2 = Returned cid2 ->
  multihash cid1 = multihash cid2 ->
  fromCidToAddress c1 = fromCidToAddress c2.
Proof.
  intros P1 P2 M.
  rewrite (fromCidToAddress_parsed _ P1), (fromCidToAddress_parsed _ P2), M.
  reflexivity.
Qed.

(** X3: the CID that [fromAddressToCid] returns always converts back, to
    the address text of the decoded payload; the round trip gives the
    address it started from exactly when that address is the text
    [encodeAddress] writes for its payload. *)
Theorem address_roundtrip (address cid : string) :
  fromAddressToCid address = Returned cid ->
  exists a,
    decodeAddress address = Returned a /\
    fromCidToAddress cid = Returned (encodeAddress (publicKey a)) /\
    (rbind (fromAddressToCid address) fromCidToAddress = Returned address
     <-> address = encodeAddress (publicKey a)).
Proof.
  rewrite fromAddressToCid_decoded.
  destruct (decodeAddress address) as [a|e] eqn:D; [|discriminate].
  intros H. injection H as <-. exists a.
  pose proof (@decodeAddress_publicKey _ _ D) as L.
  split; [reflexivity|].
  rewrite fromCidToAddress_raw_sha256 by exact L.
  split; [reflexivity|]. cbn [rbind].
  rewrite fromCidToAddress_raw_sha256 by exact L.
  split; [intros H; injection H as H; symmetry; exact H
         | intros <-; reflexivity].
Qed.

(** X4: what [fromAddressToCid] returns is always the base32 text of a
    version-1 CID with the raw codec and a sha2-256 multihash of 32
    bytes: 59 characters that start with [bafkrei]; and it only returns
    for a text of 58 characters. *)
Theorem fromAddressToCid_result (address cid : string) :
  fromAddressToCid address = Returned cid ->
  String.length address = 58 /\
  String.length cid = 59 /\
  String.prefix "bafkrei" cid = true /\
  exists digest,
    length digest = 32 /\
    parse cid = Returned (MkCID 1 RAW (MkDigest SHA2_256 digest)).
Proof.
  rewrite fromAddressToCid_decoded.
  destruct (decodeAddress address) as [a|e] eqn:D; [|discriminate].
  intros H. injection H as <-.
  pose proof (@decodeAddress_publicKey _ _ D) as L.
  split.
  { unfold decodeAddress in D.
    destruct (String.length address =? ALGORAND_ADDRESS_LENGTH)%nat eqn:N;
      [apply Nat.eqb_eq in N; exact N | discriminate]. }
  assert (T : toString (raw_sha256 (publicKey a)) =
              String "b" (encode lower (x01 :: x55 :: x12 :: x20
                                          :: publicKey a))).
  { unfold toString. cbn [raw_sha256 createV1 version N.eqb].
    change (cid_bytes (MkCID 1 RAW (create_digest SHA2_256 (publicKey a))))
      with (cid_bytes (raw_sha256 (publicKey a))).
    rewrite cid_bytes_raw_sha256 by exact L. reflexivity. }
  split.
  { rewrite T. cbn [String.length]. rewrite length_encode. cbn [length].
    rewrite L. reflexivity. }
  split.
  { rewrite T. destruct (publicKey a) as [|b rest]; [discriminate L|].
    destruct b; reflexivity. }
  exists (publicKey a). split; [exact L|].
  apply parse_toString_raw_sha256, L.
Qed.

End CodecFacts.

(** X2 on the version-0 and the version-1 raw CID of one digest. *)
Lemma same_multihash_same_address_witness :
  CidDecoder.fromCidToAddress Sim.cid_v0
    = CidDecoder.fromCidToAddress Demo.cid_v1.
Proof.
  eapply (@CodecFacts.same_multihash_same_address Sim.cid_v0 Demo.cid_v1).
  - vm_compute. reflexivity.
  - vm_compute. reflexivity.
  - reflexivity.
Defined.

(** X3 on an address whose last character has its unused bits set: it
    decodes, and the round trip gives the zero address instead. *)
Lemma address_roundtrip_witness :
  exists a,
    Algosdk.decodeAddress Demo.uncanonical_address = Returned a /\
    CidDecoder.fromCidToAddress (Sim.cid_raw x00)
      = Returned (Algosdk.encodeAddress (Algosdk.publicKey a)) /\
    (rbind (CidDecoder.fromAddressToCid Demo.uncanonical_address)
       CidDecoder.fromCidToAddress = Returned Demo.uncanonical_address
     <-> Demo.uncanonical_address
         = Algosdk.encodeAddress (Algosdk.publicKey a)).
Proof.
  apply (@CodecFacts.address_roundtrip Demo.uncanonical_address
           (Sim.cid_raw x00)).
  vm_compute. reflexivity.
Defined.

(** X4 on the zero address. *)
Lemma fromAddressToCid_result_witness :
  String.length Sim.creatorAddress = 58 /\
  String.length (Sim.cid_raw x00) = 59 /\
  String.prefix "bafkrei" (Sim.cid_raw x00) = true /\
  exists digest,
    length digest = 32 /\
    Multiformats.parse (Sim.cid_raw x00)
      = Returned (Multiformats.MkCID 1 Multiformats.RAW
                    (Multiformats.MkDigest Multiformats.SHA2_256 digest)).
Proof.
  apply (@CodecFacts.fromAddressToCid_result Sim.creatorAddress
           (Sim.cid_raw x00)).
  vm_compute. reflexivity.
Defined.

(** ** Upload coordination, for any number of files *)

Module UploadRounds.
Import RunFacts UploadFacts.

Section Env.
Context {W : Type} (E : env W).

Lemma upload_rounds_run (fuel : nat) (files : list File.t) (i : nat)
    (results : list FileHash.t) (w : W) :
  length files <= i + BATCH_SIZE * fuel ->
  exists rounds,
    rounds_from files i rounds /\
    trace (run E (upload_rounds fuel files i results) w)
      = round_events files i rounds /\
    value (run E (upload_rounds fuel files i results) w)
      = rounds_value results rounds.
Proof.
  revert i results w. induction fuel as [|fuel IH]; intros i results w H.
  - exists []. cbn. split; [unfold BATCH_SIZE in H; lia | auto].
  - destruct (Nat.lt_ge_cases i (length files)) as [Hi|Hi].
    2: { exists []. cbn [upload_rounds].
         replace (i <? length files)%nat with false
           by (symmetry; apply Nat.ltb_ge; exact Hi).
         cbn. auto. }
    destruct (run_upload_round E fuel files results w Hi)
      as (tss & rs & w1 & Lt & Lr & R).
    rewrite R. cbv zeta.
    destruct (Async.first_rejection rs) as [e|] eqn:F.
    + exists [(tss, rs)]. cbn [rounds_from round_events rounds_value
                               value trace].
      rewrite F, !app_nil_r. auto.
    + match goal with
      | |- context [run E (upload_rounds fuel files ?j ?res) ?w2] =>
          destruct (IH j res w2) as (rounds & Wf & T & V)
      end.
      { unfold BATCH_SIZE in *. lia. }
      exists ((tss, rs) :: rounds).
      cbn [rounds_from round_events rounds_value value trace].
      rewrite F, T, V. split; [auto|]. split; [|reflexivity].
      destruct rounds as [|r rounds'].
      * cbn [rounds_from] in Wf.
        replace (i + BATCH_SIZE <? length files)%nat with false
          by (symmetry; apply Nat.ltb_ge; exact Wf).
        rewrite <- !app_assoc. reflexivity.
      * destruct r as [tss' rs']. cbn [rounds_from] in Wf.
        destruct Wf as (Wf & _).
        apply Nat.ltb_lt in Wf. rewrite Wf.
        rewrite <- !app_assoc. reflexivity.
Qed.


Lemma round_events_kinds (files : list File.t) (rounds : list round) :
  forall (i : nat) (ev : event),
    In ev (round_events files i rounds) ->
    match ev with
    | E_now _ | E_all _ | E_sleep _ => True
    | _ => False
    end.
Proof.
  induction rounds as [|[tss rs] rest IH]; intros i ev H; [destruct H|].
  cbn [round_events] in H.
  apply in_app_or in H. destruct H as [H|H].
  { apply in_map_iff in H. destruct H as (ts & <- & _). exact I. }
  destruct H as [<-|H]; [exact I|]. cbn [app] in H.
  apply in_app_or in H. destruct H as [H|H].
  { destruct rest as [|r0 rest0]; cbn in H; [destruct H|].
    destruct H as [<-|[]]. exact I. }
  exact (IH _ _ H).
Qed.

(** The loop uploads files only: no metadata document. *)
Lemma no_document_uploaded (files : list File.t) (w : W) (doc : json)
    (r : result PinResponse.t) :
  ~ In (E_uploadJSON doc r) (trace (run E (uploadFilesInParallel files) w)).
Proof.
  unfold uploadFilesInParallel.
  destruct (@upload_rounds_run (length files) files 0 [] w)
    as (rounds & _ & T & _).
  { unfold BATCH_SIZE. lia. }
  rewrite T. intros H. exact (round_events_kinds _ _ _ _ H).
Qed.

Lemma upload_batches_app (a b : list event) :
  upload_batches (a ++ b) = upload_batches a ++ upload_batches b.
Proof. apply flat_map_app. Qed.

Lemma upload_batches_now (tss : list string) :
  upload_batches (map E_now tss) = [].
Proof. induction tss as [|ts tss IH]; [reflexivity | exact IH]. Qed.

Lemma batch_uploads_upload_events (i : nat) (batch : list File.t)
    (tss : list string) (rs : list (result FileHash.t)) :
  length tss = length batch -> length rs = length batch ->
  batch_uploads (upload_events i batch tss rs) = combine batch rs.
Proof.
  revert tss rs.
  induction batch as [|file batch IH]; intros [|ts tss] [|r rs] Lt Lr;
    try discriminate; [reflexivity|].
  cbn. f_equal. apply IH; cbn in *; congruence.
Qed.

Lemma upload_batches_round (files : list File.t) (i : nat)
    (tss : list string) (rs : list (result FileHash.t)) (rest : list round) :
  length tss = length (slice i (i + BATCH_SIZE) files) ->
  length rs = length (slice i (i + BATCH_SIZE) files) ->
  upload_batches (round_events files i ((tss, rs) :: rest)) =
    combine (slice i (i + BATCH_SIZE) files) rs
    :: upload_batches (round_events files (i + BATCH_SIZE) rest).
Proof.
  intros Lt Lr. cbn [round_events].
  rewrite !upload_batches_app, upload_batches_now.
  cbn [app upload_batches flat_map].
  rewrite batch_uploads_upload_events by assumption.
  destruct rest; reflexivity.
Qed.

Lemma fulfilled_all (A : Type) (rs : list (result A)) :
  Async.first_rejection rs = None -> rs = map Returned (Async.fulfilled rs).
Proof.
  induction rs as [|[a|e] rs IH]; cbn; intros H;
    [reflexivity | f_equal; auto | discriminate].
Qed.

Lemma skipn_slice (A : Type) (i : nat) (l : list A) :
  skipn i l = slice i (i + BATCH_SIZE) l ++ skipn (i + BATCH_SIZE) l.
Proof.
  unfold slice. replace (i + BATCH_SIZE - i) with BATCH_SIZE by lia.
  rewrite Nat.add_comm, <- skipn_skipn. symmetry. apply firstn_skipn.
Qed.

Lemma length_slice (A : Type) (i : nat) (l : list A) :
  length (slice i (i + BATCH_SIZE) l) = Nat.min BATCH_SIZE (length l - i).
Proof.
  unfold slice. replace (i + BATCH_SIZE - i) with BATCH_SIZE by lia.
  rewrite length_firstn, length_skipn. reflexivity.
Qed.

Lemma combine_app_same (A B : Type) (a a' : list A) (b b' : list B) :
  length a = length b ->
  combine (a ++ a') (b ++ b') = combine a b ++ combine a' b'.
Proof.
  revert b. induction a as [|x a IH]; intros [|y b] L; try discriminate;
    [reflexivity|].
  cbn. f_equal. apply IH. cbn in L. congruence.
Qed.

Lemma rounds_fulfilled (files : list File.t) (rounds : list round) :
  forall (i : nat) (results hs : list FileHash.t),
    rounds_from files i rounds ->
    rounds_value results rounds = Returned hs ->
    exists hs',
      hs = results ++ hs' /\
      uploads (round_events files i rounds)
        = combine (skipn i files) (map Returned hs') /\
      length hs' = length files - i /\
      length (upload_batches (round_events files i rounds))
        = (length files - i + 2) / BATCH_SIZE.
Proof.
  induction rounds as [|[tss rs] rest IH]; intros i results hs Wf V.
  - cbn in Wf, V. injection V as <-. exists [].
    rewrite app_nil_r, skipn_all2 by exact Wf.
    replace (length files - i) with 0 by lia. cbn. auto.
  - cbn [rounds_from rounds_value] in Wf, V.
    destruct Wf as (Hi & Lt & Lr & Wf).
    destruct (Async.first_rejection rs) as [e|] eqn:F; [discriminate|].
    destruct (IH _ _ _ Wf V) as (hs' & -> & U & L & B).
    exists (Async.fulfilled rs ++ hs').
    split; [rewrite app_assoc; reflexivity|].
    unfold uploads in *.
    rewrite upload_batches_round by assumption.
    cbn [concat length]. rewrite U, B.
    rewrite (skipn_slice i files), map_app, <- (@fulfilled_all _ rs F).
    rewrite combine_app_same by (symmetry; exact Lr).
    split; [reflexivity|].
    rewrite length_app, L.
    assert (Lf : length (Async.fulfilled rs) = length rs).
    { rewrite (@fulfilled_all _ rs F) at 2. rewrite length_map. reflexivity. }
    rewrite Lf, Lr, length_slice. unfold BATCH_SIZE in *.
    split; [lia|].
    destruct (Nat.lt_ge_cases (length files) (i + 3)) as [Hs|Hs].
    + replace (length files - (i + 3) + 2) with 2 by lia.
      assert (Q : length files - i + 2 = 3 + 0 \/
                  length files - i + 2 = 3 + 1) by lia.
      destruct Q as [-> | ->]; reflexivity.
    + replace (length files - i + 2)
        with (1 * 3 + (length files - (i + 3) + 2)) by lia.
      rewrite Nat.div_add_l by discriminate. reflexivity.
Qed.

(** X6: when [uploadFilesInParallel] returns, every file was uploaded,
    once and in the order of the list, the hashes returned are the
    answers of the uploads in that order, one per file, and the uploads
    were made in [ceil(n / 3)] batches. *)
Theorem every_file_uploaded_in_order (files : list File.t) (w : W)
    (hashes : list FileHash.t) :
  let o := run E (uploadFilesInParallel files) w in
  value o = Returned hashes ->
  uploads (trace o) = combine files (map Returned hashes) /\
  length hashes = length files /\
  length (upload_batches (trace o)) = (length files + 2) / BATCH_SIZE.
Proof.
  cbv zeta. intros V. unfold uploadFilesInParallel in *.
  destruct (@upload_rounds_run (length files) files 0 [] w)
    as (rounds & Wf & T & V').
  { unfold BATCH_SIZE. lia. }
  rewrite V in V'. symmetry in V'.
  destruct (@rounds_fulfilled files rounds 0 [] hashes Wf V') as (hs' & H & U & L & B).
  cbn [app] in H. subst hs'. rewrite T, U, L, B, Nat.sub_0_r.
  cbn [skipn]. auto.
Qed.


Lemma first_rejection_In (A : Type) (rs : list (result A)) (e : error) :
  Async.first_rejection rs = Some e -> In (Thrown e) rs.
Proof.
  induction rs as [|[a|e'] rs IH]; cbn; intros H.
  - discriminate H.
  - right. apply IH, H.
  - injection H as ->. left. reflexivity.
Qed.

Lemma rounds_value_cases (files : list File.t) (rounds : list round) :
  forall (i : nat) (results : list FileHash.t),
    rounds_from files i rounds ->
    match rounds_value results rounds with
    | Returned hashes =>
        map Returned hashes = map Returned results ++ flat_map snd rounds
    | Thrown e =>
        exists earlier tss rs,
          rounds = earlier ++ [(tss, rs)] /\ In (Thrown e) rs
    end.
Proof.
  induction rounds as [|[tss rs] rest IH]; intros i results Wf.
  - cbn. rewrite app_nil_r. reflexivity.
  - cbn [rounds_from rounds_value] in Wf |- *.
    destruct Wf as (_ & _ & _ & Wf).
    destruct (Async.first_rejection rs) as [e|] eqn:F.
    + subst rest. exists [], tss, rs.
      split; [reflexivity | apply first_rejection_In, F].
    + specialize (IH (i + BATCH_SIZE) (results ++ Async.fulfilled rs) Wf).
      destruct (rounds_value (results ++ Async.fulfilled rs) rest)
        as [hashes|e].
      * rewrite IH, map_app, <- (@fulfilled_all _ rs F), <- app_assoc.
        reflexivity.
      * destruct IH as (earlier & tss' & rs' & -> & I).
        exists ((tss, rs) :: earlier), tss', rs'. auto.
Qed.

(** X5: every run of [uploadFilesInParallel], on any list of files, goes
    through rounds that start at indices 0, 3, 6, ...: in each round the
    clock is read once per file of [files.slice(i, i + 3)], the uploads
    of the slice are awaited together, labelled with the number of the
    round, and a pause of 500 ms follows exactly when another round
    does.  Only the last round can hold a rejection.  When the call
    returns, every upload of every round was fulfilled and the hashes
    returned are their answers, in order; when it is rejected, the
    rejection is that of an upload of the last round. *)
Theorem upload_runs_in_rounds (files : list File.t) (w : W) :
  let o := run E (uploadFilesInParallel files) w in
  exists rounds,
    rounds_from files 0 rounds /\
    trace o = round_events files 0 rounds /\
    match value o with
    | Returned hashes => map Returned hashes = flat_map snd rounds
    | Thrown e =>
        exists earlier tss rs,
          rounds = earlier ++ [(tss, rs)] /\ In (Thrown e) rs
    end.
Proof.
  cbv zeta. unfold uploadFilesInParallel.
  destruct (@upload_rounds_run (length files) files 0 [] w)
    as (rounds & Wf & T & V).
  { unfold BATCH_SIZE. lia. }
  exists rounds. split; [exact Wf|]. split; [exact T|].
  rewrite V. exact (@rounds_value_cases files rounds 0 [] Wf).
Qed.

Lemma awaited_together_app (a b : list event) :
  awaited_together (a ++ b) = awaited_together a ++ awaited_together b.
Proof. apply flat_map_app. Qed.

Lemma awaited_together_now (tss : list string) :
  awaited_together (map E_now tss) = [].
Proof. induction tss as [|ts tss IH]; [reflexivity | exact IH]. Qed.

Lemma awaited_together_round (files : list File.t) (i : nat)
    (tss : list string) (rs : list (result FileHash.t)) (rest : list round) :
  awaited_together (round_events files i ((tss, rs) :: rest)) =
    upload_events i (slice i (i + BATCH_SIZE) files) tss rs
    :: awaited_together (round_events files (i + BATCH_SIZE) rest).
Proof.
  cbn [round_events].
  rewrite !awaited_together_app, awaited_together_now.
  destruct rest; reflexivity.
Qed.

Lemma rounds_batch (files : list File.t) (rounds : list round) :
  forall (i b : nat) (batch : list event),
    rounds_from files i rounds ->
    nth_error (awaited_together (round_events files i rounds)) b
      = Some batch ->
    i + BATCH_SIZE * b < length files /\
    exists tss rs,
      let fs := slice (i + BATCH_SIZE * b) (i + BATCH_SIZE * b + BATCH_SIZE)
                  files in
      length tss = length fs /\ length rs = length fs /\
      batch = upload_events (i + BATCH_SIZE * b) fs tss rs.
Proof.
  induction rounds as [|[tss rs] rest IH]; intros i b batch Wf N.
  - destruct b; discriminate N.
  - rewrite awaited_together_round in N.
    cbn [rounds_from] in Wf. destruct Wf as (Hi & Lt & Lr & Wf).
    destruct b as [|b].
    + injection N as <-. rewrite Nat.mul_0_r, Nat.add_0_r.
      split; [exact Hi|]. exists tss, rs. cbv zeta. auto.
    + cbn [nth_error] in N.
      destruct (Async.first_rejection rs).
      { subst rest. destruct b; discriminate N. }
      replace (i + BATCH_SIZE * S b) with (i + BATCH_SIZE + BATCH_SIZE * b)
        by lia.
      apply IH; assumption.
Qed.

Lemma In_upload_events (i : nat) (batch : list File.t) (tss : list string)
    (rs : list (result FileHash.t)) (file : File.t)
    (options : UploadOptions.t) (r : result FileHash.t) :
  In (E_uploadFile file options r) (upload_events i batch tss rs) ->
  In file batch /\
  UploadOptions.name options = File.name file /\
  UploadOptions.batch options = Json.decimal (i / BATCH_SIZE).
Proof.
  revert tss rs.
  induction batch as [|f batch IH]; intros [|ts tss] [|r0 rs] H;
    try contradiction.
  cbn [upload_events] in H. destruct H as [H|H].
  - injection H as <- <- _. cbn. auto.
  - destruct (IH _ _ H) as (I & N & B). cbn. auto.
Qed.

Lemma map_fst_combine (A B : Type) (a : list A) (b : list B) :
  length b = length a -> map fst (combine a b) = a.
Proof.
  revert b. induction a as [|x a IH]; intros [|y b] L; try discriminate;
    [reflexivity|].
  cbn. f_equal. apply IH. cbn in L. congruence.
Qed.

Lemma map_snd_combine (A B : Type) (a : list A) (b : list B) :
  length b = length a -> map snd (combine a b) = b.
Proof.
  revert b. induction a as [|x a IH]; intros [|y b] L; try discriminate;
    [reflexivity|].
  cbn. f_equal. apply IH. cbn in L. congruence.
Qed.

(** X7: in every run, the batch number [b] of the trace uploads exactly
    the files of [files.slice(3 * b, 3 * b + 3)], at least one and in
    order, each under its own name and with the batch label [b] written
    in decimal. *)
Theorem batch_is_slice (files : list File.t) (w : W) (b : nat)
    (batch : list event) :
  let o := run E (uploadFilesInParallel files) w in
  nth_error (awaited_together (trace o)) b = Some batch ->
  BATCH_SIZE * b < length files /\
  batch_uploads batch <> [] /\
  map fst (batch_uploads batch)
    = slice (BATCH_SIZE * b) (BATCH_SIZE * b + BATCH_SIZE) files /\
  forall file options r,
    In (E_uploadFile file options r) batch ->
    UploadOptions.name options = File.name file /\
    UploadOptions.batch options = Json.decimal b.
Proof.
  cbv zeta. intros N. unfold uploadFilesInParallel in N.
  destruct (@upload_rounds_run (length files) files 0 [] w)
    as (rounds & Wf & T & _).
  { unfold BATCH_SIZE. lia. }
  rewrite T in N.
  destruct (@rounds_batch files rounds 0 b batch Wf N)
    as (Hb & tss & rs & Lt & Lr & ->).
  cbn [Nat.add] in *. split; [exact Hb|].
  rewrite batch_uploads_upload_events by assumption.
  split.
  { intros C. apply (f_equal (@length _)) in C.
    rewrite length_combine, Lr, Nat.min_id, length_slice in C.
    cbn [length] in C. unfold BATCH_SIZE in *. lia. }
  split; [apply map_fst_combine; exact Lr|].
  intros file options r I.
  destruct (@In_upload_events _ _ _ _ _ _ _ I) as (_ & Hn & Hl).
  split; [exact Hn|]. rewrite Hl. f_equal.
  rewrite Nat.mul_comm. apply Nat.div_mul. discriminate.
Qed.

Lemma forallb_combine_fulfilled (fs : list File.t)
    (rs : list (result FileHash.t)) :
  Async.first_rejection rs = None ->
  forallb (fun u => is_fulfilled (snd u)) (combine fs rs) = true.
Proof.
  revert rs. induction fs as [|f fs IH]; intros [|[h|e] rs] F;
    try reflexivity; try discriminate.
  cbn. apply IH. exact F.
Qed.

Lemma firstn_add (A : Type) (n m : nat) (l : list A) :
  firstn (n + m) l = firstn n l ++ firstn m (skipn n l).
Proof.
  revert l. induction n as [|n IH]; intros [|x l]; cbn;
    try reflexivity.
  - rewrite firstn_nil. reflexivity.
  - f_equal. apply IH.
Qed.

Lemma rounds_rejected (files : list File.t) (rounds : list round) :
  forall (i : nat) (results : list FileHash.t) (e : error),
    rounds_from files i rounds ->
    rounds_value results rounds = Thrown e ->
    exists done last,
      upload_batches (round_events files i rounds) = done ++ [last] /\
      forallb (fun u => is_fulfilled (snd u)) (concat done) = true /\
      Async.first_rejection (map snd last) = Some e /\
      map fst (concat (done ++ [last]))
        = firstn (BATCH_SIZE * length (done ++ [last])) (skipn i files).
Proof.
  induction rounds as [|[tss rs] rest IH]; intros i results e Wf V.
  - discriminate V.
  - cbn [rounds_from rounds_value] in Wf, V.
    destruct Wf as (Hi & Lt & Lr & Wf).
    rewrite upload_batches_round by assumption.
    destruct (Async.first_rejection rs) as [e'|] eqn:F.
    + injection V as ->. subst rest.
      exists [], (combine (slice i (i + BATCH_SIZE) files) rs).
      cbn [round_events upload_batches flat_map app concat forallb length].
      rewrite map_snd_combine by exact Lr.
      rewrite app_nil_r, map_fst_combine by exact Lr.
      repeat split; try assumption.
      unfold slice. f_equal. lia.
    + destruct (IH _ _ _ Wf V) as (done & last & B & D & R & P).
      exists (combine (slice i (i + BATCH_SIZE) files) rs :: done), last.
      rewrite B. split; [reflexivity|].
      cbn [concat]. rewrite forallb_app, forallb_combine_fulfilled, D by exact F.
      split; [reflexivity|]. split; [exact R|].
      cbn [app concat length]. rewrite map_app, P.
      rewrite map_fst_combine by exact Lr.
      replace (BATCH_SIZE * S (length (done ++ [last])))
        with (BATCH_SIZE + BATCH_SIZE * length (done ++ [last])) by lia.
      rewrite firstn_add, skipn_skipn.
      unfold slice.
      replace (i + BATCH_SIZE - i) with BATCH_SIZE by lia.
      replace (BATCH_SIZE + i) with (i + BATCH_SIZE) by lia.
      reflexivity.
Qed.

(** X8: when [uploadFilesInParallel] is rejected, the rejection is that
    of the upload of a file of the last batch that was started; every
    upload of the batches before was fulfilled; and the files after that
    batch were never uploaded. *)
Theorem rejected_upload_stops_the_loop (files : list File.t) (w : W)
    (e : error) :
  let o := run E (uploadFilesInParallel files) w in
  value o = Thrown e ->
  exists done last,
    upload_batches (trace o) = done ++ [last] /\
    forallb (fun u => is_fulfilled (snd u)) (concat done) = true /\
    (exists file, In (file, Thrown e) last) /\
    map fst (uploads (trace o))
      = firstn (BATCH_SIZE * length (upload_batches (trace o))) files.
Proof.
  cbv zeta. intros V. unfold uploadFilesInParallel in *.
  destruct (@upload_rounds_run (length files) files 0 [] w)
    as (rounds & Wf & T & V').
  { unfold BATCH_SIZE. lia. }
  rewrite V in V'. symmetry in V'.
  destruct (@rounds_rejected files rounds 0 [] e Wf V')
    as (done & last & B & D & R & P).
  exists done, last. unfold uploads. rewrite T, B.
  split; [reflexivity|]. split; [exact D|]. split; [|exact P].
  apply first_rejection_In, in_map_iff in R.
  destruct R as ([file r] & Q & I). cbn in Q. subst r.
  exists file. exact I.
Qed.

End Env.
End UploadRounds.


(** X6 on the simulated storage: seven files in three batches. *)
Lemma every_file_uploaded_in_order_witness :
  length (upload_batches
            (trace (run Sim.E (uploadFilesInParallel Sim.seven_files)
                      (Sim.rejecting []))))
    = (length Sim.seven_files + 2) / BATCH_SIZE.
Proof.
  refine (proj2 (proj2 (@UploadRounds.every_file_uploaded_in_order
                          _ Sim.E Sim.seven_files (Sim.rejecting []) _ _))).
  vm_compute. reflexivity.
Defined.

(** X7 on the simulated storage: the third batch of seven files uploads
    the seventh. *)
Lemma batch_is_slice_witness :
  map fst (batch_uploads
             [E_uploadFile (Sim.file "7.pdf")
                (UploadOptions.mk "7.pdf" "2" Sim.timestamp)
                (fst (Sim.respond
                        (uploadFile (Sim.file "7.pdf")
                           (UploadOptions.mk "7.pdf" "2" Sim.timestamp))
                        (Sim.rejecting [])))])
    = slice (BATCH_SIZE * 2) (BATCH_SIZE * 2 + BATCH_SIZE) Sim.seven_files.
Proof.
  refine (proj1 (proj2 (proj2 (@UploadRounds.batch_is_slice
                                 _ Sim.E Sim.seven_files (Sim.rejecting [])
                                 2 _ _)))).
  vm_compute. reflexivity.
Defined.

(** X8 on the simulated storage: the upload of [5.pdf] is rejected, and
    the seventh file is never uploaded. *)
Lemma rejected_upload_stops_the_loop_witness :
  exists done last,
    upload_batches
      (trace (run Sim.E (uploadFilesInParallel Sim.seven_files)
                (Sim.rejecting ["5.pdf"%string])))
      = (done ++ [last])%list /\
    forallb (fun u => is_fulfilled (snd u)) (concat done) = true /\
    (exists file, In (file, Thrown (UploadError (Sim.file "5.pdf"))) last) /\
    map fst (uploads
               (trace (run Sim.E (uploadFilesInParallel Sim.seven_files)
                         (Sim.rejecting ["5.pdf"%string]))))
      = firstn
          (BATCH_SIZE
           * length (upload_batches
                       (trace (run Sim.E
                                 (uploadFilesInParallel Sim.seven_files)
                                 (Sim.rejecting ["5.pdf"%string])))))
          Sim.seven_files.
Proof.
  apply (@UploadRounds.rejected_upload_stops_the_loop
           _ Sim.E Sim.seven_files (Sim.rejecting ["5.pdf"%string])
           (UploadError (Sim.file "5.pdf"))).
  vm_compute. reflexivity.
Defined.

(** ** More on the minting of a document certification *)

Module MintingRuns.
Import RunFacts UploadFacts UploadRounds CodecFacts.
Local Open Scope string_scope.

(** The ledger events at the end of a trace that starts with storage
    events. *)
Lemma in_ledger_events (t l : list event) (ev : event) :
  Forall (fun ev => storage_event ev = true) t ->
  storage_event ev = false ->
  In ev (t ++ l)%list -> In ev l.
Proof.
  intros F S H. apply in_app_or in H. destruct H as [H|H]; [|exact H].
  rewrite Forall_forall in F. apply F in H. congruence.
Qed.

Section Service.
Variable creatorAddress : string.
Variable mnemonic : string.
Variable validateCertificationData :
  DocumentCertificationData.t -> result unit.
Variable prepareCertificationData : DocumentCertificationData.t -> json.
Variable metadataBuilder :
  DocumentCertificationData.t -> json -> list FileHash.t -> json.
Context {W : Type} (E : env W).

Let mint : DocumentCertificationData.t -> async MintingResult.t :=
  createDocumentCertification creatorAddress mnemonic
    validateCertificationData prepareCertificationData metadataBuilder.

Let creation (data : DocumentCertificationData.t) (hash : string)
  : CreateAsset.t :=
  {| CreateAsset.assetName := DocumentCertificationData.assetName data;
     CreateAsset.unitName := DocumentCertificationData.unitName data;
     CreateAsset.total := 1;
     CreateAsset.decimals := 0;
     CreateAsset.defaultFrozen := false;
     CreateAsset.manager := creatorAddress;
     CreateAsset.reserve := creatorAddress;
     CreateAsset.freeze := creatorAddress;
     CreateAsset.clawback := creatorAddress;
     CreateAsset.url := "ipfs://" ++ hash;
     CreateAsset.metadataHash := None;
     CreateAsset.note :=
       "ArtCertify certification: "
       ++ DocumentCertificationData.documentName data |}.

(** The run of [createDocumentCertification], step by step: each step
    that fails ends the call with its error. *)
Lemma createDocumentCertification_run (data : DocumentCertificationData.t)
    (w : W) :
  run E (mint data) w =
    match validateCertificationData data with
    | Thrown e => Outcome (Thrown e) w []
    | Returned _ =>
        let up := run E (uploadFilesInParallel
                           (DocumentCertificationData.files data)) w in
        match value up with
        | Thrown e => Outcome (Thrown e) (world up) (trace up)
        | Returned hashes =>
            let doc := metadataBuilder data (prepareCertificationData data)
                         hashes in
            let pinned := respond E (uploadJSON doc) (world up) in
            match fst pinned with
            | Thrown e =>
                Outcome (Thrown e) (snd pinned)
                  (trace up ++ [E_uploadJSON doc (Thrown e)])
            | Returned pin =>
                let hash := PinResponse.IpfsHash pin in
                match CidDecoder.fromCidToAddress hash with
                | Thrown e =>
                    Outcome (Thrown e) (snd pinned)
                      (trace up ++ [E_uploadJSON doc (Returned pin)])
                | Returned address =>
                    let created := respond E (createAsset (creation data hash))
                                     (snd pinned) in
                    match fst created with
                    | Thrown e =>
                        Outcome (Thrown e) (snd created)
                          (trace up ++
                           [E_uploadJSON doc (Returned pin);
                            E_createAsset (creation data hash) (Thrown e)])
                    | Returned cr =>
                        let write :=
                          UpdateReserve.mk (CreateResult.assetId cr) address
                            mnemonic None in
                        let updated := respond E (updateAssetReserve write)
                                         (snd created) in
                        Outcome
                          match fst updated with
                          | Thrown e => Thrown e
                          | Returned ur =>
                              Returned
                                {| MintingResult.assetId :=
                                     CreateResult.assetId cr;
                                   MintingResult.txId := CreateResult.txId cr;
                                   MintingResult.updateTxId :=
                                     UpdateResult.txId ur;
                                   MintingResult.confirmedRound :=
                                     UpdateResult.confirmedRound ur;
                                   MintingResult.metadataUrl :=
                                     "ipfs://" ++ hash;
                                   MintingResult.ipfsHashes :=
                                     IpfsHashes.mk hash hashes;
                                   MintingResult.finalReserveAddress :=
                                     address |}
                          end
                          (snd updated)
                          (trace up ++
                           [E_uploadJSON doc (Returned pin);
                            E_createAsset (creation data hash) (Returned cr);
                            E_updateAssetReserve write (fst updated)])
                    end
                end
            end
        end
    end%list.
Proof.
  unfold mint, createDocumentCertification.
  rewrite run_bind, run_lift. cbn [value world trace].
  destruct (validateCertificationData data) as [[]|e]; [|reflexivity].
  rewrite run_bind. cbv zeta.
  unfold uploadCertificationAssets. rewrite run_bind. cbv zeta.
  destruct (run E (uploadFilesInParallel
                     (DocumentCertificationData.files data)) w)
    as [[hashes|e] w1 t1]; cbn [value world trace]; [|reflexivity].
  rewrite run_bind, run_await. cbn [value world trace].
  destruct (respond E (uploadJSON
                         (metadataBuilder data
                            (prepareCertificationData data) hashes)) w1)
    as [[pin|e] w2]; cbn [fst snd log_call value world trace];
    [|reflexivity].
  cbn [run Async.ret value world trace IpfsResult.metadataHash
       IpfsResult.metadataUrl IpfsResult.fileHashes].
  rewrite run_bind, run_lift. cbn [value world trace].
  destruct (CidDecoder.fromCidToAddress (PinResponse.IpfsHash pin))
    as [addr|e] eqn:A; [|rewrite ?app_nil_r; reflexivity].
  rewrite run_bind, run_await. cbn [value world trace fst snd].
  fold (creation data (PinResponse.IpfsHash pin)).
  destruct (respond E (createAsset (creation data (PinResponse.IpfsHash pin)))
              w2) as [[cr|e] w3]; cbn [fst snd log_call];
    [|rewrite ?app_nil_r, <- ?app_assoc; reflexivity].
  rewrite run_bind, run_await. cbn [value world trace fst snd].
  match goal with
  | |- context [respond E (updateAssetReserve ?q) w3] =>
      destruct (respond E (updateAssetReserve q) w3) as [[ur|e] w4]
  end; cbn [fst snd log_call run Async.ret value world trace];
    rewrite ?app_nil_r, <- ?app_assoc; reflexivity.
Qed.


(** X9: when [createDocumentCertification] returns, the reserve address
    it reports is the address of the metadata identifier, 58 characters
    long, and is the address the ledger was asked to write; the metadata
    URL is [ipfs://] followed by that identifier and is the URL the asset
    was created with; the file hashes are those the upload returned; the
    asset id and the transaction ids are those of the creation and of the
    reserve update, which are the last two things the call did. *)
Theorem mint_result (data : DocumentCertificationData.t) (w : W)
    (m : MintingResult.t) :
  let o := run E (mint data) w in
  value o = Returned m ->
  CidDecoder.fromCidToAddress (IpfsHashes.metadata (MintingResult.ipfsHashes m))
    = Returned (MintingResult.finalReserveAddress m) /\
  String.length (MintingResult.finalReserveAddress m) = 58 /\
  MintingResult.metadataUrl m
    = "ipfs://" ++ IpfsHashes.metadata (MintingResult.ipfsHashes m) /\
  value (run E (uploadFilesInParallel
                  (DocumentCertificationData.files data)) w)
    = Returned (IpfsHashes.files (MintingResult.ipfsHashes m)) /\
  exists t p cr ur,
    trace o =
      (t ++ [E_createAsset p (Returned cr);
             E_updateAssetReserve
               (UpdateReserve.mk (MintingResult.assetId m)
                  (MintingResult.finalReserveAddress m) mnemonic None)
               (Returned ur)])%list /\
    Forall (fun ev => storage_event ev = true) t /\
    CreateAsset.url p = MintingResult.metadataUrl m /\
    MintingResult.assetId m = CreateResult.assetId cr /\
    MintingResult.txId m = CreateResult.txId cr /\
    MintingResult.updateTxId m = UpdateResult.txId ur /\
    MintingResult.confirmedRound m = UpdateResult.confirmedRound ur.
Proof.
  cbv zeta. rewrite createDocumentCertification_run. cbv zeta.
  destruct (validateCertificationData data) as [[]|e]; [|discriminate].
  pose proof (@storage_uploadFilesInParallel _ E
                (DocumentCertificationData.files data) w) as F.
  destruct (run E (uploadFilesInParallel
                     (DocumentCertificationData.files data)) w)
    as [[hashes|e] w1 t1]; cbn [value world trace] in *; [|discriminate].
  match goal with
  | |- context [respond E (uploadJSON ?d) w1] =>
      destruct (respond E (uploadJSON d) w1) as [[pin|e] w2]
  end; cbn [fst snd]; [|discriminate].
  destruct (CidDecoder.fromCidToAddress (PinResponse.IpfsHash pin))
    as [address|e] eqn:A; [|discriminate].
  destruct (respond E (createAsset (creation data (PinResponse.IpfsHash pin)))
              w2) as [[cr|e] w3]; cbn [fst snd]; [|discriminate].
  match goal with
  | |- context [respond E (updateAssetReserve ?q) w3] =>
      destruct (respond E (updateAssetReserve q) w3) as [[ur|e] w4]
  end; cbn [fst snd value trace]; [|discriminate].
  intros H. injection H as <-.
  cbn [MintingResult.ipfsHashes IpfsHashes.metadata IpfsHashes.files
       MintingResult.finalReserveAddress MintingResult.metadataUrl
       MintingResult.assetId MintingResult.txId MintingResult.updateTxId
       MintingResult.confirmedRound].
  split; [exact A|]. split.
  { destruct (@fromCidToAddress_returned _ _ A) as (cid & _ & _ & L & ->).
    apply AlgosdkFacts.length_encodeAddress, L. }
  split; [reflexivity|]. split; [reflexivity|].
  eexists (t1 ++ [_])%list, _, cr, ur.
  split; [rewrite <- app_assoc; reflexivity|].
  split; [|cbn; auto 10].
  apply Forall_app. split; [exact F|]. constructor; [reflexivity|constructor].
Qed.

(** X10: [createDocumentCertification] asks the ledger for a reserve
    update only after the asset was created, at most once and as the last
    thing it does: for the id the creation returned, with the manager
    credentials, without a URL, and with the address the uploaded
    metadata identifier converts to. *)
Theorem reserve_update_follows_creation (data : DocumentCertificationData.t)
    (w : W) (up : UpdateReserve.t) (r : result UpdateResult.t) :
  let o := run E (mint data) w in
  In (E_updateAssetReserve up r) (trace o) ->
  exists doc pin p cr,
    In (E_uploadJSON doc (Returned pin)) (trace o) /\
    In (E_createAsset p (Returned cr)) (trace o) /\
    CidDecoder.fromCidToAddress (PinResponse.IpfsHash pin)
      = Returned (UpdateReserve.newReserveAddress up) /\
    up = UpdateReserve.mk (CreateResult.assetId cr)
           (UpdateReserve.newReserveAddress up) mnemonic None /\
    exists t, trace o = (t ++ [E_updateAssetReserve up r])%list /\
              forall up' r', ~ In (E_updateAssetReserve up' r') t.
Proof.
  cbv zeta. rewrite createDocumentCertification_run. cbv zeta.
  destruct (validateCertificationData data) as [[]|e]; [|intros []].
  pose proof (@storage_uploadFilesInParallel _ E
                (DocumentCertificationData.files data) w) as F.
  destruct (run E (uploadFilesInParallel
                     (DocumentCertificationData.files data)) w)
    as [[hashes|e] w1 t1]; cbn [value world trace] in *.
  2: { intros H. rewrite Forall_forall in F. apply F in H. discriminate H. }
  assert (NU : forall up' r' l,
             (forall ev, In ev l -> ev <> E_updateAssetReserve up' r') ->
             ~ In (E_updateAssetReserve up' r') (t1 ++ l)%list).
  { intros up' r' l Hl H. apply in_ledger_events in H;
      [|exact F|reflexivity]. exact (Hl _ H eq_refl). }
  match goal with
  | |- context [respond E (uploadJSON ?d) w1] =>
      set (doc := d); destruct (respond E (uploadJSON doc) w1) as [[pin|e] w2]
  end; cbn [fst snd trace].
  2: { intros H. apply in_ledger_events in H; [|exact F|reflexivity].
       destruct H as [H|[]]. discriminate H. }
  destruct (CidDecoder.fromCidToAddress (PinResponse.IpfsHash pin))
    as [address|e] eqn:A; cbn [trace].
  2: { intros H. apply in_ledger_events in H; [|exact F|reflexivity].
       destruct H as [H|[]]. discriminate H. }
  destruct (respond E (createAsset (creation data (PinResponse.IpfsHash pin)))
              w2) as [[cr|e] w3]; cbn [fst snd trace].
  2: { intros H. apply in_ledger_events in H; [|exact F|reflexivity].
       destruct H as [H|[H|[]]]; discriminate H. }
  match goal with
  | |- context [respond E (updateAssetReserve ?q) w3] =>
      destruct (respond E (updateAssetReserve q) w3) as [r2 w4]
  end; cbn [fst snd].
  intros H. apply in_ledger_events in H; [|exact F|reflexivity].
  destruct H as [H|[H|[H|[]]]]; try discriminate H.
  injection H as <- <-.
  exists doc, pin, (creation data (PinResponse.IpfsHash pin)), cr.
  split; [apply in_or_app; right; left; reflexivity|].
  split; [apply in_or_app; right; right; left; reflexivity|].
  split; [exact A|]. split; [reflexivity|].
  eexists (t1 ++ [_; _])%list.
  split; [rewrite <- app_assoc; reflexivity|].
  intros up' r'. apply NU. intros ev [<-|[<-|[]]]; discriminate.
Qed.

(** X11: when the identifier under which the metadata document was
    uploaded does not convert to an address,
    [createDocumentCertification] is rejected with the error of the
    conversion and has called the storage only: the document stays
    uploaded, and no asset is created. *)
Theorem unconvertible_identifier_leaves_no_asset
    (data : DocumentCertificationData.t) (w : W) (doc : json)
    (pin : PinResponse.t) (e : error) :
  let o := run E (mint data) w in
  In (E_uploadJSON doc (Returned pin)) (trace o) ->
  CidDecoder.fromCidToAddress (PinResponse.IpfsHash pin) = Thrown e ->
  value o = Thrown e /\
  Forall (fun ev => storage_event ev = true) (trace o).
Proof.
  cbv zeta. rewrite createDocumentCertification_run. cbv zeta.
  destruct (validateCertificationData data) as [[]|e0]; [|intros []].
  pose proof (@storage_uploadFilesInParallel _ E
                (DocumentCertificationData.files data) w) as F.
  pose proof (@no_document_uploaded _ E
                (DocumentCertificationData.files data) w) as NJ.
  destruct (run E (uploadFilesInParallel
                     (DocumentCertificationData.files data)) w)
    as [[hashes|e0] w1 t1]; cbn [value world trace] in *.
  2: { intros H. destruct (NJ _ _ H). }
  assert (J : forall l,
             In (E_uploadJSON doc (Returned pin)) (t1 ++ l)%list ->
             In (E_uploadJSON doc (Returned pin)) l).
  { intros l H. apply in_app_or in H. destruct H as [H|H]; [|exact H].
    destruct (NJ _ _ H). }
  match goal with
  | |- context [respond E (uploadJSON ?d) w1] =>
      set (doc0 := d);
      destruct (respond E (uploadJSON doc0) w1) as [[pin0|e0] w2]
  end; cbn [fst snd trace].
  2: { intros H. apply J in H. destruct H as [H|[]]. discriminate H. }
  assert (P : In (E_uploadJSON doc (Returned pin))
                 [E_uploadJSON doc0 (Returned pin0)] -> pin0 = pin).
  { intros [H|[]]. injection H as _ ->. reflexivity. }
  destruct (CidDecoder.fromCidToAddress (PinResponse.IpfsHash pin0))
    as [address|e0] eqn:A; cbn [trace value].
  - destruct (respond E (createAsset (creation data (PinResponse.IpfsHash pin0)))
                w2) as [[cr|e0] w3]; cbn [fst snd trace value];
      intros H; apply J in H;
      assert (Q : pin0 = pin)
        by (destruct H as [H|H];
            [injection H as _ ->; reflexivity
            | exfalso; cbn in H;
              repeat (destruct H as [H|H]; [discriminate H|]); exact H]);
      subst pin0; congruence.
  - intros H. apply J in H. rewrite (P H) in A. intros A'.
    rewrite A' in A. injection A as ->. split; [reflexivity|].
    apply Forall_app. split; [exact F|].
    constructor; [reflexivity|constructor].
Qed.

(** X12: when the creation of the asset is rejected,
    [createDocumentCertification] is rejected with that error; the
    creation is the last thing it did, after storage calls only, and no
    reserve update is attempted. *)
Theorem creation_failure_ends_the_mint (data : DocumentCertificationData.t)
    (w : W) (p : CreateAsset.t) (e : error) :
  let o := run E (mint data) w in
  In (E_createAsset p (Thrown e)) (trace o) ->
  value o = Thrown e /\
  (exists t, trace o = (t ++ [E_createAsset p (Thrown e)])%list /\
             Forall (fun ev => storage_event ev = true) t).
Proof.
  cbv zeta. rewrite createDocumentCertification_run. cbv zeta.
  destruct (validateCertificationData data) as [[]|e0]; [|intros []].
  pose proof (@storage_uploadFilesInParallel _ E
                (DocumentCertificationData.files data) w) as F.
  destruct (run E (uploadFilesInParallel
                     (DocumentCertificationData.files data)) w)
    as [[hashes|e0] w1 t1]; cbn [value world trace] in *.
  2: { intros H. rewrite Forall_forall in F. apply F in H. discriminate H. }
  match goal with
  | |- context [respond E (uploadJSON ?d) w1] =>
      set (doc := d); destruct (respond E (uploadJSON doc) w1) as [[pin|e0] w2]
  end; cbn [fst snd trace].
  2: { intros H. apply in_ledger_events in H; [|exact F|reflexivity].
       destruct H as [H|[]]. discriminate H. }
  destruct (CidDecoder.fromCidToAddress (PinResponse.IpfsHash pin))
    as [address|e0] eqn:A; cbn [trace].
  2: { intros H. apply in_ledger_events in H; [|exact F|reflexivity].
       destruct H as [H|[]]. discriminate H. }
  destruct (respond E (createAsset (creation data (PinResponse.IpfsHash pin)))
              w2) as [[cr|e0] w3]; cbn [fst snd trace value].
  - intros H. apply in_ledger_events in H; [|exact F|reflexivity].
    destruct H as [H|[H|[H|[]]]]; discriminate H.
  - intros H. apply in_ledger_events in H; [|exact F|reflexivity].
    destruct H as [H|[H|[]]]; try discriminate H.
    injection H as <- <-. split; [reflexivity|].
    eexists (t1 ++ [_])%list. split; [rewrite <- app_assoc; reflexivity|].
    apply Forall_app. split; [exact F|].
    constructor; [reflexivity|constructor].
Qed.

End Service.
End MintingRuns.


(** X9 on the simulated collaborators: two files are certified. *)
Lemma mint_result_witness :
  exists m,
    value (run Sim.E (Sim.mint Sim.two_files) (Sim.rejecting []))
      = Returned m /\
    String.length (MintingResult.finalReserveAddress m) = 58.
Proof.
  eexists. split; [vm_compute; reflexivity|].
  refine (proj1 (proj2 (@MintingRuns.mint_result
                          Sim.creatorAddress Sim.mnemonic
                          Sim.validateCertificationData
                          Sim.prepareCertificationData Sim.metadataBuilder
                          _ Sim.E (Sim.document Sim.two_files)
                          (Sim.rejecting []) _ _))).
  vm_compute. reflexivity.
Defined.

(** X10 on the simulated collaborators. *)
Lemma reserve_update_follows_creation_witness :
  exists doc pin p cr,
    In (E_uploadJSON doc (Returned pin))
       (trace (run Sim.E (Sim.mint Sim.two_files) (Sim.rejecting []))) /\
    In (E_createAsset p (Returned cr))
       (trace (run Sim.E (Sim.mint Sim.two_files) (Sim.rejecting []))) /\
    CidDecoder.fromCidToAddress (PinResponse.IpfsHash pin)
      = Returned "TVWCXZIPOBUVGR42XHPSZY7NZKILNACTYAFTABFX6CWMXYPI53PZ7JBOHE"%string.
Proof.
  destruct (@MintingRuns.reserve_update_follows_creation
              Sim.creatorAddress Sim.mnemonic Sim.validateCertificationData
              Sim.prepareCertificationData Sim.metadataBuilder
              _ Sim.E (Sim.document Sim.two_files) (Sim.rejecting [])
              (UpdateReserve.mk 1001
                 "TVWCXZIPOBUVGR42XHPSZY7NZKILNACTYAFTABFX6CWMXYPI53PZ7JBOHE"
                 Sim.mnemonic None)
              (Returned (UpdateResult.mk "UPDATE-TX" 32847291)))
    as (doc & pin & p & cr & H1 & H2 & H3 & _).
  - vm_compute. repeat (first [left; reflexivity | right]).
  - exists doc, pin, p, cr. auto.
Defined.

(** X11 on a storage that names the metadata by a sha-1 CID. *)
Lemma unconvertible_identifier_leaves_no_asset_witness :
  value (run Sim.E (Sim.mint Sim.two_files)
           (Sim.fresh 1001 [Demo.cid_sha1]))
    = Thrown (Error ("Failed to convert CID to address: "
                     ++ CidDecoder.UnsupportedDigest)) /\
  Forall (fun ev => storage_event ev = true)
    (trace (run Sim.E (Sim.mint Sim.two_files)
              (Sim.fresh 1001 [Demo.cid_sha1]))).
Proof.
  eapply (@MintingRuns.unconvertible_identifier_leaves_no_asset
            Sim.creatorAddress Sim.mnemonic Sim.validateCertificationData
            Sim.prepareCertificationData Sim.metadataBuilder
            _ Sim.E (Sim.document Sim.two_files)
            (Sim.fresh 1001 [Demo.cid_sha1]) _
            (PinResponse.mk Demo.cid_sha1)).
  - vm_compute. repeat (first [left; reflexivity | right]).
  - vm_compute. reflexivity.
Defined.

(** X12 on a ledger that rejects the creation. *)
Lemma creation_failure_ends_the_mint_witness :
  value (run Demo.without_creation (Sim.mint Sim.two_files)
           (Sim.rejecting []))
    = Thrown Sim.network_failure.
Proof.
  refine (proj1 (@MintingRuns.creation_failure_ends_the_mint
                   Sim.creatorAddress Sim.mnemonic
                   Sim.validateCertificationData
                   Sim.prepareCertificationData Sim.metadataBuilder
                   _ Demo.without_creation (Sim.document Sim.two_files)
                   (Sim.rejecting []) Sim.create_params
                   Sim.network_failure _)).
  vm_compute. repeat (first [left; reflexivity | right]).
Defined.

(** ** More on versioned updates *)

Module UpdateRuns.
Import RunFacts VersioningFacts.
Local Open Scope string_scope.

Section Service.
Variable mnemonic : string.
Variable gateway : string.
Variable getCurrentVersion : AssetInfo.t -> Z.
Context {W : Type} (E : env W).

Let update : Z -> json -> list File.t -> async UpdateResult.t :=
  updateCertification mnemonic gateway getCurrentVersion.

Ltac absent H :=
  cbn in H; repeat (destruct H as [H|H]; [discriminate H|]);
  try contradiction.

(** X13: when the reserve the asset holds does not convert to a CID,
    [updateCertification] is rejected with the error of the conversion
    after the one read of the asset: nothing is uploaded and nothing is
    written. *)
Theorem unreadable_reserve_stops_the_update (assetId : Z) (newData : json)
    (newFiles : list File.t) (w : W) (asset : AssetInfo.t) (e : error) :
  let o := run E (update assetId newData newFiles) w in
  In (E_getAssetInfo assetId (Returned asset)) (trace o) ->
  CidDecoder.fromAddressToCid (AssetParams.reserve (AssetInfo.params asset))
    = Thrown e ->
  trace o = [E_getAssetInfo assetId (Returned asset)] /\
  value o = Thrown e.
Proof.
  cbv zeta. intros H D.
  destruct (@updateCertification_cases mnemonic gateway getCurrentVersion
              W E assetId newData newFiles w) as (r & rest & T & C).
  fold update in T, C. rewrite T in H |- *.
  assert (R : r = Returned asset).
  { destruct H as [H|H]; [injection H as ->; reflexivity|]. exfalso.
    destruct r as [asset0|e0].
    - destruct (CidDecoder.fromAddressToCid
                  (AssetParams.reserve (AssetInfo.params asset0)))
        as [cid|e0].
      + destruct C as (ts & r1 & C). cbv zeta in C.
        destruct r1 as [pin|e1];
          [destruct (CidDecoder.fromCidToAddress (PinResponse.IpfsHash pin));
           [destruct C as (r2 & -> & _) | destruct C as (-> & _)]
          | destruct C as (-> & _)];
          absent H.
      + destruct C as (-> & _). absent H.
    - destruct C as (-> & _). absent H. }
  subst r. rewrite D in C. destruct C as (-> & V). auto.
Qed.

(** X14: the record [updateCertification] uploads keeps every key of
    [newData] except [version_info], [modification_timestamp] and
    [previous_cid], which it always sets itself, whatever [newData] holds
    under them: to the versioning structure built from the asset read and
    the CID its reserve converts to, to the clock reading of the call,
    and to that CID. *)
Theorem record_merges_new_data (assetId : Z) (newData : json)
    (newFiles : list File.t) (w : W) (doc : json)
    (r : result PinResponse.t) :
  let o := run E (update assetId newData newFiles) w in
  In (E_uploadJSON doc r) (trace o) ->
  exists asset cid timestamp,
    In (E_getAssetInfo assetId (Returned asset)) (trace o) /\
    In (E_now timestamp) (trace o) /\
    CidDecoder.fromAddressToCid (AssetParams.reserve (AssetInfo.params asset))
      = Returned cid /\
    field "version_info" doc
      = Some (VersioningInfo.to_json
                (versionInfo gateway getCurrentVersion asset cid)) /\
    field "modification_timestamp" doc = Some (JStr timestamp) /\
    field "previous_cid" doc = Some (JStr cid) /\
    forall key,
      key <> "version_info" -> key <> "modification_timestamp" ->
      key <> "previous_cid" ->
      field key doc = Json.lookup key (Json.spread newData).
Proof.
  cbv zeta. intros H.
  destruct (@updateCertification_cases mnemonic gateway getCurrentVersion
              W E assetId newData newFiles w) as (r0 & rest & T & C).
  fold update in T, C. rewrite T in H |- *.
  destruct r0 as [asset|e0].
  2: { destruct C as (-> & _). destruct H as [H|[]]. discriminate H. }
  destruct (CidDecoder.fromAddressToCid
              (AssetParams.reserve (AssetInfo.params asset)))
    as [cid|e0] eqn:D.
  2: { destruct C as (-> & _). destruct H as [H|[]]. discriminate H. }
  destruct C as (ts & r1 & C). cbv zeta in C.
  assert (R : exists l, rest = E_now ts
                             :: E_uploadJSON
                                  (newMetadata newData
                                     (versionInfo gateway getCurrentVersion
                                        asset cid) ts cid) r1 :: l /\
                        forall d p, ~ In (E_uploadJSON d p) l).
  { destruct r1 as [pin|e1];
      [destruct (CidDecoder.fromCidToAddress (PinResponse.IpfsHash pin));
       [destruct C as (r2 & -> & _) | destruct C as (-> & _)]
      | destruct C as (-> & _)];
      eexists; (split; [reflexivity|]); intros d p I; cbn in I;
      repeat match goal with
             | H : _ \/ _ |- _ => destruct H as [H|H]
             | H : False |- _ => destruct H
             | H : _ = _ |- _ => discriminate H
             end. }
  destruct R as (l & -> & NL).
  assert (Hd : doc = newMetadata newData
                       (versionInfo gateway getCurrentVersion asset cid)
                       ts cid).
  { destruct H as [H|[H|[H|H]]]; try discriminate H.
    - injection H as <- _. reflexivity.
    - exfalso. exact (NL _ _ H). }
  subst doc. exists asset, cid, ts.
  split; [left; reflexivity|]. split; [right; left; reflexivity|].
  split; [exact D|].
  unfold newMetadata, field.
  split.
  { rewrite !(@lookup_set_neq _ "version_info") by discriminate.
    apply lookup_set_eq. }
  split.
  { rewrite (@lookup_set_neq "previous_cid" "modification_timestamp")
      by discriminate.
    apply lookup_set_eq. }
  split; [apply lookup_set_eq|].
  intros key N1 N2 N3.
  rewrite !lookup_set_neq by (apply not_eq_sym; assumption). reflexivity.
Qed.

(** X15: [updateCertification] never creates an asset and never uploads
    a file, whatever [newFiles] holds.  It writes to the ledger at most
    once, as the last thing it does: for the asset it was given, with the
    manager credentials, the address the identifier of the uploaded
    record converts to and the URL [ipfs://] followed by that identifier;
    and the answer to that write is the answer of the call. *)
Theorem update_writes_once (assetId : Z) (newData : json)
    (newFiles : list File.t) (w : W) :
  let o := run E (update assetId newData newFiles) w in
  existsb is_createAsset (trace o) = false /\
  uploads (trace o) = [] /\
  forall up r,
    In (E_updateAssetReserve up r) (trace o) ->
    value o = r /\
    (exists t, trace o = (t ++ [E_updateAssetReserve up r])%list /\
               forall up' r', ~ In (E_updateAssetReserve up' r') t) /\
    exists doc pin,
      In (E_uploadJSON doc (Returned pin)) (trace o) /\
      CidDecoder.fromCidToAddress (PinResponse.IpfsHash pin)
        = Returned (UpdateReserve.newReserveAddress up) /\
      up = UpdateReserve.mk assetId (UpdateReserve.newReserveAddress up)
             mnemonic (Some ("ipfs://" ++ PinResponse.IpfsHash pin)).
Proof.
  cbv zeta.
  destruct (@updateCertification_cases mnemonic gateway getCurrentVersion
              W E assetId newData newFiles w) as (r0 & rest & T & C).
  fold update in T, C. rewrite T.
  destruct r0 as [asset|e0].
  2: { destruct C as (-> & _). cbn. repeat split; try reflexivity.
       all: destruct H as [H|[]]; discriminate H. }
  destruct (CidDecoder.fromAddressToCid
              (AssetParams.reserve (AssetInfo.params asset)))
    as [cid|e0] eqn:D.
  2: { destruct C as (-> & _). cbn. repeat split; try reflexivity.
       all: destruct H as [H|[]]; discriminate H. }
  destruct C as (ts & r1 & C). cbv zeta in C.
  destruct r1 as [pin|e1].
  - destruct (CidDecoder.fromCidToAddress (PinResponse.IpfsHash pin))
      as [addr|e1] eqn:A.
    + destruct C as (r2 & -> & V). cbn [existsb is_createAsset orb].
      split; [reflexivity|]. split; [reflexivity|].
      intros up r H.
      destruct H as [H|[H|[H|[H|[]]]]]; try discriminate H.
      injection H as <- <-. split; [exact V|]. split.
      * eexists [_; _; _]. split; [reflexivity|].
        intros up' r' I.
        destruct I as [I|[I|[I|[]]]]; discriminate I.
      * eexists; exists pin. split; [do 2 right; left; reflexivity|].
        split; [exact A | reflexivity].
    + destruct C as (-> & V). cbn [existsb is_createAsset orb].
      split; [reflexivity|]. split; [reflexivity|].
      intros up r H.
      destruct H as [H|[H|[H|[]]]]; discriminate H.
  - destruct C as (-> & V). cbn [existsb is_createAsset orb].
    split; [reflexivity|]. split; [reflexivity|].
    intros up r H.
    destruct H as [H|[H|[H|[]]]]; discriminate H.
Qed.

End Service.
End UpdateRuns.


(** X13 on a ledger whose asset holds a reserve with a wrong checksum. *)
Lemma unreadable_reserve_stops_the_update_witness :
  trace (run Sim.E (Sim.update 1001 Sim.revision)
           (Sim.holding 1001 (Sim.soulbound Demo.not_an_address) [] []))
    = [E_getAssetInfo 1001
         (Returned (AssetInfo.mk 1001 (Sim.soulbound Demo.not_an_address)))] /\
  value (run Sim.E (Sim.update 1001 Sim.revision)
           (Sim.holding 1001 (Sim.soulbound Demo.not_an_address) [] []))
    = Thrown (Error ("Failed to convert address to CID: "
                     ++ CidDecoder.InvalidChecksum)).
Proof.
  apply (@UpdateRuns.unreadable_reserve_stops_the_update
           Sim.mnemonic Sim.gateway Sim.getCurrentVersion _ Sim.E
           1001%Z Sim.revision []
           (Sim.holding 1001 (Sim.soulbound Demo.not_an_address) [] [])).
  - vm_compute. left. reflexivity.
  - vm_compute. reflexivity.
Defined.

(** X14 on the simulated ledger: the record of a revision keeps its
    [description]. *)
Lemma record_merges_new_data_witness :
  field "description" (Sim.record_at x00) = Some (JStr "revised").
Proof.
  destruct (@UpdateRuns.record_merges_new_data
              Sim.mnemonic Sim.gateway Sim.getCurrentVersion _ Sim.E
              1001%Z Sim.revision [] Sim.quiet (Sim.record_at x00)
              (Returned (PinResponse.mk (Sim.cid_raw x11))))
    as (asset & cid & ts & _ & _ & _ & _ & _ & _ & K).
  - vm_compute. repeat (first [left; reflexivity | right]).
  - rewrite (K "description"%string); [reflexivity | | |]; discriminate.
Defined.

(** X15 on the simulated ledger. *)
Lemma update_writes_once_witness :
  value (run Sim.E (Sim.update 1001 Sim.revision) Sim.quiet)
    = Returned (UpdateResult.mk "UPDATE-TX" 32847291).
Proof.
  refine (proj1 (proj2 (proj2 (@UpdateRuns.update_writes_once
                                 Sim.mnemonic Sim.gateway
                                 Sim.getCurrentVersion _ Sim.E
                                 1001%Z Sim.revision [] Sim.quiet))
                   (UpdateReserve.mk 1001 (Sim.address x11) Sim.mnemonic
                      (Some ("ipfs://" ++ Sim.cid_raw x11)%string))
                   (Returned (UpdateResult.mk "UPDATE-TX" 32847291)) _)).
  vm_compute. repeat (first [left; reflexivity | right]).
Defined.

(** ** More on validation *)

Module ValidationRuns.
Import StringFacts CodecFacts.
Local Open Scope string_scope.

Section Env.
Context {W : Type} (E : env W).

Ltac step :=
  cbn -[CidDecoder.fromAddressToCid CidDecoder.fromCidToAddress
        String.eqb String.prefix replace Json.lookup Json.falsy Z.eqb
        respond];
  match goal with
  | |- context [match respond E ?c ?w with _ => _ end] =>
      destruct (respond E c w) as [[?|?] ?]
  | |- context [match CidDecoder.fromAddressToCid ?a with _ => _ end] =>
      destruct (CidDecoder.fromAddressToCid a) as [?|?]
  | |- context [match CidDecoder.fromCidToAddress ?a with _ => _ end] =>
      destruct (CidDecoder.fromCidToAddress a) as [?|?]
  | |- context [Json.get _ ?a] => is_var a; destruct a
  | |- context [if negb ?b then _ else _] => destruct b eqn:?
  | |- context [if ?b then _ else _] => destruct b eqn:?
  | |- context [match AssetParams.url ?p with _ => _ end] =>
      destruct (AssetParams.url p) as [?|]
  end.

(** The run of [validateCertification] on an asset the ledger knows,
    check by check. *)
Lemma validateCertification_found (assetId : Z) (w w1 : W)
    (asset : AssetInfo.t) :
  respond E (getAssetInfo assetId) w = (Returned asset, w1) ->
  let params := AssetInfo.params asset in
  let supply := if (AssetParams.total params =? 1)%Z then []
                else [SoulboundViolation_total] in
  let clawback :=
    if String.eqb (AssetParams.clawback params) (AssetParams.creator params)
    then [] else [SoulboundViolation_clawback] in
  let conversion :=
    match rbind (CidDecoder.fromAddressToCid (AssetParams.reserve params))
            (fun cid => rbind (CidDecoder.fromCidToAddress cid)
                          (fun address => Returned (cid, address))) with
    | Returned (cid, address) =>
        (CidInfo.mk true (String.eqb address (AssetParams.reserve params))
           cid address,
         if String.eqb address (AssetParams.reserve params) then []
         else [ConversionMismatch])
    | Thrown e =>
        (CidInfo.mk false false "" "",
         ["Invalid CID conversion: " ++ message e])
    end in
  let report errors warnings info :=
    ValidationResult.mk (length errors =? 0)%nat errors warnings
      (Some asset) info (Some (fst conversion)) in
  let checked := (supply ++ clawback ++ snd conversion)%list in
  run E (validateCertification assetId) w =
    match AssetParams.url params with
    | Some url =>
        if String.prefix "ipfs://" url then
          let fetched := respond E (fetchMetadata (replace "ipfs://" "" url))
                           w1 in
          Outcome
            (Returned
               match fst fetched with
               | Thrown e =>
                   report
                     (checked ++ [("Failed to fetch IPFS metadata: "
                                   ++ message e)%string])%list
                     [] JNull
               | Returned info =>
                   match rbind (Json.get "name" info) (fun name =>
                           rbind (Json.get "description" info)
                             (fun description =>
                                Returned (name, description))) with
                   | Thrown e =>
                       report
                         (checked ++ [("Failed to fetch IPFS metadata: "
                                       ++ message e)%string])%list
                         [] info
                   | Returned (name, description) =>
                       report checked
                         ((if Json.falsy name
                           then ["Missing metadata name"] else [])
                          ++ (if Json.falsy description
                              then ["Missing metadata description"]
                              else []))%list
                         info
                   end
               end)
            (snd fetched)
            [E_getAssetInfo assetId (Returned asset);
             E_fetchMetadata (replace "ipfs://" "" url) (fst fetched)]
        else
          Outcome
            (Returned
               (report (checked ++ ["Asset URL should be IPFS URL"])%list
                  [] JNull))
            w1 [E_getAssetInfo assetId (Returned asset)]
    | None =>
        Outcome
          (Returned
             (report (checked ++ ["Asset URL should be IPFS URL"])%list
                [] JNull))
          w1 [E_getAssetInfo assetId (Returned asset)]
    end.
Proof.
  intros R. cbv zeta.
  unfold validateCertification, Validation.try, Validation.bind,
    Validation.await, Validation.lift, Validation.when, Validation.get,
    Validation.ret, Validation.push_error, Validation.push_warning,
    Validation.set_cidInfo, Validation.set_metadataInfo.
  cbn [run pbind]. rewrite R.
  cbn -[CidDecoder.fromAddressToCid CidDecoder.fromCidToAddress
        String.eqb String.prefix replace Json.get Json.falsy Z.eqb
        respond].
  repeat step.
  all: cbn -[String.eqb replace].
  all: try reflexivity.
  all: repeat match goal with
         | H : _ = _ |- _ => rewrite H
         end; try reflexivity.
Qed.


Lemma validateCertification_not_found (assetId : Z) (w w1 : W) (e : error) :
  respond E (getAssetInfo assetId) w = (Thrown e, w1) ->
  run E (validateCertification assetId) w =
    Outcome
      (Returned
         (ValidationResult.mk false
            ["Failed to validate asset: " ++ message e] [] None JNull None))
      w1 [E_getAssetInfo assetId (Thrown e)].
Proof.
  intros R. unfold validateCertification, Validation.try, Validation.bind,
    Validation.await, Validation.get, Validation.ret.
  cbn [run pbind]. rewrite R. reflexivity.
Qed.

(** X16: [validateCertification] only reads.  It asks the ledger for the
    asset, once and first; it then fetches one metadata document exactly
    when the asset was found and its URL starts with [ipfs://], under
    the URL without that prefix; it makes no other call.  For any other
    URL, or none, nothing is fetched and the result reports
    [Asset URL should be IPFS URL]. *)
Theorem validation_only_reads (assetId : Z) (w : W) :
  let o := run E (validateCertification assetId) w in
  exists found rest,
    trace o = E_getAssetInfo assetId found :: rest /\
    match found with
    | Thrown _ => rest = []
    | Returned asset =>
        match AssetParams.url (AssetInfo.params asset) with
        | Some url =>
            if String.prefix "ipfs://" url
            then exists hash fetched,
                   url = "ipfs://" ++ hash /\
                   rest = [E_fetchMetadata hash fetched]
            else rest = [] /\
                 exists v, value o = Returned v /\
                           In "Asset URL should be IPFS URL"
                              (ValidationResult.errors v)
        | None =>
            rest = [] /\
            exists v, value o = Returned v /\
                      In "Asset URL should be IPFS URL"
                         (ValidationResult.errors v)
        end
    end.
Proof.
  cbv zeta.
  destruct (respond E (getAssetInfo assetId) w) as [[asset|e] w1] eqn:R.
  2: { rewrite (@validateCertification_not_found assetId w w1 e R).
       exists (Thrown e), []. split; reflexivity. }
  rewrite (@validateCertification_found assetId w w1 asset R). cbv zeta.
  exists (Returned asset).
  destruct (AssetParams.url (AssetInfo.params asset)) as [url|].
  - destruct (String.prefix "ipfs://" url) eqn:P.
    + destruct (@prefix_split _ _ P) as (hash & ->).
      eexists. split; [reflexivity|]. exists hash. eexists.
      split; [reflexivity|].
      rewrite (replace_prefix "i" "pfs://" hash). reflexivity.
    + eexists. split; [reflexivity|]. split; [reflexivity|].
      eexists. split; [reflexivity|].
      cbn [ValidationResult.errors]. rewrite !in_app_iff. cbn. auto.
  - eexists. split; [reflexivity|]. split; [reflexivity|].
    eexists. split; [reflexivity|].
    cbn [ValidationResult.errors]. rewrite !in_app_iff. cbn. auto.
Qed.

(** X17: an asset with total supply 1, its creator as clawback, a
    reserve that is the address of a 32-byte digest and an [ipfs://] URL
    under which the storage serves an object with a name and a
    description is valid: no error, no warning, and a [cidInfo] that
    holds the raw CID of the digest and a conversion that matches. *)
Theorem healthy_certificate_is_valid (assetId : Z) (w : W)
    (asset : AssetInfo.t) (digest : list byte) (hash : string)
    (fields : list (string * json)) :
  let params := AssetInfo.params asset in
  fst (respond E (getAssetInfo assetId) w) = Returned asset ->
  AssetParams.total params = 1%Z ->
  AssetParams.clawback params = AssetParams.creator params ->
  length digest = 32 ->
  AssetParams.reserve params = Algosdk.encodeAddress digest ->
  AssetParams.url params = Some ("ipfs://" ++ hash) ->
  fst (respond E (fetchMetadata hash)
         (snd (respond E (getAssetInfo assetId) w)))
    = Returned (JObj fields) ->
  Json.falsy (Json.lookup "name" fields) = false ->
  Json.falsy (Json.lookup "description" fields) = false ->
  value (run E (validateCertification assetId) w) =
    Returned
      {| ValidationResult.isValid := true;
         ValidationResult.errors := [];
         ValidationResult.warnings := [];
         ValidationResult.assetInfo := Some asset;
         ValidationResult.metadataInfo := JObj fields;
         ValidationResult.cidInfo :=
           Some (CidInfo.mk true true
                   (Multiformats.toString (Multiformats.raw_sha256 digest))
                   (AssetParams.reserve params)) |}.
Proof.
  cbv zeta. intros R T C L A U F N D.
  destruct (respond E (getAssetInfo assetId) w) as [found w1] eqn:G.
  cbn [fst snd] in R, F. subst found.
  rewrite (@validateCertification_found assetId w w1 asset G). cbv zeta.
  rewrite U, (prefix_append "ipfs://" hash).
  rewrite (replace_prefix "i" "pfs://" hash), F.
  rewrite T, C, A, String.eqb_refl.
  rewrite CidDecoderFacts.fromAddressToCid_encodeAddress by exact L.
  cbn [rbind].
  rewrite CidDecoderFacts.fromCidToAddress_raw_sha256 by exact L.
  cbn [rbind Json.get fst snd value]. rewrite String.eqb_refl, N, D.
  reflexivity.
Qed.

(** X18: for an asset the ledger knows, the errors of the result are
    those of the four checks, in the order of the checks: total supply,
    clawback, reserve conversion, metadata.  Each check adds at most one
    error; the conversion adds none exactly when [cidInfo] reports a
    match, and the metadata check adds none exactly when a document was
    kept in [metadataInfo]; there are at most two warnings, and none when
    the metadata check failed. *)
Theorem errors_follow_the_checks (assetId : Z) (w : W)
    (asset : AssetInfo.t) :
  let params := AssetInfo.params asset in
  fst (respond E (getAssetInfo assetId) w) = Returned asset ->
  exists v conversion metadata,
    value (run E (validateCertification assetId) w) = Returned v /\
    ValidationResult.errors v =
      ((if (AssetParams.total params =? 1)%Z then []
        else [SoulboundViolation_total])
       ++ (if String.eqb (AssetParams.clawback params)
                         (AssetParams.creator params)
           then [] else [SoulboundViolation_clawback])
       ++ conversion ++ metadata)%list /\
    length conversion <= 1 /\ length metadata <= 1 /\
    (conversion = [] <->
     exists c, ValidationResult.cidInfo v = Some c /\
               CidInfo.conversionMatch c = true) /\
    (metadata = [] <-> ValidationResult.metadataInfo v <> JNull) /\
    length (ValidationResult.warnings v) <= 2 /\
    (metadata <> [] -> ValidationResult.warnings v = []).
Proof.
  cbv zeta. intros R.
  destruct (respond E (getAssetInfo assetId) w) as [found w1] eqn:G.
  cbn [fst] in R. subst found.
  rewrite (@validateCertification_found assetId w w1 asset G). cbv zeta.
  match goal with
  | |- context [match ?c with Returned _ => _ | Thrown _ => _ end] =>
      match type of c with
      | result (string * string) => set (conv := c)
      end
  end.
  assert (CV : exists ci errs,
            match conv with
            | Returned (cid, address) =>
                (CidInfo.mk true
                   (String.eqb address
                      (AssetParams.reserve (AssetInfo.params asset)))
                   cid address,
                 if String.eqb address
                      (AssetParams.reserve (AssetInfo.params asset))
                 then [] else [ConversionMismatch])
            | Thrown e =>
                (CidInfo.mk false false "" "",
                 ["Invalid CID conversion: " ++ message e])
            end = (ci, errs) /\
            length errs <= 1 /\
            (errs = [] <-> CidInfo.conversionMatch ci = true)).
  { destruct conv as [[cid address]|e].
    - destruct (String.eqb address
                  (AssetParams.reserve (AssetInfo.params asset)));
        eexists; eexists; (split; [reflexivity|]); cbn;
        (split; [lia|]); split; intros H; try reflexivity; discriminate H.
    - eexists; eexists; (split; [reflexivity|]); cbn.
      split; [lia|]. split; intros H; discriminate H. }
  destruct CV as (ci & errs & -> & Le & Ce). cbn [fst snd].
  assert (CI : errs = [] <->
               exists c, Some ci = Some c /\ CidInfo.conversionMatch c = true).
  { rewrite Ce. split.
    - intros H. exists ci. auto.
    - intros (c & H & M). injection H as <-. exact M. }
  destruct (AssetParams.url (AssetInfo.params asset)) as [url|].
  - destruct (String.prefix "ipfs://" url).
    + destruct (fst (respond E (fetchMetadata (replace "ipfs://" "" url)) w1))
        as [info|e]; cbn [value].
      * destruct info; cbn [Json.get rbind];
          try (eexists; exists errs, []; rewrite app_nil_r;
               (split; [reflexivity|]); (split; [reflexivity|]);
               cbn [ValidationResult.cidInfo ValidationResult.metadataInfo
                    ValidationResult.warnings length];
               split; [exact Le|]; split; [lia|]; split; [exact CI|];
               split; [split; [discriminate | reflexivity]|];
               split; [|intros H; contradiction];
               repeat match goal with
                      | |- context [if ?b then _ else _] => destruct b
                      end; cbn; lia).
        eexists; exists errs; eexists. rewrite <- !app_assoc.
        split; [reflexivity|]. split; [reflexivity|].
        cbn [ValidationResult.cidInfo ValidationResult.metadataInfo
             ValidationResult.warnings length].
        split; [exact Le|]. split; [lia|]. split; [exact CI|].
        split; [split; [discriminate | intros H; contradiction]|].
        split; [lia | reflexivity].
      * eexists; exists errs; eexists. rewrite <- !app_assoc.
        split; [reflexivity|]. split; [reflexivity|].
        cbn [ValidationResult.cidInfo ValidationResult.metadataInfo
             ValidationResult.warnings length].
        split; [exact Le|]. split; [lia|]. split; [exact CI|].
        split; [split; [discriminate | intros H; contradiction]|].
        split; [lia | reflexivity].
    + eexists; exists errs; eexists. rewrite <- !app_assoc.
      split; [reflexivity|]. split; [reflexivity|].
      cbn [ValidationResult.cidInfo ValidationResult.metadataInfo
           ValidationResult.warnings length].
      split; [exact Le|]. split; [lia|]. split; [exact CI|].
      split; [split; [discriminate | intros H; contradiction]|].
      split; [lia | reflexivity].
  - eexists; exists errs; eexists. rewrite <- !app_assoc.
    split; [reflexivity|]. split; [reflexivity|].
    cbn [ValidationResult.cidInfo ValidationResult.metadataInfo
         ValidationResult.warnings length].
    split; [exact Le|]. split; [lia|]. split; [exact CI|].
    split; [split; [discriminate | intros H; contradiction]|].
    split; [lia | reflexivity].
Qed.


Lemma reported_error (x : string) (l : list string) :
  In x l -> (length l =? 0)%nat = false.
Proof. destruct l; [intros [] | reflexivity]. Qed.

(** What the result holds whatever the metadata check finds. *)
Lemma validateCertification_report (assetId : Z) (w w1 : W)
    (asset : AssetInfo.t) :
  respond E (getAssetInfo assetId) w = (Returned asset, w1) ->
  let params := AssetInfo.params asset in
  let conversion :=
    match rbind (CidDecoder.fromAddressToCid (AssetParams.reserve params))
            (fun cid => rbind (CidDecoder.fromCidToAddress cid)
                          (fun address => Returned (cid, address))) with
    | Returned (cid, address) =>
        (CidInfo.mk true (String.eqb address (AssetParams.reserve params))
           cid address,
         if String.eqb address (AssetParams.reserve params) then []
         else [ConversionMismatch])
    | Thrown e =>
        (CidInfo.mk false false "" "",
         ["Invalid CID conversion: " ++ message e])
    end in
  exists errors warnings info,
    value (run E (validateCertification assetId) w) =
      Returned (ValidationResult.mk (length errors =? 0)%nat errors warnings
                  (Some asset) info (Some (fst conversion))) /\
    forall x, In x (snd conversion) -> In x errors.
Proof.
  intros R. cbv zeta.
  rewrite (@validateCertification_found assetId w w1 asset R). cbv zeta.
  destruct (AssetParams.url (AssetInfo.params asset)) as [url|].
  - destruct (String.prefix "ipfs://" url).
    + destruct (fst (respond E (fetchMetadata (replace "ipfs://" "" url)) w1))
        as [info|e]; cbn [value].
      * destruct (rbind (Json.get "name" info) _) as [[name description]|e];
          eexists; eexists; eexists; (split; [reflexivity|]);
          intros x H; rewrite !in_app_iff; auto.
      * eexists; eexists; eexists; (split; [reflexivity|]).
        intros x H; rewrite !in_app_iff; auto.
    + eexists; eexists; eexists; (split; [reflexivity|]).
      intros x H; rewrite !in_app_iff; auto.
  - eexists; eexists; eexists; (split; [reflexivity|]).
    intros x H; rewrite !in_app_iff; auto.
Qed.

(** X19: what [cidInfo] reports about the reserve of the asset.  When
    the reserve decodes as an address, the conversion to a CID and back
    cannot fail: [cidInfo] holds the raw CID of the payload and the
    address text of the payload, and the conversion matches unless the
    reserve is another text of the same payload, in which case
    [ConversionMismatch] is reported.  When the reserve does not decode,
    [cidInfo] is the invalid one and the error of the decoder is
    reported.  Either report makes the result invalid. *)
Theorem reserve_conversion_report (assetId : Z) (w : W)
    (asset : AssetInfo.t) :
  let reserve := AssetParams.reserve (AssetInfo.params asset) in
  fst (respond E (getAssetInfo assetId) w) = Returned asset ->
  exists v,
    value (run E (validateCertification assetId) w) = Returned v /\
    match Algosdk.decodeAddress reserve with
    | Returned a =>
        let canonical := Algosdk.encodeAddress (Algosdk.publicKey a) in
        ValidationResult.cidInfo v =
          Some (CidInfo.mk true (String.eqb canonical reserve)
                  (Multiformats.toString
                     (Multiformats.raw_sha256 (Algosdk.publicKey a)))
                  canonical) /\
        (reserve <> canonical ->
         In ConversionMismatch (ValidationResult.errors v) /\
         ValidationResult.isValid v = false)
    | Thrown e =>
        ValidationResult.cidInfo v = Some (CidInfo.mk false false "" "") /\
        In ("Invalid CID conversion: Failed to convert address to CID: "
            ++ message e) (ValidationResult.errors v) /\
        ValidationResult.isValid v = false
    end.
Proof.
  cbv zeta. intros R.
  destruct (respond E (getAssetInfo assetId) w) as [found w1] eqn:G.
  cbn [fst] in R. subst found.
  destruct (@validateCertification_report assetId w w1 asset G)
    as (errors & warnings & info & V & I).
  rewrite V. eexists. split; [reflexivity|].
  cbn [ValidationResult.cidInfo ValidationResult.errors
       ValidationResult.isValid].
  rewrite conversion_decoded in I |- *.
  destruct (Algosdk.decodeAddress
              (AssetParams.reserve (AssetInfo.params asset)))
    as [a|e] eqn:D; cbn [fst snd] in I |- *.
  - split; [reflexivity|]. intros N.
    assert (Q : String.eqb (Algosdk.encodeAddress (Algosdk.publicKey a))
                  (AssetParams.reserve (AssetInfo.params asset)) = false).
    { apply String.eqb_neq. congruence. }
    rewrite Q in I.
    assert (M : In ConversionMismatch errors) by (apply I; left; reflexivity).
    split; [exact M | exact (reported_error _ _ M)].
  - split; [reflexivity|].
    assert (M : In ("Invalid CID conversion: Failed to convert address to CID: "
                    ++ message e) errors) by (apply I; left; reflexivity).
    split; [exact M | exact (reported_error _ _ M)].
Qed.

(** X20: what the metadata check reports for an asset whose URL is
    [ipfs://] followed by [hash].  A rejected fetch is an error and
    leaves [metadataInfo] null, without warnings; so does a fetch that is
    answered with [null], whose error is that of reading [name] from
    [null]; any other document is kept in [metadataInfo], with one
    warning for a missing or empty name and one for a missing or empty
    description. *)
Theorem metadata_report (assetId : Z) (w : W) (asset : AssetInfo.t)
    (hash : string) :
  fst (respond E (getAssetInfo assetId) w) = Returned asset ->
  AssetParams.url (AssetInfo.params asset) = Some ("ipfs://" ++ hash) ->
  exists v,
    value (run E (validateCertification assetId) w) = Returned v /\
    match fst (respond E (fetchMetadata hash)
                 (snd (respond E (getAssetInfo assetId) w))) with
    | Thrown e =>
        ValidationResult.metadataInfo v = JNull /\
        ValidationResult.warnings v = [] /\
        In ("Failed to fetch IPFS metadata: " ++ message e)
           (ValidationResult.errors v)
    | Returned JNull =>
        ValidationResult.metadataInfo v = JNull /\
        ValidationResult.warnings v = [] /\
        In ("Failed to fetch IPFS metadata: "
            ++ "Cannot read properties of null (reading 'name')")
           (ValidationResult.errors v)
    | Returned info =>
        ValidationResult.metadataInfo v = info /\
        ValidationResult.warnings v =
          ((if Json.falsy (field "name" info)
            then ["Missing metadata name"] else [])
           ++ (if Json.falsy (field "description" info)
               then ["Missing metadata description"] else []))%list
    end.
Proof.
  intros R U.
  destruct (respond E (getAssetInfo assetId) w) as [found w1] eqn:G.
  cbn [fst snd] in *. subst found.
  rewrite (@validateCertification_found assetId w w1 asset G). cbv zeta.
  rewrite U, (prefix_append "ipfs://" hash).
  rewrite (replace_prefix "i" "pfs://" hash). cbn [value].
  eexists. split; [reflexivity|].
  destruct (fst (respond E (fetchMetadata hash) w1)) as [info|e].
  - destruct info; cbn [Json.get rbind field ValidationResult.metadataInfo
                        ValidationResult.warnings ValidationResult.errors];
      try (split; reflexivity).
    split; [reflexivity|]. split; [reflexivity|].
    rewrite !in_app_iff. cbn. auto.
  - cbn [ValidationResult.metadataInfo ValidationResult.warnings
         ValidationResult.errors].
    split; [reflexivity|]. split; [reflexivity|].
    rewrite !in_app_iff. cbn. auto.
Qed.

End Env.
End ValidationRuns.


(** X17 on a simulated ledger and storage that hold a certificate. *)
Lemma healthy_certificate_is_valid_witness :
  value (run Sim.E (validateCertification 1001)
           (Demo.certified (Sim.address x00) Demo.certificate)) =
    Returned
      {| ValidationResult.isValid := true;
         ValidationResult.errors := [];
         ValidationResult.warnings := [];
         ValidationResult.assetInfo :=
           Some (AssetInfo.mk 1001 (Sim.soulbound (Sim.address x00)));
         ValidationResult.metadataInfo := Demo.certificate;
         ValidationResult.cidInfo :=
           Some (CidInfo.mk true true (Sim.cid_raw x00) (Sim.address x00)) |}.
Proof.
  apply (@ValidationRuns.healthy_certificate_is_valid
           _ Sim.E 1001%Z (Demo.certified (Sim.address x00) Demo.certificate)
           (AssetInfo.mk 1001 (Sim.soulbound (Sim.address x00)))
           (repeat x00 32) Sim.cid_v0
           [("name"%string, JStr "Contratto");
            ("description"%string, JStr "Contratto di affitto")]);
    vm_compute; reflexivity.
Defined.

(** X18 on the simulated ledger: an asset with a foreign clawback and
    nothing behind its URL. *)
Lemma errors_follow_the_checks_witness :
  exists v,
    value (run Sim.E (validateCertification 1001)
             (Sim.holding 1001 Sim.foreign_clawback [] [])) = Returned v /\
    ValidationResult.errors v =
      [SoulboundViolation_clawback;
       "Failed to fetch IPFS metadata: not found"%string].
Proof.
  destruct (@ValidationRuns.errors_follow_the_checks
              _ Sim.E 1001%Z (Sim.holding 1001 Sim.foreign_clawback [] [])
              (AssetInfo.mk 1001 Sim.foreign_clawback))
    as (v & conversion & metadata & V & _); [vm_compute; reflexivity|].
  exists v. split; [exact V|].
  vm_compute in V. injection V as <-. reflexivity.
Defined.

(** X19 on an asset whose reserve is not the text [encodeAddress]
    writes. *)
Lemma reserve_conversion_report_witness :
  exists v,
    value (run Sim.E (validateCertification 1001)
             (Demo.certified Demo.uncanonical_address Demo.certificate))
      = Returned v /\
    ValidationResult.cidInfo v =
      Some (CidInfo.mk true false (Sim.cid_raw x00) Sim.creatorAddress) /\
    In ConversionMismatch (ValidationResult.errors v).
Proof.
  pose proof (@ValidationRuns.reserve_conversion_report
                _ Sim.E 1001%Z
                (Demo.certified Demo.uncanonical_address Demo.certificate)
                (AssetInfo.mk 1001 (Sim.soulbound Demo.uncanonical_address)))
    as H.
  cbv zeta in H.
  assert (R : fst (respond Sim.E (getAssetInfo 1001)
                     (Demo.certified Demo.uncanonical_address
                        Demo.certificate))
              = Returned (AssetInfo.mk 1001
                            (Sim.soulbound Demo.uncanonical_address)))
    by (vm_compute; reflexivity).
  specialize (H R). vm_compute in H.
  destruct H as (v & V & C & M).
  exists v. split; [vm_compute; exact V|].
  split; [vm_compute; exact C|].
  apply M. discriminate.
Defined.

(** X20 on a storage that serves [null] under the identifier. *)
Lemma metadata_report_witness :
  exists v,
    value (run Sim.E (validateCertification 1001)
             (Demo.certified (Sim.address x00) JNull)) = Returned v /\
    ValidationResult.metadataInfo v = JNull /\
    ValidationResult.warnings v = [] /\
    In ("Failed to fetch IPFS metadata: "
        ++ "Cannot read properties of null (reading 'name')")%string
       (ValidationResult.errors v).
Proof.
  apply (@ValidationRuns.metadata_report
           _ Sim.E 1001%Z (Demo.certified (Sim.address x00) JNull)
           (AssetInfo.mk 1001 (Sim.soulbound (Sim.address x00)))
           Sim.cid_v0); vm_compute; reflexivity.
Defined.

(** ** The metadata cache *)

Module MetadataCacheFacts.
Import MetadataCache.

Lemma get_set_eq (cid : string) (v : entry) (m : t) :
  get cid (set cid v m) = Some v.
Proof.
  induction m as [|[k x] rest IH]; cbn.
  - rewrite String.eqb_refl. reflexivity.
  - destruct (String.eqb k cid) eqn:K; cbn; rewrite K; [reflexivity | exact IH].
Qed.

Lemma get_set_neq (cid cid' : string) (v : entry) (m : t) :
  cid <> cid' -> get cid' (set cid v m) = get cid' m.
Proof.
  intros N. induction m as [|[k x] rest IH]; cbn.
  - apply String.eqb_neq in N. rewrite N. reflexivity.
  - destruct (String.eqb k cid) eqn:K; cbn.
    + apply String.eqb_eq in K. subst k.
      apply String.eqb_neq in N. rewrite N. reflexivity.
    + destruct (String.eqb k cid'); [reflexivity | exact IH].
Qed.

Section Collaborators.
Context {W : Type} (E : env W) (Date_now : W -> Z * W).

Let call (cid : string) (cache : t) (w : W) : json * state W :=
  getCachedMetadata E Date_now cid (State cache w []).

(** The run of a call, case by case. *)
Lemma getCachedMetadata_run (cid : string) (cache : t) (w : W) :
  let refetch (w0 : W) (log : list event) :=
    let fetched := respond E (fetchMetadata cid) w0 in
    match fst fetched with
    | Returned metadata =>
        let clock := Date_now (snd fetched) in
        (metadata,
         State (set cid (Entry metadata (fst clock)) cache) (snd clock)
           (log ++ [E_fetchMetadata cid (Returned metadata);
                    E_Date_now (fst clock)]))
    | Thrown e =>
        (JNull,
         State cache (snd fetched) (log ++ [E_fetchMetadata cid (Thrown e)]))
    end in
  call cid cache w =
    match get cid cache with
    | Some c =>
        let clock := Date_now w in
        if (fst clock - timestamp c <? CACHE_TTL)%Z
        then (data c, State cache (snd clock) [E_Date_now (fst clock)])
        else refetch (snd clock) [E_Date_now (fst clock)]
    | None => refetch w []
    end.
Proof.
  cbv zeta.
  unfold call, getCachedMetadata, bind, cache_get, cache_set, read_clock,
    await_fetchMetadata, ret.
  cbn. destruct (get cid cache) as [c|]; cbn.
  - destruct (Date_now w) as [ms w1]. cbn.
    match goal with
    | |- context [if ?b then _ else _] => destruct b
    end; [reflexivity|]. cbn.
    destruct (respond E (fetchMetadata cid) w1) as [[metadata|e] w2]; cbn;
      [|reflexivity].
    destruct (Date_now w2) as [ms2 w3]. reflexivity.
  - destruct (respond E (fetchMetadata cid) w) as [[metadata|e] w2]; cbn;
      [|reflexivity].
    destruct (Date_now w2) as [ms2 w3]. reflexivity.
Qed.

(** X21: a cached entry younger than five minutes is served as it is:
    the call returns its data after one clock reading, fetches nothing
    and leaves the cache as it was. *)
Theorem fresh_entry_is_served (cid : string) (cache : t) (w : W)
    (c : entry) :
  get cid cache = Some c ->
  (fst (Date_now w) - timestamp c < CACHE_TTL)%Z ->
  call cid cache w =
    (data c, State cache (snd (Date_now w)) [E_Date_now (fst (Date_now w))]).
Proof.
  intros G F. rewrite getCachedMetadata_run. cbv zeta. rewrite G.
  apply Z.ltb_lt in F. rewrite F. reflexivity.
Qed.

(** X22: whenever [getCachedMetadata] fetched a document, it returns
    that document and the cache holds it under the identifier asked for,
    stamped with a clock reading taken after the fetch was answered,
    which is the last thing the call does; the entries of the other
    identifiers are untouched. *)
Theorem fetched_metadata_is_cached (cid : string) (cache : t) (w : W)
    (metadata : json) :
  In (E_fetchMetadata cid (Returned metadata)) (seen (snd (call cid cache w))) ->
  exists log ms,
    seen (snd (call cid cache w))
      = (log ++ [E_fetchMetadata cid (Returned metadata); E_Date_now ms])%list /\
    fst (call cid cache w) = metadata /\
    get cid (metadataCache (snd (call cid cache w)))
      = Some (Entry metadata ms) /\
    forall other,
      other <> cid ->
      get other (metadataCache (snd (call cid cache w))) = get other cache.
Proof.
  rewrite getCachedMetadata_run. cbv zeta.
  destruct (get cid cache) as [c|].
  - destruct (fst (Date_now w) - timestamp c <? CACHE_TTL)%Z.
    + cbn. intros [H|[]]. discriminate H.
    + destruct (fst (respond E (fetchMetadata cid) (snd (Date_now w))))
        as [m|e]; cbn [fst snd seen metadataCache app In].
      * intros [H|[H|[H|[]]]]; try discriminate H.
        injection H as <-.
        eexists [_], _. split; [reflexivity|]. split; [reflexivity|].
        split; [apply get_set_eq|]. intros other N. apply get_set_neq, not_eq_sym, N.
      * intros [H|[H|[]]]; discriminate H.
  - destruct (fst (respond E (fetchMetadata cid) w)) as [m|e];
      cbn [fst snd seen metadataCache app In].
    + intros [H|[H|[]]]; try discriminate H.
      injection H as <-.
      exists [], (fst (Date_now (snd (respond E (fetchMetadata cid) w)))).
      split; [reflexivity|]. split; [reflexivity|].
      split; [apply get_set_eq|]. intros other N. apply get_set_neq, not_eq_sym, N.
    + intros [H|[]]. discriminate H.
Qed.

(** X23: when the fetch is rejected, [getCachedMetadata] returns [null]
    and leaves the cache as it was: an entry that is too old is neither
    served nor removed. *)
Theorem failed_fetch_returns_null (cid : string) (cache : t) (w : W)
    (e : error) :
  In (E_fetchMetadata cid (Thrown e)) (seen (snd (call cid cache w))) ->
  fst (call cid cache w) = JNull /\
  metadataCache (snd (call cid cache w)) = cache.
Proof.
  rewrite getCachedMetadata_run. cbv zeta.
  destruct (get cid cache) as [c|].
  - destruct (fst (Date_now w) - timestamp c <? CACHE_TTL)%Z.
    + cbn. intros [H|[]]. discriminate H.
    + destruct (fst (respond E (fetchMetadata cid) (snd (Date_now w))))
        as [m|e']; cbn [fst snd seen metadataCache app In].
      * intros [H|[H|[H|[]]]]; discriminate H.
      * auto.
  - destruct (fst (respond E (fetchMetadata cid) w)) as [m|e'];
      cbn [fst snd seen metadataCache app In].
    + intros [H|[H|[]]]; discriminate H.
    + auto.
Qed.

(** X24: after a call that fetched a document, a second call for the
    same identifier, whose clock reading is less than five minutes after
    the readings of the first, returns the same document without
    fetching anything. *)
Theorem cached_metadata_is_served_again (cid : string) (cache : t) (w : W)
    (metadata : json) :
  let first := call cid cache w in
  let clock := Date_now (collaborators (snd first)) in
  In (E_fetchMetadata cid (Returned metadata)) (seen (snd first)) ->
  (forall ms, In (E_Date_now ms) (seen (snd first)) ->
              (fst clock - ms < CACHE_TTL)%Z) ->
  call cid (metadataCache (snd first)) (collaborators (snd first)) =
    (metadata,
     State (metadataCache (snd first)) (snd clock) [E_Date_now (fst clock)]).
Proof.
  cbv zeta. intros F T.
  assert (G : exists ms,
            get cid (metadataCache (snd (call cid cache w)))
              = Some (Entry metadata ms) /\
            In (E_Date_now ms) (seen (snd (call cid cache w)))).
  { revert F. clear T. rewrite getCachedMetadata_run. cbv zeta.
    destruct (get cid cache) as [c|].
    - destruct (fst (Date_now w) - timestamp c <? CACHE_TTL)%Z.
      + cbn. intros [H|[]]. discriminate H.
      + destruct (fst (respond E (fetchMetadata cid) (snd (Date_now w))))
          as [m|e]; cbn [fst snd seen metadataCache app In].
        * intros [H|[H|[H|[]]]]; try discriminate H.
          injection H as <-. eexists. split; [apply get_set_eq|]. auto.
        * intros [H|[H|[]]]; discriminate H.
    - destruct (fst (respond E (fetchMetadata cid) w)) as [m|e];
        cbn [fst snd seen metadataCache app In].
      + intros [H|[H|[]]]; try discriminate H.
        injection H as <-. eexists. split; [apply get_set_eq|]. auto.
      + intros [H|[]]. discriminate H. }
  destruct G as (ms & G & I).
  rewrite (getCachedMetadata_run cid (metadataCache (snd (call cid cache w)))).
  cbv zeta. rewrite G. cbn [timestamp data].
  specialize (T ms I). apply Z.ltb_lt in T. rewrite T. reflexivity.
Qed.

End Collaborators.
End MetadataCacheFacts.


(** X21 on a cache that holds a certificate stamped four minutes
    before the clock reading. *)
Lemma fresh_entry_is_served_witness :
  MetadataCache.getCachedMetadata Demo.clocked Demo.Date_now Sim.cid_v0
    (MetadataCache.State
       [(Sim.cid_v0, MetadataCache.Entry Demo.certificate 60000)]
       (Sim.fresh 1 [], [300000%Z]) [])
  = (Demo.certificate,
     MetadataCache.State
       [(Sim.cid_v0, MetadataCache.Entry Demo.certificate 60000)]
       (Sim.fresh 1 [], []) [MetadataCache.E_Date_now 300000]).
Proof.
  apply (@MetadataCacheFacts.fresh_entry_is_served
           _ Demo.clocked Demo.Date_now Sim.cid_v0
           [(Sim.cid_v0, MetadataCache.Entry Demo.certificate 60000)]
           (Sim.fresh 1 [], [300000%Z])
           (MetadataCache.Entry Demo.certificate 60000)).
  - reflexivity.
  - vm_compute. reflexivity.
Defined.

(** X22 on an entry that is five minutes old: the document is fetched
    again and stamped with the second clock reading. *)
Lemma fetched_metadata_is_cached_witness :
  MetadataCache.get Sim.cid_v0
    (MetadataCache.metadataCache
       (snd (MetadataCache.getCachedMetadata Demo.clocked Demo.Date_now
               Sim.cid_v0
               (MetadataCache.State
                  [(Sim.cid_v0, MetadataCache.Entry JNull 0)]
                  (Demo.certified Sim.creatorAddress Demo.certificate,
                   [300000%Z; 300450%Z]) []))))
  = Some (MetadataCache.Entry Demo.certificate 300450).
Proof.
  destruct (@MetadataCacheFacts.fetched_metadata_is_cached
              _ Demo.clocked Demo.Date_now Sim.cid_v0
              [(Sim.cid_v0, MetadataCache.Entry JNull 0)]
              (Demo.certified Sim.creatorAddress Demo.certificate,
               [300000%Z; 300450%Z])
              Demo.certificate)
    as (log & ms & S & _ & G & _).
  - vm_compute. repeat (first [left; reflexivity | right]).
  - vm_compute. reflexivity.
Defined.

(** X23 on a storage that does not hold the document, and a cache whose
    entry is too old. *)
Lemma failed_fetch_returns_null_witness :
  fst (MetadataCache.getCachedMetadata Demo.clocked Demo.Date_now
         Sim.cid_v0
         (MetadataCache.State
            [(Sim.cid_v0, MetadataCache.Entry Demo.certificate 0)]
            (Sim.fresh 1 [], [300000%Z]) []))
    = JNull /\
  MetadataCache.metadataCache
    (snd (MetadataCache.getCachedMetadata Demo.clocked Demo.Date_now
            Sim.cid_v0
            (MetadataCache.State
               [(Sim.cid_v0, MetadataCache.Entry Demo.certificate 0)]
               (Sim.fresh 1 [], [300000%Z]) [])))
    = [(Sim.cid_v0, MetadataCache.Entry Demo.certificate 0)].
Proof.
  apply (@MetadataCacheFacts.failed_fetch_returns_null
           _ Demo.clocked Demo.Date_now Sim.cid_v0
           [(Sim.cid_v0, MetadataCache.Entry Demo.certificate 0)]
           (Sim.fresh 1 [], [300000%Z]) (Error "not found")).
  vm_compute. repeat (first [left; reflexivity | right]).
Defined.

(** X24 on an empty cache: the first call fetches, the second, four
    minutes later, does not. *)
Lemma cached_metadata_is_served_again_witness :
  fst (MetadataCache.getCachedMetadata Demo.clocked Demo.Date_now
         Sim.cid_v0
         (MetadataCache.State
            [(Sim.cid_v0, MetadataCache.Entry Demo.certificate 1000)]
            (Demo.certified Sim.creatorAddress Demo.certificate,
             [241000%Z])
            []))
    = Demo.certificate.
Proof.
  refine (f_equal fst
            (@MetadataCacheFacts.cached_metadata_is_served_again
               _ Demo.clocked Demo.Date_now Sim.cid_v0 []
               (Demo.certified Sim.creatorAddress Demo.certificate,
                [1000%Z; 241000%Z])
               Demo.certificate _ _)).
  - vm_compute. repeat (first [left; reflexivity | right]).
  - intros ms H. vm_compute in H.
    destruct H as [H|[H|[]]]; [discriminate H|].
    injection H as <-. vm_compute. reflexivity.
Defined.

(** ** The reserve update of the minting guide *)

Module ReserveUpdateFacts.
Import Multiformats MultiformatsFacts Algosdk AlgosdkFacts.
Import CidDecoder CidDecoderFacts CodecFacts.
Local Open Scope string_scope.

Section Env.
Variable mnemonic : string.
Context {W : Type} (E : env W).

(** The run of [updateAssetWithCID], step by step, on an empty
    console. *)
Lemma updateAssetWithCID_run (assetId : Z) (metadataCID : string) (w : W) :
  let o := run E (updateAssetWithCID mnemonic assetId metadataCID []) w in
  match fromCidToAddress metadataCID with
  | Thrown e => o = Outcome (Thrown e, []) w []
  | Returned reserveAddress =>
      let updateParams :=
        UpdateReserve.mk assetId reserveAddress mnemonic
          (Some ("ipfs://" ++ metadataCID)) in
      let answer := fst (respond E (updateAssetReserve updateParams) w) in
      trace o = [E_updateAssetReserve updateParams answer] /\
      match answer with
      | Thrown e => value o = (Thrown e, [])
      | Returned result =>
          exists verified,
            value o = (Returned result,
                       ["✓ CID conversion verified: "
                        ++ Console.boolean verified]) /\
            (verified = true <->
             exists digest,
               length digest = 32 /\
               metadataCID = toString (raw_sha256 digest))
      end
  end.
Proof.
  cbv zeta. unfold updateAssetWithCID, Console.bind, Console.lift,
    Console.await, Console.log, Console.ret.
  cbn [pbind fst snd].
  destruct (fromCidToAddress metadataCID) as [reserveAddress|e] eqn:A;
    [|reflexivity].
  cbn [pbind fst snd run].
  match goal with
  | |- context [respond E (updateAssetReserve ?q) w] =>
      destruct (respond E (updateAssetReserve q) w) as [[result|e] w1]
  end; cbn [fst snd]; [|cbn; auto].
  destruct (@fromCidToAddress_returned _ _ A) as (cid & P & C & L & ->).
  rewrite fromAddressToCid_encodeAddress by exact L.
  cbn [pbind fst snd run value trace log_call app].
  split; [reflexivity|]. eexists. split; [reflexivity|].
  rewrite String.eqb_eq. split.
  - intros <-. eauto.
  - intros (d & Ld & ->).
    rewrite (parse_toString_raw_sha256 d Ld) in P. injection P as <-.
    reflexivity.
Qed.

(** X25: [updateAssetWithCID] calls the ledger only with a CID that
    converts, and then exactly once: for the asset it was given, with the
    address the CID converts to, the manager credentials and the URL
    [ipfs://] followed by the CID.  A rejected update rejects the call
    with the same error, and nothing is written to the console. *)
Theorem updateAssetWithCID_writes_the_address (assetId : Z)
    (metadataCID : string) (w : W) (p : UpdateReserve.t)
    (r : result UpdateResult.t) :
  let o := run E (updateAssetWithCID mnemonic assetId metadataCID []) w in
  In (E_updateAssetReserve p r) (trace o) ->
  trace o = [E_updateAssetReserve p r] /\
  fromCidToAddress metadataCID
    = Returned (UpdateReserve.newReserveAddress p) /\
  p = UpdateReserve.mk assetId (UpdateReserve.newReserveAddress p) mnemonic
        (Some ("ipfs://" ++ metadataCID)) /\
  forall e, r = Thrown e -> value o = (Thrown e, []).
Proof.
  cbv zeta. intros H.
  pose proof (updateAssetWithCID_run assetId metadataCID w) as R.
  cbv zeta in R.
  destruct (fromCidToAddress metadataCID) as [reserveAddress|e0].
  2: { rewrite R in H. destruct H. }
  destruct R as (T & V). rewrite T in H |- *.
  destruct H as [H|[]].
  assert (Hp : UpdateReserve.mk assetId reserveAddress mnemonic
                 (Some ("ipfs://" ++ metadataCID)) = p)
    by (injection H as H _; exact H).
  assert (Hr : fst (respond E
                      (updateAssetReserve
                         (UpdateReserve.mk assetId reserveAddress mnemonic
                            (Some ("ipfs://" ++ metadataCID)))) w) = r)
    by (injection H as _ H; exact H).
  rewrite Hr in V |- *. subst p.
  split; [reflexivity|]. split; [reflexivity|]. split; [reflexivity|].
  intros e Q. rewrite Q in V. exact V.
Qed.

(** X26: once the ledger has accepted the update, [updateAssetWithCID]
    returns the answer of the ledger, whatever the check of the reverse
    conversion finds, and that check cannot throw.  It writes one line to
    the console, which says [true] exactly when the CID it was given is
    the base32 text of a version-1 raw CID with a sha2-256 multihash of
    32 bytes, and [false] otherwise, as for every version-0 CID. *)
Theorem conversion_verdict_is_logged (assetId : Z) (metadataCID : string)
    (w : W) (p : UpdateReserve.t) (result : UpdateResult.t) :
  let o := run E (updateAssetWithCID mnemonic assetId metadataCID []) w in
  In (E_updateAssetReserve p (Returned result)) (trace o) ->
  exists verified,
    value o = (Returned result,
               ["✓ CID conversion verified: " ++ Console.boolean verified]) /\
    (verified = true <->
     exists digest,
       length digest = 32 /\ metadataCID = toString (raw_sha256 digest)).
Proof.
  cbv zeta. intros H.
  pose proof (updateAssetWithCID_run assetId metadataCID w) as R.
  cbv zeta in R.
  destruct (fromCidToAddress metadataCID) as [reserveAddress|e0].
  2: { rewrite R in H. destruct H. }
  destruct R as (T & V). rewrite T in H.
  destruct H as [H|[]].
  assert (Hr : fst (respond E
                      (updateAssetReserve
                         (UpdateReserve.mk assetId reserveAddress mnemonic
                            (Some ("ipfs://" ++ metadataCID)))) w)
               = Returned result)
    by (injection H as _ H; exact H).
  rewrite Hr in V. exact V.
Qed.

End Env.
End ReserveUpdateFacts.

(** X25 on the simulated ledger. *)
Lemma updateAssetWithCID_writes_the_address_witness :
  CidDecoder.fromCidToAddress Sim.cid_v0
    = Returned "TVWCXZIPOBUVGR42XHPSZY7NZKILNACTYAFTABFX6CWMXYPI53PZ7JBOHE"%string.
Proof.
  refine (proj1 (proj2 (@ReserveUpdateFacts.updateAssetWithCID_writes_the_address
                          Sim.mnemonic _ Sim.E 1001%Z Sim.cid_v0 Sim.quiet
                          (UpdateReserve.mk 1001
                             "TVWCXZIPOBUVGR42XHPSZY7NZKILNACTYAFTABFX6CWMXYPI53PZ7JBOHE"
                             Sim.mnemonic
                             (Some ("ipfs://" ++ Sim.cid_v0)%string))
                          (Returned (UpdateResult.mk "UPDATE-TX" 32847291))
                          _))).
  vm_compute. left. reflexivity.
Defined.

(** X26 on the simulated ledger, for a version-0 CID: the update is made
    and the line says [false]. *)
Lemma conversion_verdict_is_logged_witness :
  value (run Sim.E (updateAssetWithCID Sim.mnemonic 1001 Sim.cid_v0 [])
           Sim.quiet)
    = (Returned (UpdateResult.mk "UPDATE-TX" 32847291),
       ["✓ CID conversion verified: false"%string]).
Proof.
  destruct (@ReserveUpdateFacts.conversion_verdict_is_logged
              Sim.mnemonic _ Sim.E 1001%Z Sim.cid_v0 Sim.quiet
              (UpdateReserve.mk 1001
                 "TVWCXZIPOBUVGR42XHPSZY7NZKILNACTYAFTABFX6CWMXYPI53PZ7JBOHE"
                 Sim.mnemonic (Some ("ipfs://" ++ Sim.cid_v0)%string))
              (UpdateResult.mk "UPDATE-TX" 32847291))
    as (verified & V & _).
  - vm_compute. left. reflexivity.
  - vm_compute. reflexivity.
Defined.

(** ** The metadata document *)

Module MetadataFacts.
Import RunFacts.
Local Open Scope string_scope.

Lemma or_truthy (a : option json) (b : json) :
  Json.falsy (Some b) = false -> Json.falsy (Some (Js.or a b)) = false.
Proof.
  intros B. unfold Js.or. destruct a as [v|]; [|exact B].
  destruct (Json.falsy (Some v)) eqn:F; assumption.
Qed.

Lemma get_optional (key : string) (v : json) :
  v <> JNull -> Json.get key v = Returned (Js.optional key (Some v)).
Proof. destruct v; intros N; try reflexivity. contradiction. Qed.

Lemma returned_inj (A : Type) (a b : A) : Returned a = Returned b -> a = b.
Proof. intros H. injection H as H. exact H. Qed.

Lemma json_null_dec (v : json) : {v = JNull} + {v <> JNull}.
Proof. destruct v; (left; reflexivity) || (right; discriminate). Qed.

Section Env.
Variable gateway : string.
Context {W : Type} (E : env W).

Let prepare := prepareCertificationMetadata gateway.

Ltac run_metadata N :=
  unfold prepare, prepareCertificationMetadata, Js.or_else;
  rewrite ?(get_optional _ N);
  repeat match goal with
         | |- context [match ?a with Some _ => _ | None => _ end] =>
             destruct a eqn:?
         | |- context [if Json.falsy ?a then _ else _] =>
             destruct (Json.falsy a) eqn:?
         end;
  repeat (rewrite ?run_bind, ?run_lift, ?run_perform;
          cbn [value world trace Async.ret run app];
          try match goal with
              | |- context [match Js.String ?x with _ => _ end] =>
                  destruct (Js.String x) eqn:?
              end).

Lemma null_form_data (certificationData : json)
    (fileHashes : list FileHash.t) (w : W) :
  exists key,
    run E (prepare JNull certificationData fileHashes) w =
      Outcome
        (Thrown (Error ("Cannot read properties of null (reading '"
                        ++ key ++ "')")))
        w [].
Proof.
  unfold prepare, prepareCertificationMetadata, Js.or_else.
  destruct (Js.optional "title" (Some certificationData)) as [title|];
    [destruct (Json.falsy (Some title))|];
    eexists; reflexivity.
Qed.

(** X27: whenever [prepareCertificationMetadata] returns, the document
    has six attributes, in the order Asset Type, Author, Creation Date,
    Organization, Asset Name, Unit Name, and the value of none of them is
    missing, null, empty, zero or [false]: what the form and the
    certification data do not give is written as [Unknown]. *)
Theorem attribute_values_are_never_empty (formData certificationData : json)
    (fileHashes : list FileHash.t) (w : W) (doc : json) :
  value (run E (prepare formData certificationData fileHashes) w)
    = Returned doc ->
  exists attributes,
    field "attributes" doc = Some (JArr attributes) /\
    map (field "trait_type") attributes =
      [Some (JStr "Asset Type"); Some (JStr "Author");
       Some (JStr "Creation Date"); Some (JStr "Organization");
       Some (JStr "Asset Name"); Some (JStr "Unit Name")] /\
    Forall (fun attribute =>
              exists value,
                field "value" attribute = Some value /\
                Json.falsy (Some value) = false) attributes.
Proof.
  destruct (json_null_dec formData) as [->|N].
  { destruct (null_form_data certificationData fileHashes w) as (key & R).
    rewrite R. discriminate. }
  run_metadata N.
  all: intros H; try discriminate H; apply returned_inj in H; subst doc.
  all: eexists; (split; [reflexivity|]); (split; [reflexivity|]).
  all: repeat (constructor;
               [eexists; split; [reflexivity | apply or_truthy; reflexivity]|]).
  all: constructor.
Qed.

(** X28: [prepareCertificationMetadata] returns exactly when the form
    data is not [null] and the three values it writes as text have one:
    the asset name behind a missing title, the description and the unique
    id.  Whatever it throws, it throws before it reads the clock.  When it
    returns it has read the clock twice: the first reading is the
    [timestamp] of [properties.form_data], over any timestamp the form
    data holds, whose other keys are those of the form data unchanged;
    the second reading is [uploaded_at] in [properties.ipfs_info]. *)
Theorem metadata_reads_the_clock_twice (formData certificationData : json)
    (fileHashes : list FileHash.t) (w : W) :
  let o := run E (prepare formData certificationData fileHashes) w in
  ((exists doc, value o = Returned doc) <->
   formData <> JNull /\
   (Json.falsy (Js.optional "title" (Some certificationData)) = true ->
    is_fulfilled
      (Js.String (Some (Js.or (Js.optional "assetName" (Some formData))
                          (JStr "Certified Asset")))) = true) /\
   is_fulfilled (Js.String (Js.optional "description" (Some formData)))
     = true /\
   is_fulfilled (Js.String (Js.optional "unique_id" (Some certificationData)))
     = true) /\
  (forall e, value o = Thrown e -> trace o = []) /\
  (forall doc,
     value o = Returned doc ->
     exists properties form_data ipfs_info timestamp uploaded_at,
       trace o = [E_now timestamp; E_now uploaded_at] /\
       field "properties" doc = Some properties /\
       field "form_data" properties = Some form_data /\
       field "ipfs_info" properties = Some ipfs_info /\
       field "timestamp" form_data = Some (JStr timestamp) /\
       field "uploaded_at" ipfs_info = Some (JStr uploaded_at) /\
       forall key,
         key <> "timestamp" ->
         field key form_data = Json.lookup key (Json.spread formData)).
Proof.
  cbv zeta.
  destruct (json_null_dec formData) as [->|N].
  { destruct (null_form_data certificationData fileHashes w) as (key & R).
    rewrite R. cbn [value trace].
    split; [split; [intros [doc H]; discriminate H
                   | intros (N & _); contradiction]|].
    split; [reflexivity | discriminate]. }
  run_metadata N.
  all: cbn [is_fulfilled Json.falsy].
  all: split;
    [split;
     [intros [doc H]; try discriminate H;
      (split; [exact N|]);
      (split; [first [intros Q; discriminate Q | intros _; reflexivity]|]);
      split; reflexivity
     | intros (_ & A & B & C); try discriminate; try (eexists; reflexivity);
       try (discriminate (A eq_refl))]|].
  all: split; [intros e' H; try discriminate H; reflexivity|].
  all: intros doc H; try discriminate H; apply returned_inj in H; subst doc.
  all: do 5 eexists.
  all: split; [reflexivity|]; split; [reflexivity|].
  all: split; [reflexivity|]; split; [reflexivity|].
  all: split; [apply VersioningFacts.lookup_set_eq|].
  all: split; [reflexivity|].
  all: intros key K; apply VersioningFacts.lookup_set_neq, not_eq_sym, K.
Qed.

(** X29: what the document holds for what is missing: a form without a
    description gives the description [undefined], certification data
    without a [unique_id] give an external URL that ends in [undefined],
    and without a title and an asset name the name is
    [Certified Asset]. *)
Theorem missing_fields_are_written_as_undefined
    (formData certificationData : json) (fileHashes : list FileHash.t)
    (w : W) (doc : json) :
  value (run E (prepare formData certificationData fileHashes) w)
    = Returned doc ->
  (Js.optional "description" (Some formData) = None ->
   field "description" doc = Some (JStr "undefined")) /\
  (Js.optional "unique_id" (Some certificationData) = None ->
   field "external_url" doc
     = Some (JStr "https://artcertify.com/cert/undefined")) /\
  (Json.falsy (Js.optional "title" (Some certificationData)) = true ->
   Json.falsy (Js.optional "assetName" (Some formData)) = true ->
   field "name" doc = Some (JStr "Certified Asset")).
Proof.
  destruct (json_null_dec formData) as [->|N].
  { destruct (null_form_data certificationData fileHashes w) as (key & R).
    rewrite R. discriminate. }
  run_metadata N.
  all: intros H; try discriminate H; apply returned_inj in H; subst doc;
    cbn [field Json.lookup String.eqb Ascii.eqb Bool.eqb].
  all: split;
    [intros Q;
     match goal with
     | K : Js.String (Js.optional "description" _) = _ |- _ =>
         rewrite Q in K; apply returned_inj in K; rewrite <- K; reflexivity
     end|].
  all: split;
    [intros Q;
     match goal with
     | K : Js.String (Js.optional "unique_id" _) = _ |- _ =>
         rewrite Q in K; apply returned_inj in K; rewrite <- K; reflexivity
     end|].
  all: intros T A; try (cbn in T; congruence).
  all: match goal with
       | K : Js.String (Some (Js.or _ _)) = _ |- _ =>
           unfold Js.or in K;
           destruct (Js.optional "assetName" (Some formData));
           try rewrite A in K; apply returned_inj in K; rewrite <- K;
           reflexivity
       end.
Qed.

(** X30: the document lists every file hash, in order, by name, IPFS URL
    and gateway URL, and counts them in [total_files]; its image is the
    IPFS URL of the hash of the first file, and its animation URL the
    IPFS URL of the first PDF, each empty when there is no such file. *)
Theorem every_file_is_listed (formData certificationData : json)
    (fileHashes : list FileHash.t) (w : W) (doc : json) :
  value (run E (prepare formData certificationData fileHashes) w)
    = Returned doc ->
  exists properties ipfs_info,
    field "properties" doc = Some properties /\
    field "files_metadata" properties =
      Some (JArr (map (fun file =>
                         JObj [("name", JStr (FileHash.name file));
                               ("ipfsUrl", JStr (FileHash.ipfsUrl file));
                               ("gatewayUrl",
                                JStr (FileHash.gatewayUrl file))])
                    fileHashes)) /\
    field "ipfs_info" properties = Some ipfs_info /\
    field "total_files" ipfs_info
      = Some (JNum (Z.of_nat (length fileHashes))) /\
    field "image" doc =
      Some (JStr match fileHashes with
                 | first :: _ => "ipfs://" ++ FileHash.hash first
                 | [] => ""
                 end) /\
    field "animation_url" doc =
      Some (JStr match find (fun f => String.eqb (FileHash.type f)
                                        "application/pdf") fileHashes with
                 | Some pdf => FileHash.ipfsUrl pdf
                 | None => ""
                 end).
Proof.
  destruct (json_null_dec formData) as [->|N].
  { destruct (null_form_data certificationData fileHashes w) as (key & R).
    rewrite R. discriminate. }
  unfold prepare, prepareCertificationMetadata.
  destruct (find (fun f => String.eqb (FileHash.type f) "application/pdf")
              fileHashes) as [pdf|]; cbn [option_map].
  all: run_metadata N.
  all: intros H; try discriminate H; apply returned_inj in H; subst doc.
  all: do 2 eexists.
  all: split; [reflexivity|]; split; [reflexivity|].
  all: split; [reflexivity|]; split; [reflexivity|].
  all: split; [reflexivity|].
  all: cbn [field Json.lookup String.eqb Ascii.eqb Bool.eqb Js.or Json.falsy];
    try reflexivity.
  all: destruct (String.eqb (FileHash.ipfsUrl pdf) "") eqn:Q;
    [apply String.eqb_eq in Q; rewrite Q|]; reflexivity.
Qed.

End Env.
End MetadataFacts.


(** X27 on the simulated clock: the creation date is unknown. *)
Lemma attribute_values_are_never_empty_witness :
  exists doc attributes,
    value (run Sim.E (prepareCertificationMetadata Sim.gateway
                        Demo.formData Demo.certificationData Demo.fileHashes)
             Sim.quiet) = Returned doc /\
    field "attributes" doc = Some (JArr attributes) /\
    nth_error (map (field "value") attributes) 2
      = Some (Some (JStr "Unknown")).
Proof.
  eexists.
  destruct (@MetadataFacts.attribute_values_are_never_empty
              Sim.gateway _ Sim.E Demo.formData Demo.certificationData
              Demo.fileHashes Sim.quiet _ eq_refl)
    as (attributes & A & _).
  exists attributes. split; [reflexivity|]. split; [exact A|].
  vm_compute in A. injection A as <-. reflexivity.
Defined.

(** X28 on the simulated clock: the description of the form has a
    [toString] of its own, and the call throws without reading the
    clock. *)
Lemma metadata_reads_the_clock_twice_witness :
  (exists e,
     value (run Sim.E (prepareCertificationMetadata Sim.gateway
                         Demo.unprintable Demo.certificationData
                         Demo.fileHashes) Sim.quiet) = Thrown e) /\
  trace (run Sim.E (prepareCertificationMetadata Sim.gateway
                      Demo.unprintable Demo.certificationData
                      Demo.fileHashes) Sim.quiet) = [].
Proof.
  pose proof (@MetadataFacts.metadata_reads_the_clock_twice
                Sim.gateway _ Sim.E Demo.unprintable Demo.certificationData
                Demo.fileHashes Sim.quiet) as H.
  cbv zeta in H. destruct H as (R & T & _).
  destruct (value (run Sim.E (prepareCertificationMetadata Sim.gateway
                                Demo.unprintable Demo.certificationData
                                Demo.fileHashes) Sim.quiet))
    as [doc|e] eqn:V.
  - destruct R as [R _].
    destruct (R (ex_intro _ doc eq_refl)) as (_ & _ & D & _).
    vm_compute in D. discriminate D.
  - split; [exists e; reflexivity | exact (T e eq_refl)].
Defined.

(** X29 on the simulated clock: neither a description nor a unique id
    nor a title. *)
Lemma missing_fields_are_written_as_undefined_witness :
  exists doc,
    value (run Sim.E (prepareCertificationMetadata Sim.gateway
                        Demo.formData Demo.certificationData Demo.fileHashes)
             Sim.quiet) = Returned doc /\
    field "description" doc = Some (JStr "undefined") /\
    field "external_url" doc
      = Some (JStr "https://artcertify.com/cert/undefined").
Proof.
  eexists. split; [reflexivity|].
  destruct (@MetadataFacts.missing_fields_are_written_as_undefined
              Sim.gateway _ Sim.E Demo.formData Demo.certificationData
              Demo.fileHashes Sim.quiet _ eq_refl)
    as (D & U & _).
  split; [apply D | apply U]; reflexivity.
Defined.

(** X30 on the simulated clock: a picture and a PDF. *)
Lemma every_file_is_listed_witness :
  exists doc,
    value (run Sim.E (prepareCertificationMetadata Sim.gateway
                        Demo.formData Demo.certificationData Demo.fileHashes)
             Sim.quiet) = Returned doc /\
    field "image" doc = Some (JStr "ipfs://QmFoto") /\
    field "animation_url" doc = Some (JStr "ipfs://QmContratto").
Proof.
  eexists. split; [reflexivity|].
  destruct (@MetadataFacts.every_file_is_listed
              Sim.gateway _ Sim.E Demo.formData Demo.certificationData
              Demo.fileHashes Sim.quiet _ eq_refl)
    as (properties & ipfs_info & _ & _ & _ & _ & I & A).
  split; [exact I | exact A].
Defined.
